(** * Watchtower task coordination: rewards-tree and RPL-price submission

    A shallow embedding of the two watchtower tasks of the smartnode
    daemon,

    - [SubmitRewardsTree_Stateless] (package [watchtower], rewards Merkle
      tree generation and submission), and
    - [SubmitRplPrice] (rocketpool/watchtower/submit-rpl-price.go, RPL
      price reports and the L2 price relays),

    together with the properties of interval detection, snapshot block
    resolution, artifact reuse, single-flight execution, duplicate
    submission probes and relay leader rotation.

    Conventions.  Go's [uint64] and [int64] are integers of [Z] with the
    wrap-around written out; [time.Duration] is a signed 64-bit count of
    nanoseconds; a [time.Time] is the number of nanoseconds since the Unix
    epoch.  Calls into collaborators that live outside the two source
    files (beacon and execution clients, contract storage, tree
    generator, upload, transaction layer) are fields of a [World] record:
    the answers the collaborators give during one invocation. *)

From Stdlib Require Import ZArith List Bool String Lia.
From stdpp Require Import base gmap strings list.

Local Open Scope Z_scope.
Set Warnings "-register-all".

(** ** Go machine integers *)

Module GoInt.

Definition two64 : Z := 2 ^ 64.
Definition two63 : Z := 2 ^ 63.
Definition maxInt64 : Z := two63 - 1.
Definition minInt64 : Z := - two63.

(** Arithmetic on [uint64] is modulo 2^64. *)
Definition u64 (x : Z) : Z := x mod two64.

(** [int64(x)] for an in-range or wrapped value: two's complement. *)
Definition i64 (x : Z) : Z := (x + two63) mod two64 - two63.

Definition is_u64 (x : Z) : Prop := 0 <= x < two64.
Definition is_i64 (x : Z) : Prop := minInt64 <= x <= maxInt64.

End GoInt.

(** ** Package [time] *)

Module GoTime.
Import GoInt.

(** [time.Duration]: int64 nanoseconds. *)
Definition Duration : Type := Z.
(** [time.Time]: an instant, in nanoseconds since the Unix epoch
    (unbounded: a [time.Time] reaches far beyond the years an int64 of
    nanoseconds spans). *)
Definition Time : Type := Z.

Definition Second : Duration := 1000000000.
Definition minDuration : Duration := minInt64.
Definition maxDuration : Duration := maxInt64.

(** [time.Unix(sec, 0)], for the seconds [time.Unix] keeps exact: it
    stores [sec + 62135596800] in an int64, so the two agree for
    [sec <= maxInt64 - 62135596800], which covers every block time a
    chain can carry for the next 292 billion years. *)
Definition Unix (sec : Z) : Time := sec * Second.

(** [t.Add(d)] *)
Definition Add (t : Time) (d : Duration) : Time := t + d.

(** [t.Sub(u)]: the difference, saturated to the range of [Duration]
    ("If the result exceeds the maximum (or minimum) value that can be
    stored in a Duration, the maximum (or minimum) duration will be
    returned"). *)
Definition Sub (t u : Time) : Duration :=
  if t - u <? minDuration then minDuration
  else if maxDuration <? t - u then maxDuration
  else t - u.

(** [a * b] on [Duration] (int64, wrapping). *)
Definition mul (a b : Duration) : Duration := i64 (a * b).

(** [a / b] on [Duration]: Go's integer division truncates toward zero
    and panics with "integer divide by zero" when [b = 0], which is
    [None] here; [minInt64 / -1] wraps to [minInt64]. *)
Definition div (a b : Duration) : option Duration :=
  if b =? 0 then None else Some (i64 (Z.quot a b)).

End GoTime.

(** ** Errors, results and byte strings *)

Definition bytes : Type := list Byte.byte.

(** Go [error] values.  [ErrWaiting] is the error that
    [getSnapshotConsensusBlock] builds with
    ["Snapshot end time = %s, slot (epoch) = %d (%d)... waiting until
    epoch %d is finalized (currently %d)."]; its arguments are the values
    printed. *)
Inductive error : Type :=
| ErrExternal (origin : string)
| ErrWrap (context : string) (cause : error)
| ErrText (text : string)
| ErrWaiting (endTime : GoTime.Time) (slot epoch required finalized : Z)
| ErrJoin (errs : list error).

(** A Go [(value, error)] return where the value is only used when the
    error is nil. *)
Inductive Result (A : Type) : Type :=
| Success (a : A)
| Failure (e : error).
Arguments Success {A} a.
Arguments Failure {A} e.

(** How a call ends: it returns, it panics (Go runtime panic), or the
    model's loop budget is exhausted. *)
Inductive Outcome (A : Type) : Type :=
| Done (a : A)
| Panic (msg : string)
| OutOfFuel.
Arguments Done {A} a.
Arguments Panic {A} msg.
Arguments OutOfFuel {A}.

Module errors.

(** [errors.Join]: nil when every argument is nil, otherwise an error
    wrapping the non-nil arguments in order. *)
Definition Join (errs : list (option error)) : option error :=
  match omap id errs with
  | [] => None
  | es => Some (ErrJoin es)
  end.

End errors.

Module bigint.

Definition byte_of (z : Z) : Byte.byte :=
  match Byte.of_N (Z.to_N z) with
  | Some b => b
  | None => Byte.x00
  end.

(** The [n] low-order bytes of [x], big-endian. *)
Fixpoint be_bytes (n : nat) (x : Z) : bytes :=
  match n with
  | O => []
  | S k => be_bytes k (x / 256) ++ [byte_of (x mod 256)]
  end.

(** [x.FillBytes(make([]byte, n))]: the absolute value of [x] as a
    zero-extended big-endian slice; panics ([None]) when it does not
    fit. *)
Definition FillBytes (n : nat) (x : Z) : option bytes :=
  if Z.abs x <? 256 ^ Z.of_nat n then Some (be_bytes n (Z.abs x)) else None.

End bigint.

(** ** Data read from the chains *)

Module beacon.

Record Eth2Config : Type := {
  GenesisTime : Z;       (* uint64 *)
  SecondsPerSlot : Z;    (* uint64 *)
  SlotsPerEpoch : Z      (* uint64 *)
}.

Record BeaconHead : Type := {
  FinalizedEpoch : Z     (* uint64 *)
}.

Record BeaconBlock : Type := {
  ExecutionBlockNumber : Z   (* uint64 *)
}.

(** [bc.GetBeaconBlock(id)] returns [(block, exists, err)]. *)
Inductive BlockLookup : Type :=
| LookupError (e : error)
| Missing
| Proposed (b : BeaconBlock).

(** The beacon client, as it answers during one invocation. *)
Record Client : Type := {
  GetBeaconHead : Result BeaconHead;
  GetBeaconBlock : Z -> BlockLookup
}.

End beacon.

Module state.

(** [common.Address], as the 160-bit number its 20 bytes spell. *)
Definition Address : Type := Z.

Record Details : Type := {
  IntervalStart : GoTime.Time;
  IntervalDuration : GoTime.Duration;
  RewardIndex : Z;                     (* uint64 *)
  SubmitPricesEnabled : bool;
  LatestReportablePricesBlock : Z;     (* uint64 *)
  PricesBlock : Z                      (* uint64 *)
}.

Record OracleDaoMember : Type := {
  Address_ : Address
}.

Record NetworkState : Type := {
  ElBlockNumber : Z;                   (* uint64 *)
  BeaconSlotNumber : Z;                (* uint64 *)
  BeaconConfig : beacon.Eth2Config;
  NetworkDetails : Details;
  OracleDaoMemberDetails : list OracleDaoMember
}.

End state.

Module rprewards.

(** The part of [sharedtypes.RewardsFileHeader] the task reads. *)
Record RewardsFileHeader : Type := {
  Index : Z;                 (* uint64 *)
  IntervalsPassed : Z;       (* uint64 *)
  MerkleRoot : string;
  InvalidNetworkNodes : list (state.Address * Z)
}.

(** A rewards file: its header, the CID of the companion minipool
    performance file, and the rest of its content. *)
Record RewardsFile : Type := {
  GetHeader : RewardsFileHeader;
  MinipoolPerformanceFileCID : string;
  Body : bytes
}.

Definition SetMinipoolPerformanceFileCID (f : RewardsFile) (cid : string) : RewardsFile :=
  {| GetHeader := GetHeader f; MinipoolPerformanceFileCID := cid; Body := Body f |}.

End rprewards.

(** ** Transactions *)

Module tx.

(** [bind.TransactOpts]: the fields the tasks write. *)
Record TransactOpts : Type := {
  From : state.Address;
  Value : Z;
  GasFeeCap : Z;
  GasTipCap : Z;
  GasLimit : Z
}.

Record GasInfo : Type := {
  EstGasLimit : Z;
  SafeGasLimit : Z
}.

Record TransactionInfo : Type := {
  SimError : string;
  GasInfo_ : GasInfo
}.

(** [rewards.RewardSubmission], without the per-network reward
    amounts copied from the file header. *)
Record RewardSubmission : Type := {
  RewardIndex : Z;
  ExecutionBlock : Z;
  ConsensusBlock : Z;
  MerkleRoot : bytes;
  MerkleTreeCID : string;
  IntervalsPassed : Z
}.

(** The contract calls the two tasks prepare. *)
Inductive Call : Type :=
| SubmitRewardSnapshot (submission : RewardSubmission)
| SubmitPrices (block rplPrice : Z)
| OptimismSubmitRate
| PolygonSubmitRate
| ArbitrumSubmitRate (maxSubmissionCost gasLimit maxFeePerGas : Z)
| ZkSyncEraSubmitRate (l2GasLimit gasPerPubdataByte : Z)
| BaseSubmitRate.

End tx.

(** ** Local storage and observable effects *)

(** What [os.Stat] and [os.ReadFile] find at a path that exists: content,
    or a file that cannot be read. *)
Inductive FileNode : Type :=
| Readable (content : bytes)
| Unreadable (e : error).

(** What the tasks do to the outside: log lines (recorded by their
    format strings), uploads and the two steps of a transaction. *)
Inductive Event : Type :=
| EvLog (line : string)
| EvErrLog (e : error)
| EvErrLogText (line : string)
| EvUpload (compressedPath : string) (compressed : bytes)
| EvSimulate (call : tx.Call) (opts : tx.TransactOpts)
| EvSend (call : tx.Call) (info : tx.TransactionInfo) (opts : tx.TransactOpts).

(** The state shared by every invocation of one task and by the
    goroutines it starts: the [isRunning] field (only accessed between
    [t.lock.Lock()] and [t.lock.Unlock()]), the local files, and the
    effects so far, oldest first. *)
Record Shared : Type := {
  isRunning : bool;
  files : gmap string FileNode;
  trace : list Event
}.

Definition emit (e : Event) (s : Shared) : Shared :=
  {| isRunning := isRunning s; files := files s; trace := trace s ++ [e] |}.

Definition setRunning (b : bool) (s : Shared) : Shared :=
  {| isRunning := b; files := files s; trace := trace s |}.

Definition setFile (path : string) (node : option FileNode) (s : Shared) : Shared :=
  {| isRunning := isRunning s;
     files := match node with
              | Some n => <[path := n]> (files s)
              | None => delete path (files s)
              end;
     trace := trace s |}.

(** ** Programs: atomic steps, goroutines, panics

    A task method is a tree of atomic steps on the shared state.  One
    [Act] is one critical section or one call into the operating system
    or a collaborator; [Go] is a [go func() { ... }()] statement.  The
    same program is run to completion ([run]) for the sequential
    properties and interleaved step by step ([Sched]) for the concurrent
    ones. *)

Inductive Prog (A : Type) : Type :=
| Ret (a : A)
| Crash (msg : string)
| Exhausted
| Act {X : Type} (step : Shared -> Shared * X) (k : X -> Prog A)
| Go (g : Prog unit) (k : Prog A).
Arguments Ret {A} a.
Arguments Crash {A} msg.
Arguments Exhausted {A}.
Arguments Act {A X} step k.
Arguments Go {A} g k.

Fixpoint bind {A B : Type} (p : Prog A) (f : A -> Prog B) : Prog B :=
  match p with
  | Ret a => f a
  | Crash msg => Crash msg
  | Exhausted => Exhausted
  | Act step k => Act step (fun x => bind (k x) f)
  | Go g k => Go g (bind k f)
  end.

#[global] Instance Prog_ret : MRet Prog := fun A a => Ret a.
#[global] Instance Prog_bind : MBind Prog := fun A B f p => bind p f.

Definition act {X : Type} (step : Shared -> Shared * X) : Prog X := Act step Ret.
Definition modify (f : Shared -> Shared) : Prog unit := act (fun s => (f s, tt)).

(** [t.log.Println] / [t.log.Printlnf] *)
Definition log (line : string) : Prog unit := modify (emit (EvLog line)).

(** [run p s]: [p] executed without interruption from [s]; the final
    state, how [p] ended, and the goroutines it started, in order. *)
Fixpoint run {A : Type} (p : Prog A) (s : Shared) : Shared * Outcome A * list (Prog unit) :=
  match p with
  | Ret a => (s, Done a, [])
  | Crash msg => (s, Panic msg, [])
  | Exhausted => (s, OutOfFuel, [])
  | Act step k => let '(s', x) := step s in run (k x) s'
  | Go g k => let '(s', r, gs) := run k s in (s', r, g :: gs)
  end.

(** The goroutines of [gs] run one after the other, each to completion;
    goroutines they start themselves are returned. *)
Fixpoint runAll (gs : list (Prog unit)) (s : Shared) : Shared * list (Prog unit) :=
  match gs with
  | [] => (s, [])
  | g :: rest =>
      let '(s', _, more) := run g s in
      let '(s'', more') := runAll rest s' in
      (s'', more ++ more')
  end.

(** A call and then the goroutines it started: the schedule in which
    the entry point returns before its background work begins and no
    other call intervenes. *)
Definition runThrough {A : Type} (p : Prog A) (s : Shared) : Shared * Outcome A :=
  let '(s', r, gs) := run p s in
  (fst (runAll gs s'), r).

Definition lift {A : Type} (o : Outcome A) : Prog A :=
  match o with
  | Done a => Ret a
  | Panic msg => Crash msg
  | OutOfFuel => Exhausted
  end.

Definition emitAll (es : list Event) (s : Shared) : Shared :=
  {| isRunning := isRunning s; files := files s; trace := trace s ++ es |}.

(** ** The collaborators *)

(** [cfgtypes.RewardsMode] *)
Inductive RewardsMode : Type :=
| RewardsMode_Unknown
| RewardsMode_Download
| RewardsMode_Generate.

(** The two float64 expressions of the tasks.  On a non-negative whole
    number of seconds (below 2^53, as every [Duration] is) float64
    arithmetic is exact and the model computes the value; elsewhere the
    value is whatever float64 rounding and Go's implementation-dependent
    float-to-uint64 conversion give, and is taken from this record. *)
Record FloatUnit : Type := {
  (** [uint64(math.Ceil(d.Seconds() / float64(n)))] *)
  ceilSecondsOver : GoTime.Duration -> Z -> Z;
  (** [uint64(d.Seconds())] *)
  truncSeconds : GoTime.Duration -> Z
}.

(** Contract storage behind [rp.Storage.GetBool] and the hash that
    addresses it. *)
Record Storage : Type := {
  Keccak256Hash : bytes -> bytes;
  GetBool : bytes -> bool * option error
}.

(** The execution client's block headers. *)
Record Header : Type := {
  Number : Z;
  Time_ : Z      (* uint64 *)
}.

(** Wallet, transaction simulation, gas check and transaction
    submission. *)
Record TxLayer : Type := {
  GetAddress : state.Address;
  GetTransactor : Result tx.TransactOpts;
  (** [X.SubmitY(args, opts)]: the Go call returns [(txInfo, err)] *)
  GetTxInfo : tx.Call -> tx.TransactOpts -> option tx.TransactionInfo * option error;
  PrintAndCheckGasInfo : tx.GasInfo -> Z -> bool;
  PrintAndWaitForTransaction : tx.TransactionInfo -> tx.TransactOpts -> option error;
  (** [eth.GweiToWei(utils.GetWatchtowerMaxFee(t.cfg))] *)
  maxFee : Z;
  (** [eth.GweiToWei(utils.GetWatchtowerPrioFee(t.cfg))] *)
  prioFee : Z
}.

(** Faults of the local file system: for a path, the error of the next
    [os.WriteFile] with what it leaves at the path, of [os.Create], and
    of [File.Write] with what it leaves. *)
Record FileFaults : Type := {
  WriteFileFault : string -> option (error * option FileNode);
  CreateFault : string -> option error;
  WriteFault : string -> option (error * FileNode)
}.

(** Web3.Storage and the zstd encoder. *)
Record Web3Storage : Type := {
  Web3StorageApiToken : string;
  NewClient : option error;
  EncodeAll : bytes -> bytes;
  Put : bytes -> Result string
}.

(** What the tree generator is asked for. *)
Record TreeRequest : Type := {
  reqIndex : Z;
  reqStartTime : GoTime.Time;
  reqEndTime : GoTime.Time;
  reqSnapshotBeaconBlock : Z;
  reqElBlockNumber : Z;
  reqIntervalsPassed : Z
}.

(** Package [rprewards] and the state manager used by generation. *)
Record TreeGen : Type := {
  DeserializeRewardsFile : bytes -> Result rprewards.RewardsFile;
  Serialize : rprewards.RewardsFile -> Result bytes;
  SerializeMinipoolPerformance : rprewards.RewardsFile -> Result bytes;
  GetBestApiClient : Z -> option error;
  NewNetworkStateManager : option error;
  GetStateForSlotAtSnapshot : Z -> option error;
  NewTreeGenerator : TreeRequest -> option error;
  GenerateTree : TreeRequest -> Result rprewards.RewardsFile;
  DecodeMerkleRoot : string -> Result bytes
}.

(** Everything the rewards task and the price task call into. *)
Record World : Type := {
  fl : FloatUnit;
  bc : beacon.Client;
  HeaderByNumber : Z -> Result Header;
  GetStateForSlot : Z -> Result state.NetworkState;
  rpStorage : Storage;
  txl : TxLayer;
  faults : FileFaults;
  w3s : Web3Storage;
  gen : TreeGen;
  RewardsTreeMode : RewardsMode;
  GetRewardsTreePath : Z -> string;
  GetMinipoolPerformancePath : Z -> string;
  RewardsTreeIpfsExtension : string;
  NewRewardsPool : option error;
  enableSubmissionAfterConsensus_RewardsTree : bool;
  IsNextPeriodRevert : error -> bool;
  RewardsSubmissionForcedGas : Z
}.

(** ** The steps every submission shares *)

Module txflow.

(** [txInfo, err := X.SubmitY(args, opts)]: the transaction is built
    and simulated. *)
Definition simulate (t : TxLayer) (call : tx.Call) (opts : tx.TransactOpts)
  : Prog (option tx.TransactionInfo * option error) :=
  act (fun s => (emit (EvSimulate call opts) s, GetTxInfo t call opts)).

(** [opts.GasFeeCap = maxFee; opts.GasTipCap = ...;
     opts.GasLimit = txInfo.GasInfo.SafeGasLimit] *)
Definition withGas (t : TxLayer) (txInfo : tx.TransactionInfo) (opts : tx.TransactOpts)
  : tx.TransactOpts :=
  {| tx.From := tx.From opts;
     tx.Value := tx.Value opts;
     tx.GasFeeCap := maxFee t;
     tx.GasTipCap := prioFee t;
     tx.GasLimit := tx.SafeGasLimit (tx.GasInfo_ txInfo) |}.

(** The end of every submit function: fail on a simulation error,
    return nil when the gas check refuses, otherwise set the gas
    fields of [opts] and send; [logSuccess] is the line logged after a
    transaction that went through.  [opts] is a pointer in the source;
    the updated value is returned with the error. *)
Definition checkAndSend (t : TxLayer) (simFailed : string) (call : tx.Call)
    (txInfo : tx.TransactionInfo) (opts : tx.TransactOpts) (logSuccess : Prog unit)
  : Prog (tx.TransactOpts * option error) :=
  if negb (String.eqb (tx.SimError txInfo) "")
  then Ret (opts, Some (ErrText simFailed))
  else if negb (PrintAndCheckGasInfo t (tx.GasInfo_ txInfo) (maxFee t))
  then Ret (opts, None)
  else
    let opts' := withGas t txInfo opts in
    err ← act (fun s => (emit (EvSend call txInfo opts') s,
                         PrintAndWaitForTransaction t txInfo opts'));
    match err with
    | Some e => Ret (opts', Some e)
    | None => logSuccess;; Ret (opts', None)
    end.

End txflow.

(** * The rewards tree task, [SubmitRewardsTree_Stateless]

    The handles [t.cfg], [t.w], [t.rp], [t.ec], [t.bc] and
    [t.rewardsPool] are bound by [Run] from the service provider; the
    model reads every collaborator from the [World], so it describes the
    invocations in which the handles that [Run] uses are bound. *)

Module SubmitRewardsTree.
Import GoInt GoTime.

Definition generationPrefix : string := "[Merkle Tree]".

(** *** Interval detection ([Run], lines 90 to 103) *)

(** [genesisTime.Add(time.Duration(SecondsPerSlot*BeaconSlotNumber) * time.Second)] *)
Definition stateTime (st : state.NetworkState) : Time :=
  let eth2Config := state.BeaconConfig st in
  let genesisTime := Unix (i64 (beacon.GenesisTime eth2Config)) in
  let secondsSinceGenesis :=
    mul (i64 (u64 (beacon.SecondsPerSlot eth2Config * state.BeaconSlotNumber st))) Second in
  Add genesisTime secondsSinceGenesis.

(** [timeSinceStart := stateTime.Sub(startTime);
     intervalsPassed := timeSinceStart / intervalTime] *)
Definition intervalsPassed (stateTime startTime : Time) (intervalTime : Duration)
  : option Duration :=
  let timeSinceStart := Sub stateTime startTime in
  div timeSinceStart intervalTime.

(** *** Snapshot block resolution ([getSnapshotConsensusBlock]) *)

(** [uint64(math.Ceil(totalTimespan.Seconds() / float64(SecondsPerSlot)))] *)
Definition ceilSlots (f : FloatUnit) (totalTimespan : Duration) (secondsPerSlot : Z) : Z :=
  if (0 <=? totalTimespan) && (totalTimespan mod Second =? 0) && (0 <? secondsPerSlot)
  then (totalTimespan / Second + secondsPerSlot - 1) / secondsPerSlot
  else u64 (ceilSecondsOver f totalTimespan secondsPerSlot).

(** The slot of the first line of the computation, before alignment. *)
Definition rawTargetSlot (w : World) (endTime : Time) (st : state.NetworkState) : Z :=
  let eth2Config := state.BeaconConfig st in
  let genesisTime := Unix (i64 (beacon.GenesisTime eth2Config)) in
  let totalTimespan := Sub endTime genesisTime in
  ceilSlots (fl w) totalTimespan (beacon.SecondsPerSlot eth2Config).

(** [targetSlotEpoch := targetSlot / eth2Config.SlotsPerEpoch] *)
Definition targetSlotEpoch (w : World) (endTime : Time) (st : state.NetworkState) : Z :=
  rawTargetSlot w endTime st / beacon.SlotsPerEpoch (state.BeaconConfig st).

(** [targetSlot = targetSlotEpoch*SlotsPerEpoch + (SlotsPerEpoch - 1)] *)
Definition targetSlot (w : World) (endTime : Time) (st : state.NetworkState) : Z :=
  let slotsPerEpoch := beacon.SlotsPerEpoch (state.BeaconConfig st) in
  u64 (targetSlotEpoch w endTime st * slotsPerEpoch + (slotsPerEpoch - 1)).

(** [requiredEpoch := targetSlotEpoch + 1] *)
Definition requiredEpoch (w : World) (endTime : Time) (st : state.NetworkState) : Z :=
  u64 (targetSlotEpoch w endTime st + 1).

(** The loop "Get the first successful block": one iteration per unit
    of [fuel]; [targetSlot--] is a uint64 decrement. *)
Fixpoint firstProposedBlock (client : beacon.Client) (fuel : nat) (targetSlot : Z)
  : list Event * Outcome (Z * Z * option error) :=
  match fuel with
  | O => ([], OutOfFuel)
  | S fuel' =>
      match beacon.GetBeaconBlock client targetSlot with
      | beacon.LookupError err =>
          ([], Done (0, 0, Some (ErrWrap "error getting Beacon block %d" err)))
      | beacon.Missing =>
          let '(logs, r) := firstProposedBlock client fuel' (u64 (targetSlot - 1)) in
          (EvLog "Slot %d was missing, trying the previous one..." :: logs, r)
      | beacon.Proposed block =>
          ([], Done (targetSlot, beacon.ExecutionBlockNumber block, None))
      end
  end.

(** [getSnapshotConsensusBlock(endTime, state)]: the Go triple
    [(slot, executionBlock, err)] and the lines logged. *)
Definition getSnapshotConsensusBlock (w : World) (fuel : nat) (endTime : Time) (st : state.NetworkState)
  : list Event * Outcome (Z * Z * option error) :=
  match beacon.GetBeaconHead (bc w) with
  | Failure err => ([], Done (0, 0, Some (ErrWrap "error getting Beacon head" err)))
  | Success beaconHead =>
      if beacon.SlotsPerEpoch (state.BeaconConfig st) =? 0
      then ([], Panic "runtime error: integer divide by zero")
      else if beacon.FinalizedEpoch beaconHead <? requiredEpoch w endTime st
      then ([], Done (0, 0, Some (ErrWaiting endTime (targetSlot w endTime st)
                                    (targetSlotEpoch w endTime st)
                                    (requiredEpoch w endTime st)
                                    (beacon.FinalizedEpoch beaconHead))))
      else firstProposedBlock (bc w) fuel (targetSlot w endTime st)
  end.

(** *** Artifact reuse ([isExistingFileValid]) *)

(** The [os.Stat] and the [os.ReadFile] see the same files [fs]. *)
Definition isExistingFileValid (g : TreeGen) (fs : gmap string FileNode)
    (rewardsTreePath : string) (intervalsPassed : Z) : bool * list Event :=
  match fs !! rewardsTreePath with
  | Some (Unreadable err) =>
      (false, [EvLog "WARNING: failed to read %s: %s Regenerating file..."])
  | Some (Readable fileBytes) =>
      match DeserializeRewardsFile g fileBytes with
      | Failure err =>
          (false, [EvLog "WARNING: failed to deserialize %s: %s Regenerating file..."])
      | Success proofWrapper =>
          let header := rprewards.GetHeader proofWrapper in
          if negb (rprewards.IntervalsPassed header =? intervalsPassed)
          then (false, [EvLog "Existing file for interval %d had %d intervals passed but %d have passed now, regenerating file..."])
          else (true, [])
      end
  | None => (false, [])
  end.

(** *** The submission record ([hasSubmittedTree]) *)

Definition AddressBytes (a : state.Address) : bytes := bigint.be_bytes 20 a.

Definition submittedTreeKey (st : Storage) (nodeAddress : state.Address) (indexBuffer : bytes) : bytes :=
  Keccak256Hash st (list_byte_of_string "rewards.snapshot.submitted.node"
                      ++ AddressBytes nodeAddress ++ indexBuffer).

Definition hasSubmittedTree (st : Storage) (nodeAddress : state.Address) (index : Z)
  : Outcome (bool * option error) :=
  match bigint.FillBytes 32 index with
  | None => Panic "math/big: buffer too small to fit value"
  | Some indexBuffer => Done (GetBool st (submittedTreeKey st nodeAddress indexBuffer))
  end.

(** *** [handleError] *)

Definition handleError (err : error) : Prog unit :=
  modify (emit (EvErrLog (ErrWrap generationPrefix err)));;
  modify (emit (EvErrLogText "*** Rewards tree generation failed. ***"));;
  modify (setRunning false).

Definition printMessage (message : string) : Prog unit := log message.

(** *** Files *)

(** [os.ReadFile(path)] *)
Definition ReadFile (path : string) : Prog (Result bytes) :=
  act (fun s => (s, match files s !! path with
                    | Some (Readable content) => Success content
                    | Some (Unreadable err) => Failure err
                    | None => Failure (ErrExternal "open: no such file or directory")
                    end)).

(** [os.WriteFile(path, data, 0644)] *)
Definition WriteFile (w : World) (path : string) (data : bytes) : Prog (option error) :=
  match WriteFileFault (faults w) path with
  | Some (err, remains) => modify (setFile path remains);; Ret (Some err)
  | None => modify (setFile path (Some (Readable data)));; Ret None
  end.

(** *** [uploadFileToWeb3Storage] *)

Definition uploadFileToWeb3Storage (w : World) (wrapperBytes : bytes)
    (compressedPath description : string) : Prog (string * option error) :=
  if String.eqb (Web3StorageApiToken (w3s w)) ""
  then Ret (""%string, Some (ErrText "***ERROR*** You have not configured your Web3.Storage API token yet, so you cannot submit Merkle rewards trees."))
  else
    match NewClient (w3s w) with
    | Some err => Ret (""%string, Some (ErrWrap "error creating new Web3.Storage client" err))
    | None =>
        let compressedBytes := EncodeAll (w3s w) wrapperBytes in
        match CreateFault (faults w) compressedPath with
        | Some err => Ret (""%string, Some (ErrWrap "error creating %s file [%s]" err))
        | None =>
            modify (setFile compressedPath (Some (Readable [])));;
            match WriteFault (faults w) compressedPath with
            | Some (err, remains) =>
                modify (setFile compressedPath (Some remains));;
                Ret (""%string, Some (ErrWrap "error writing %s to %s" err))
            | None =>
                modify (setFile compressedPath (Some (Readable compressedBytes)));;
                r ← act (fun s => (emit (EvUpload compressedPath compressedBytes) s,
                                   Put (w3s w) compressedBytes));
                match r with
                | Failure err => Ret (""%string, Some (ErrWrap "error uploading %s" err))
                | Success cid => Ret (cid, None)
                end
            end
        end
    end.

(** *** [submitRewardsSnapshot] *)

(** [common.BytesToHash]: the last 32 bytes, padded on the left. *)
Definition BytesToHash (b : bytes) : bytes :=
  let b' := drop (length b - 32)%nat b in
  replicate (32 - length b')%nat Byte.x00 ++ b'.

Definition submitRewardsSnapshot (w : World) (index consensusBlock executionBlock : Z)
    (rewardsFileHeader : rprewards.RewardsFileHeader) (cid : string) (intervalsPassed : Z)
  : Prog (option error) :=
  match DecodeMerkleRoot (gen w) (rprewards.MerkleRoot rewardsFileHeader) with
  | Failure err => Ret (Some (ErrWrap "error decoding merkle root" err))
  | Success treeRootBytes =>
      let treeRoot := BytesToHash treeRootBytes in
      match GetTransactor (txl w) with
      | Failure err => Ret (Some err)
      | Success opts =>
          let submission :=
            {| tx.RewardIndex := index;
               tx.ExecutionBlock := executionBlock;
               tx.ConsensusBlock := consensusBlock;
               tx.MerkleRoot := treeRoot;
               tx.MerkleTreeCID := cid;
               tx.IntervalsPassed := intervalsPassed |} in
          let call := tx.SubmitRewardSnapshot submission in
          let finish (txInfo : tx.TransactionInfo) : Prog (option error) :=
            r ← txflow.checkAndSend (txl w)
                   "simulating TX for submitting the rewards tree failed: %s"
                   call txInfo opts (Ret tt);
            Ret (snd r) in
          r ← txflow.simulate (txl w) call opts;
          match r with
          | (txInfo, Some err) =>
              if enableSubmissionAfterConsensus_RewardsTree w && IsNextPeriodRevert w err
              then
                match txInfo with
                | None => Crash "runtime error: invalid memory address or nil pointer dereference"
                | Some info =>
                    let forced :=
                      {| tx.SimError := tx.SimError info;
                         tx.GasInfo_ :=
                           {| tx.EstGasLimit := RewardsSubmissionForcedGas w;
                              tx.SafeGasLimit := RewardsSubmissionForcedGas w |} |} in
                    log "Rewards period consensus has already been reached but submitting anyway for the health check.";;
                    finish forced
                end
              else Ret (Some (ErrWrap "error getting TX for submitting the rewards tree" err))
          | (None, None) => Crash "runtime error: invalid memory address or nil pointer dereference"
          | (Some info, None) => finish info
          end
      end
  end.

(** *** [generateTreeImpl] and [generateTree] *)

Definition generateTreeImpl (w : World) (intervalsPassed : Duration) (nodeTrusted : bool)
    (currentIndex snapshotBeaconBlock elBlockIndex : Z) (startTime endTime : Time)
    (snapshotElBlockHeader : Header)
    (rewardsTreePath compressedRewardsTreePath
     minipoolPerformancePath compressedMinipoolPerformancePath : string)
  : Prog (option error) :=
  (if 1 <? u64 intervalsPassed
   then log "WARNING: %d intervals have passed since the last rewards checkpoint was submitted! Rolling them into one..."
   else Ret tt);;
  log "Rewards checkpoint has passed, starting Merkle tree generation for interval %d in the background.";;
  match NewNetworkStateManager (gen w) with
  | Some err => Ret (Some (ErrWrap "error creating network state manager for EL block %d, Beacon slot %d" err))
  | None =>
  match GetStateForSlotAtSnapshot (gen w) snapshotBeaconBlock with
  | Some err => Ret (Some (ErrWrap "couldn't get network state for EL block %d, Beacon slot %d" err))
  | None =>
  let request :=
    {| reqIndex := currentIndex;
       reqStartTime := startTime;
       reqEndTime := endTime;
       reqSnapshotBeaconBlock := snapshotBeaconBlock;
       reqElBlockNumber := Number snapshotElBlockHeader;
       reqIntervalsPassed := u64 intervalsPassed |} in
  match NewTreeGenerator (gen w) request with
  | Some err => Ret (Some (ErrWrap "error creating Merkle tree generator" err))
  | None =>
  match GenerateTree (gen w) request with
  | Failure err => Ret (Some (ErrWrap "error generating Merkle tree" err))
  | Success rewardsFile =>
  modify (emitAll (map (fun _ => EvLog "WARNING: Node %s has invalid network %d assigned! Using 0 (mainnet) instead.")
                       (rprewards.InvalidNetworkNodes (rprewards.GetHeader rewardsFile))));;
  match SerializeMinipoolPerformance (gen w) rewardsFile with
  | Failure err => Ret (Some (ErrWrap "error serializing minipool performance file into JSON" err))
  | Success minipoolPerformanceBytes =>
  werr ← WriteFile w minipoolPerformancePath minipoolPerformanceBytes;
  match werr with
  | Some err => Ret (Some (ErrWrap "error saving minipool performance file to %s" err))
  | None =>
  (** Upload it if this is an Oracle DAO node *)
  r ← (if nodeTrusted
       then
         printMessage "Uploading minipool performance file to Web3.Storage...";;
         up ← uploadFileToWeb3Storage w minipoolPerformanceBytes
                compressedMinipoolPerformancePath "compressed minipool performance";
         match up with
         | (_, Some err) =>
             Ret (Failure (ErrWrap "error uploading minipool performance file to Web3.Storage" err))
         | (minipoolPerformanceCid, None) =>
             printMessage "Uploaded minipool performance file with CID %s";;
             Ret (Success (rprewards.SetMinipoolPerformanceFileCID rewardsFile minipoolPerformanceCid))
         end
       else
         printMessage "Saved minipool performance file.";;
         Ret (Success (rprewards.SetMinipoolPerformanceFileCID rewardsFile "---")));
  match r with
  | Failure err => Ret (Some err)
  | Success rewardsFile =>
  match Serialize (gen w) rewardsFile with
  | Failure err => Ret (Some (ErrWrap "error serializing proof wrapper into JSON" err))
  | Success wrapperBytes =>
  printMessage "Generation complete! Saving tree...";;
  werr ← WriteFile w rewardsTreePath wrapperBytes;
  match werr with
  | Some err => Ret (Some (ErrWrap "error saving rewards tree file to %s" err))
  | None =>
  (** Only do the upload and submission process if this is an Oracle DAO node *)
  if nodeTrusted
  then
    printMessage "Uploading to Web3.Storage and submitting results to the contracts...";;
    up ← uploadFileToWeb3Storage w wrapperBytes compressedRewardsTreePath "compressed rewards tree";
    match up with
    | (_, Some err) => Ret (Some (ErrWrap "error uploading Merkle tree to Web3.Storage" err))
    | (cid, None) =>
        printMessage "Uploaded Merkle tree with CID %s";;
        serr ← submitRewardsSnapshot w (i64 currentIndex) snapshotBeaconBlock elBlockIndex
                 (rprewards.GetHeader rewardsFile) cid intervalsPassed;
        match serr with
        | Some err => Ret (Some (ErrWrap "error submitting rewards snapshot" err))
        | None =>
            printMessage "Successfully submitted rewards snapshot for interval %d.";;
            Ret None
        end
    end
  else
    printMessage "Successfully generated rewards snapshot for interval %d.";;
    Ret None
  end end end end end end end end end.

(** The body of the goroutine started by [generateTree]. *)
Definition generateTreeRoutine (w : World) (intervalsPassed : Duration) (nodeTrusted : bool)
    (currentIndex snapshotBeaconBlock elBlockIndex : Z) (startTime endTime : Time)
    (snapshotElBlockHeader : Header)
    (rewardsTreePath compressedRewardsTreePath
     minipoolPerformancePath compressedMinipoolPerformancePath : string)
  : Prog unit :=
  modify (setRunning true);;
  match GetBestApiClient (gen w) (Number snapshotElBlockHeader) with
  | Some err => handleError err
  | None =>
      err ← generateTreeImpl w intervalsPassed nodeTrusted currentIndex snapshotBeaconBlock
              elBlockIndex startTime endTime snapshotElBlockHeader rewardsTreePath
              compressedRewardsTreePath minipoolPerformancePath compressedMinipoolPerformancePath;
      match err with
      | Some e => handleError e
      | None => Ret tt
      end;;
      modify (setRunning false)
  end.

(** [generateTree]: "Kick off the tree generation goroutine". *)
Definition generateTree (w : World) (intervalsPassed : Duration) (nodeTrusted : bool)
    (currentIndex snapshotBeaconBlock elBlockIndex : Z) (startTime endTime : Time)
    (snapshotElBlockHeader : Header)
    (rewardsTreePath compressedRewardsTreePath
     minipoolPerformancePath compressedMinipoolPerformancePath : string)
  : Prog unit :=
  Go (generateTreeRoutine w intervalsPassed nodeTrusted currentIndex snapshotBeaconBlock
        elBlockIndex startTime endTime snapshotElBlockHeader rewardsTreePath
        compressedRewardsTreePath minipoolPerformancePath compressedMinipoolPerformancePath)
     (Ret tt).

(** *** [Run] *)

(** "Check if rewards generation is already running": the critical
    section of lines 123 to 129. *)
Definition checkRunning : Prog bool :=
  act (fun s =>
         if isRunning s
         then (emit (EvLog "Tree generation is already running in the background.") s, true)
         else (s, false)).

(** [Run] from "Get services" to the end (lines 131 to 200). *)
Definition Run_work (w : World) (nodeTrusted : bool) (st : state.NetworkState)
    (intervalsPassed : Duration) (startTime endTime : Time)
    (snapshotBeaconBlock elBlockIndex : Z) (snapshotElBlockHeader : Header)
  : Prog (option error) :=
  let currentIndex := state.RewardIndex (state.NetworkDetails st) in
  let currentIndexBig := currentIndex in
  let nodeAddress := GetAddress (txl w) in
  match NewRewardsPool w with
  | Some err =>
      handleError (ErrWrap "error creating Rewards Pool binding" err);;
      Ret None
  | None =>
  (** Get the expected file paths *)
  let rewardsTreePath := GetRewardsTreePath w currentIndex in
  let compressedRewardsTreePath := (rewardsTreePath ++ RewardsTreeIpfsExtension w)%string in
  let minipoolPerformancePath := GetMinipoolPerformancePath w currentIndex in
  let compressedMinipoolPerformancePath :=
    (minipoolPerformancePath ++ RewardsTreeIpfsExtension w)%string in
  (** Check if we can reuse an existing file for this interval *)
  valid ← act (fun s =>
                 let '(ok, logs) :=
                   isExistingFileValid (gen w) (files s) rewardsTreePath (u64 intervalsPassed) in
                 (emitAll logs s, ok));
  if valid : bool
  then
    if negb nodeTrusted
    then
      log "Merkle rewards tree for interval %d already exists at %s.";;
      Ret None
    else
      (** Return if this node has already submitted the tree for the
          current interval and there's a file present *)
      probe ← lift (hasSubmittedTree (rpStorage w) nodeAddress currentIndexBig);
      match probe with
      | (_, Some err) =>
          Ret (Some (ErrWrap "error checking if Merkle tree submission has already been processed" err))
      | (true, None) => Ret None
      | (false, None) =>
          log "Merkle rewards tree for interval %d already exists at %s, attempting to resubmit...";;
          (** Deserialize the file *)
          rd ← ReadFile rewardsTreePath;
          match rd with
          | Failure err => Ret (Some (ErrWrap "error reading rewards tree file" err))
          | Success wrapperBytes =>
          match DeserializeRewardsFile (gen w) wrapperBytes with
          | Failure err => Ret (Some (ErrWrap "error deserializing rewards tree file" err))
          | Success proofWrapper =>
          (** Upload the file *)
          up ← uploadFileToWeb3Storage w wrapperBytes compressedRewardsTreePath "compressed rewards tree";
          match up with
          | (_, Some err) => Ret (Some (ErrWrap "error uploading Merkle tree to Web3.Storage" err))
          | (cid, None) =>
          log "Uploaded Merkle tree with CID %s";;
          (** Submit to the contracts *)
          serr ← submitRewardsSnapshot w currentIndexBig snapshotBeaconBlock elBlockIndex
                   (rprewards.GetHeader proofWrapper) cid intervalsPassed;
          match serr with
          | Some err => Ret (Some (ErrWrap "error submitting rewards snapshot" err))
          | None =>
              log "Successfully submitted rewards snapshot for interval %d.";;
              Ret None
          end end end end
      end
  else
    (** Generate the tree *)
    generateTree w intervalsPassed nodeTrusted currentIndex snapshotBeaconBlock elBlockIndex
      startTime endTime snapshotElBlockHeader rewardsTreePath compressedRewardsTreePath
      minipoolPerformancePath compressedMinipoolPerformancePath;;
    Ret None
  end.

(** [Run] from "Checking for rewards checkpoint..." on (lines 87 to
    200), for the state [st] the task works with. *)
Definition Run_checkpoint (w : World) (fuel : nat) (nodeTrusted : bool) (st : state.NetworkState)
  : Prog (option error) :=
  log "Checking for rewards checkpoint...";;
  (** Check if a rewards interval has passed and needs to be calculated *)
  let startTime := state.IntervalStart (state.NetworkDetails st) in
  let intervalTime := state.IntervalDuration (state.NetworkDetails st) in
  match intervalsPassed (stateTime st) startTime intervalTime with
  | None => Crash "runtime error: integer divide by zero"
  | Some intervalsPassed =>
  let endTime := Add startTime (mul intervalTime intervalsPassed) in
  if intervalsPassed =? 0
  then Ret None
  else
    (** Get the block and timestamp of the consensus block that best
        matches the end time *)
    let '(logs, resolved) := getSnapshotConsensusBlock w fuel endTime st in
    modify (emitAll logs);;
    r ← lift resolved;
    match r with
    | (_, _, Some err) => Ret (Some err)
    | (snapshotBeaconBlock, elBlockNumber, None) =>
    (** Get the number of the EL block matching the CL snapshot block *)
    match HeaderByNumber w (i64 elBlockNumber) with
    | Failure err => Ret (Some err)
    | Success snapshotElBlockHeader =>
    let elBlockIndex := u64 (Z.abs (Number snapshotElBlockHeader)) in
    (** Check if rewards generation is already running *)
    running ← checkRunning;
    if running : bool
    then Ret None
    else Run_work w nodeTrusted st intervalsPassed startTime endTime
           snapshotBeaconBlock elBlockIndex snapshotElBlockHeader
    end end
  end.

(** [(t *SubmitRewardsTree_Stateless) Run(nodeTrusted, state, beaconSlot)] *)
Definition Run (w : World) (fuel : nat) (nodeTrusted : bool) (st : state.NetworkState)
    (beaconSlot : Z) : Prog (option error) :=
  (** Check node trusted status *)
  if negb nodeTrusted
  then
    match RewardsTreeMode w with
    | RewardsMode_Generate =>
        (** Create the state, since it's not done except for manual generators *)
        match GetStateForSlot w beaconSlot with
        | Failure err => Ret (Some (ErrWrap "error getting state for beacon slot %d" err))
        | Success st' => Run_checkpoint w fuel nodeTrusted st'
        end
    | _ => Ret None
    end
  else Run_checkpoint w fuel nodeTrusted st.

End SubmitRewardsTree.

(** * The RPL price task, [SubmitRplPrice] *)

(** The relay targets, in the order [updateL2Prices] treats them. *)
Inductive Target : Type :=
| Optimism
| Polygon
| Arbitrum
| ZkSyncEra
| Base.

(** What only the price task calls into. *)
Record PriceWorld : Type := {
  (** [cfg.Smartnode.GetXMessengerAddress()]; empty when not deployed *)
  MessengerAddress : Target -> string;
  (** the error of [contracts.NewXMessenger(address, ec)] *)
  NewMessenger : Target -> option error;
  (** the batched [IsRateStale] query: its error and its answers *)
  StaleQuery : option error;
  IsRateStale : Target -> bool;
  GetMaxFeeWeiForDaemon : Result Z;
  (** [eth.GweiToWei(0.1)] *)
  arbitrumMaxFeePerGas : Z;
  (** [eth.GweiToWei(0.5)] *)
  fairL2GasPrice : Z;
  (** [getRplTwap(blockNumber)]: the TWAP observation and its arithmetic *)
  getRplTwap : Z -> Result Z;
  NewNetworkManager : option error
}.

Module SubmitRplPrice.
Import GoInt GoTime.

(** Settings *)
Definition SubmissionKey : string := "network.prices.submitted.node.key".
Definition BlocksPerTurn : Z := 75.

Definition handleError (err : error) : Prog unit :=
  modify (emit (EvErrLog err));;
  modify (emit (EvErrLogText "*** Price report failed. ***"));;
  modify (setRunning false).

(** *** Submission records *)

Definition AddressBytes (a : state.Address) : bytes := bigint.be_bytes 20 a.

(** [hasSubmittedBlockPrices] *)
Definition hasSubmittedBlockPrices (st : Storage) (nodeAddress : state.Address) (blockNumber : Z)
  : Outcome (bool * option error) :=
  match bigint.FillBytes 32 (i64 blockNumber) with
  | None => Panic "math/big: buffer too small to fit value"
  | Some blockNumberBuf =>
      Done (GetBool st (Keccak256Hash st (list_byte_of_string SubmissionKey
                                            ++ AddressBytes nodeAddress ++ blockNumberBuf)))
  end.

(** [hasSubmittedSpecificBlockPrices] *)
Definition hasSubmittedSpecificBlockPrices (st : Storage) (nodeAddress : state.Address)
    (blockNumber rplPrice : Z) : Outcome (bool * option error) :=
  match bigint.FillBytes 32 (i64 blockNumber) with
  | None => Panic "math/big: buffer too small to fit value"
  | Some blockNumberBuf =>
      match bigint.FillBytes 32 rplPrice with
      | None => Panic "math/big: buffer too small to fit value"
      | Some rplPriceBuf =>
          Done (GetBool st (Keccak256Hash st (list_byte_of_string SubmissionKey
                                                ++ AddressBytes nodeAddress
                                                ++ blockNumberBuf ++ rplPriceBuf)))
      end
  end.

(** *** Submitting *)

(** After [txInfo, err := ...]: the error is wrapped and returned; a
    nil [txInfo] with a nil error is dereferenced. *)
Definition tryTx (w : World) (call : tx.Call) (opts : tx.TransactOpts)
    (getFailed simFailed : string) (logSuccess : Prog unit)
  : Prog (tx.TransactOpts * option error) :=
  r ← txflow.simulate (txl w) call opts;
  match r with
  | (_, Some err) => Ret (opts, Some (ErrWrap getFailed err))
  | (None, None) => Crash "runtime error: invalid memory address or nil pointer dereference"
  | (Some txInfo, None) => txflow.checkAndSend (txl w) simFailed call txInfo opts logSuccess
  end.

(** [submitRplPrice] *)
Definition submitRplPrice (w : World) (pw : PriceWorld) (blockNumber rplPrice : Z)
  : Prog (option error) :=
  log "Submitting RPL price for block %d...";;
  match GetTransactor (txl w) with
  | Failure err => Ret (Some err)
  | Success opts =>
      match NewNetworkManager pw with
      | Some err => Ret (Some (ErrWrap "error creating network manager binding" err))
      | None =>
          r ← tryTx w (tx.SubmitPrices blockNumber rplPrice) opts
                "errpr getting the TX for submitting RPL price"
                "simulating SubmitPrices tx failed: %s"
                (log "Successfully submitted RPL price for block %d.");
          Ret (snd r)
      end
  end.

Definition withValue (value : Z) (opts : tx.TransactOpts) : tx.TransactOpts :=
  {| tx.From := tx.From opts;
     tx.Value := value;
     tx.GasFeeCap := tx.GasFeeCap opts;
     tx.GasTipCap := tx.GasTipCap opts;
     tx.GasLimit := tx.GasLimit opts |}.

(** [updateOptimism] *)
Definition updateOptimism (w : World) (opts : tx.TransactOpts)
  : Prog (tx.TransactOpts * option error) :=
  log "Submitting rate to Optimism...";;
  tryTx w tx.OptimismSubmitRate opts
    "error getting tx for Optimism price update"
    "simulating tx for Optimism price update failed: %s"
    (log "Successfully submitted Optimism price for block %d.").

(** [updatePolygon] *)
Definition updatePolygon (w : World) (opts : tx.TransactOpts)
  : Prog (tx.TransactOpts * option error) :=
  log "Submitting rate to Polygon...";;
  tryTx w tx.PolygonSubmitRate opts
    "error getting tx for Polygon price update"
    "simulating tx for Polygon price update failed: %s"
    (log "Successfully submitted Polygon price for block %d.").

(** [updateArbitrum] *)
Definition updateArbitrum (w : World) (pw : PriceWorld) (opts : tx.TransactOpts)
  : Prog (tx.TransactOpts * option error) :=
  log "Submitting rate to Arbitrum...";;
  match GetMaxFeeWeiForDaemon pw with
  | Failure err =>
      Ret (opts, Some (ErrWrap "error getting recommended base fee from the network for Arbitrum price submission" err))
  | Success suggestedMaxFee =>
      (** Constants for Arbitrum *)
      let bufferMultiplier := 4 in
      let dataLength := 36 in
      let arbitrumGasLimit := 40000 in
      (** Gas limit calculation on Arbitrum *)
      let maxSubmissionCost := (6 * dataLength + 1400) * suggestedMaxFee * bufferMultiplier in
      (** Provide enough ETH for the L2 and roundtrip TX's *)
      let value := arbitrumGasLimit * arbitrumMaxFeePerGas pw + maxSubmissionCost in
      let opts := withValue value opts in
      tryTx w (tx.ArbitrumSubmitRate maxSubmissionCost arbitrumGasLimit (arbitrumMaxFeePerGas pw)) opts
        "error getting tx for Arbitrum price update"
        "simulating tx for Arbitrum price update failed: %s"
        (log "Successfully submitted Arbitrum price for block %d.")
  end.

(** [updateZkSyncEra] *)
Definition updateZkSyncEra (w : World) (pw : PriceWorld) (opts : tx.TransactOpts)
  : Prog (tx.TransactOpts * option error) :=
  log "Submitting rate to zkSync Era...";;
  (** Constants for zkSync Era *)
  let l1GasPerPubdataByte := 17 in
  let l2GasLimit := 750000 in
  let gasPerPubdataByte := 800 in
  (** Value calculation on zkSync Era *)
  let pubdataPrice := l1GasPerPubdataByte * maxFee (txl w) in
  let minL2GasPrice := (pubdataPrice + gasPerPubdataByte - 1) / gasPerPubdataByte in
  let gasPrice := if fairL2GasPrice pw <? minL2GasPrice then minL2GasPrice else fairL2GasPrice pw in
  let txValue := l2GasLimit * gasPrice in
  let opts := withValue txValue opts in
  tryTx w (tx.ZkSyncEraSubmitRate l2GasLimit gasPerPubdataByte) opts
    "error getting tx for zkSync Era price update"
    "simulating tx for zkSync Era price update failed: %s"
    (log "Successfully submitted zkSync Era price for block %d.").

(** [updateBase] *)
Definition updateBase (w : World) (opts : tx.TransactOpts)
  : Prog (tx.TransactOpts * option error) :=
  log "Submitting rate to Base...";;
  tryTx w tx.BaseSubmitRate opts
    "error getting tx for Base price update"
    "simulating tx for Base price update failed: %s"
    (log "Successfully submitted Base price for block %d.").

(** *** [updateL2Prices] *)

Definition targets : list Target := [Optimism; Polygon; Arbitrum; ZkSyncEra; Base].

(** The messenger of a target is bound iff its address is configured. *)
Definition configured (pw : PriceWorld) (t : Target) : bool :=
  negb (String.eqb (MessengerAddress pw t) "").

(** A stale flag is only read for a bound messenger. *)
Definition stale (pw : PriceWorld) (t : Target) : bool :=
  configured pw t && IsRateStale pw t.

Definition update (w : World) (pw : PriceWorld) (t : Target) (opts : tx.TransactOpts)
  : Prog (tx.TransactOpts * option error) :=
  match t with
  | Optimism => updateOptimism w opts
  | Polygon => updatePolygon w opts
  | Arbitrum => updateArbitrum w pw opts
  | ZkSyncEra => updateZkSyncEra w pw opts
  | Base => updateBase w opts
  end.

(** "Find out which oDAO index we are": the first member whose address
    is [opts.From], and 0 when there is none. *)
Fixpoint findIndex (members : list state.OracleDaoMember) (from : state.Address) (i : Z) : Z :=
  match members with
  | [] => 0
  | m :: rest => if state.Address_ m =? from then i else findIndex rest from (i + 1)
  end.

(** [indexToSubmit := (blockNumber / BlocksPerTurn) % count] *)
Definition indexToSubmit (blockNumber count : Z) : Z :=
  (blockNumber / BlocksPerTurn) mod count.

(** The sequence [if xStale { errs = append(errs, t.updateX(...)) }],
    one target after the other, on the shared [opts]. *)
Fixpoint relayStale (w : World) (pw : PriceWorld) (ts : list Target)
    (opts : tx.TransactOpts) (errs : list (option error)) : Prog (list (option error)) :=
  match ts with
  | [] => Ret errs
  | t :: rest =>
      if stale pw t
      then
        r ← update w pw t opts;
        relayStale w pw rest (fst r) (errs ++ [snd r])
      else relayStale w pw rest opts errs
  end.

Definition updateL2Prices (w : World) (pw : PriceWorld) (st : state.NetworkState)
  : Prog (option error) :=
  (** Create bindings *)
  let errs := map (NewMessenger pw) (List.filter (configured pw) targets) in
  match errors.Join errs with
  | Some err => Ret (Some err)
  | None =>
  (** Exit if there aren't any L2 messengers *)
  if forallb (fun t => negb (configured pw t)) targets
  then Ret None
  else
  (** Get transactor *)
  match GetTransactor (txl w) with
  | Failure err => Ret (Some (ErrText "Failed getting transactor: %q"))
  | Success opts =>
  (** Check if any rates are stale *)
  match StaleQuery pw with
  | Some err => Ret (Some (ErrWrap "error checking if rates are stale" err))
  | None =>
  if negb (existsb (stale pw) targets)
  then Ret None
  else
  (** Find out which oDAO index we are *)
  let count := Z.of_nat (length (state.OracleDaoMemberDetails st)) in
  let index := findIndex (state.OracleDaoMemberDetails st) (tx.From opts) 0 in
  (** Submit if it's our turn *)
  let blockNumber := state.ElBlockNumber st in
  if count =? 0
  then Crash "runtime error: integer divide by zero"
  else
    if index =? indexToSubmit blockNumber count
    then
      errs ← relayStale w pw targets opts [];
      Ret (errors.Join errs)
    else Ret None
  end end end.

(** *** [Run] *)

(** [uint64(timeSinceGenesis.Seconds())] *)
Definition wholeSeconds (f : FloatUnit) (d : Duration) : Z :=
  if (0 <=? d) && (d mod Second =? 0) then d / Second else u64 (truncSeconds f d).

(** The goroutine of [Run] (lines 132 to 197). *)
Definition priceReportRoutine (w : World) (pw : PriceWorld) (blockNumber : Z) : Prog unit :=
  let logPrefix : string := "[Price Report]" in
  modify (setRunning true);;
  log "%s Starting price report in a separate thread.";;
  let nodeAddress := GetAddress (txl w) in
  log "Getting RPL price for block %d...";;
  (** Get RPL price at block *)
  match getRplTwap pw blockNumber with
  | Failure err => handleError (ErrWrap logPrefix err)
  | Success rplPrice =>
  log "RPL price: %.6f ETH";;
  (** Check if we have reported these specific values before *)
  specific ← lift (hasSubmittedSpecificBlockPrices (rpStorage w) nodeAddress blockNumber rplPrice);
  match specific with
  | (_, Some err) => handleError (ErrWrap logPrefix err)
  | (true, None) => modify (setRunning false)
  | (false, None) =>
  (** We haven't submitted these values, check if we've submitted any
      for this block so we can log it *)
  generic ← lift (hasSubmittedBlockPrices (rpStorage w) nodeAddress blockNumber);
  match generic with
  | (_, Some err) => handleError (ErrWrap logPrefix err)
  | (hasSubmitted, None) =>
  (if hasSubmitted : bool
   then log "Have previously submitted out-of-date prices for block %d, trying again..."
   else Ret tt);;
  log "Submitting RPL price...";;
  (** Submit RPL price *)
  serr ← submitRplPrice w pw blockNumber rplPrice;
  match serr with
  | Some err => handleError (ErrWrap "%s could not submit RPL price" err)
  | None =>
      log "%s Price report complete.";;
      modify (setRunning false)
  end end end end.

(** "Check if the process is already running": lines 124 to 130. *)
Definition checkRunning : Prog bool :=
  act (fun s =>
         if isRunning s
         then (emit (EvLog "Prices report is already running in the background.") s, true)
         else (s, false)).

(** [(t *SubmitRplPrice) Run(state)] *)
Definition Run (w : World) (pw : PriceWorld) (st : state.NetworkState) : Prog (option error) :=
  (** Check if submission is enabled *)
  if negb (state.SubmitPricesEnabled (state.NetworkDetails st))
  then Ret None
  else
  (** Check if L2 rates are stale and update if necessary *)
  err ← updateL2Prices w pw st;
  match err with
  | Some _ => log "Error updating L2 prices: %s"
  | None => Ret tt
  end;;
  log "Checking for RPL price checkpoint...";;
  (** Get block to submit price for *)
  let blockNumber := state.LatestReportablePricesBlock (state.NetworkDetails st) in
  (** Check if a submission needs to be made *)
  let pricesBlock := state.PricesBlock (state.NetworkDetails st) in
  if blockNumber <=? pricesBlock
  then Ret None
  else
  (** Get the time of the block *)
  match HeaderByNumber w blockNumber with
  | Failure err => Ret (Some err)
  | Success header =>
  let blockTime := Unix (i64 (Time_ header)) in
  (** Get the Beacon block corresponding to this time *)
  let eth2Config := state.BeaconConfig st in
  let genesisTime := Unix (i64 (beacon.GenesisTime eth2Config)) in
  let timeSinceGenesis := Sub blockTime genesisTime in
  if beacon.SecondsPerSlot eth2Config =? 0
  then Crash "runtime error: integer divide by zero"
  else
  let slotNumber := wholeSeconds (fl w) timeSinceGenesis / beacon.SecondsPerSlot eth2Config in
  (** Check if the targetEpoch is finalized yet *)
  if beacon.SlotsPerEpoch eth2Config =? 0
  then Crash "runtime error: integer divide by zero"
  else
  let targetEpoch := slotNumber / beacon.SlotsPerEpoch eth2Config in
  match beacon.GetBeaconHead (bc w) with
  | Failure err => Ret (Some err)
  | Success beaconHead =>
  let finalizedEpoch := beacon.FinalizedEpoch beaconHead in
  if finalizedEpoch <? targetEpoch
  then
    log "Prices must be reported for EL block %d, waiting until Epoch %d is finalized (currently %d)";;
    Ret None
  else
  (** Check if the process is already running *)
  running ← checkRunning;
  if running : bool
  then Ret None
  else Go (priceReportRoutine w pw blockNumber) (Ret None)
  end end.

End SubmitRplPrice.

(** The same collaborators with other contract storage. *)
Definition withStorage (st : Storage) (w : World) : World :=
  {| fl := fl w;
     bc := bc w;
     HeaderByNumber := HeaderByNumber w;
     GetStateForSlot := GetStateForSlot w;
     rpStorage := st;
     txl := txl w;
     faults := faults w;
     w3s := w3s w;
     gen := gen w;
     RewardsTreeMode := RewardsTreeMode w;
     GetRewardsTreePath := GetRewardsTreePath w;
     GetMinipoolPerformancePath := GetMinipoolPerformancePath w;
     RewardsTreeIpfsExtension := RewardsTreeIpfsExtension w;
     NewRewardsPool := NewRewardsPool w;
     enableSubmissionAfterConsensus_RewardsTree := enableSubmissionAfterConsensus_RewardsTree w;
     IsNextPeriodRevert := IsNextPeriodRevert w;
     RewardsSubmissionForcedGas := RewardsSubmissionForcedGas w |}.

(** * Reading a trace *)

(** The events of a transaction being built or sent. *)
Definition isSubmission (e : Event) : bool :=
  match e with
  | EvSimulate _ _ | EvSend _ _ _ => true
  | _ => false
  end.

(** The events of [handleError]. *)
Definition isFailure (e : Event) : bool :=
  match e with
  | EvErrLog _ | EvErrLogText _ => true
  | _ => false
  end.

Definition submissions (tr : list Event) : list Event := List.filter isSubmission tr.
Definition failures (tr : list Event) : list Event := List.filter isFailure tr.

(** * Independent relay attempts

    What "every stale target is attempted, whatever happened to the
    others" means: going through the targets in order, each stale one
    has its update function run, from the state and the transaction
    options the previous attempt left, and its own result recorded;
    the list pairs every attempted target with that result. *)


(** * Interleaved execution

    The callers of a task's [Run] and the goroutines they start, as
    threads over one [Shared] state.  A step executes the next atomic
    action of one thread: all accesses to [isRunning] are inside
    critical sections of the task's mutex, so interleaving whole
    critical sections is what Go's memory model allows. *)

Module Sched.

Inductive Thread : Type :=
| Caller (p : Prog (option error))
| Routine (p : Prog unit).

Record Sys : Type := {
  shared : Shared;
  threads : list Thread
}.

(** The next atomic action of [p]: new shared state, the rest of the
    program, the goroutines started.  [None] when [p] has ended. *)
Definition stepProg {A : Type} (p : Prog A) (s : Shared)
  : option (Shared * Prog A * list (Prog unit)) :=
  match p with
  | Ret _ | Crash _ | Exhausted => None
  | Act step k => let '(s', x) := step s in Some (s', k x, [])
  | Go g k => Some (s, k, [g])
  end.

(** Thread [i] takes one step; new goroutines join at the end. *)
Definition step (i : nat) (sys : Sys) : option Sys :=
  match threads sys !! i with
  | None => None
  | Some (Caller p) =>
      match stepProg p (shared sys) with
      | None => None
      | Some (s', p', gs) =>
          Some {| shared := s'; threads := <[i := Caller p']> (threads sys) ++ map Routine gs |}
      end
  | Some (Routine p) =>
      match stepProg p (shared sys) with
      | None => None
      | Some (s', p', gs) =>
          Some {| shared := s'; threads := <[i := Routine p']> (threads sys) ++ map Routine gs |}
      end
  end.

(** A schedule names the thread that steps next. *)
Fixpoint exec (schedule : list nat) (sys : Sys) : option Sys :=
  match schedule with
  | [] => Some sys
  | i :: rest =>
      match step i sys with
      | None => None
      | Some sys' => exec rest sys'
      end
  end.

(** A caller that has returned [r]. *)
Definition returned (r : option error) (t : Thread) : bool :=
  match t, r with
  | Caller (Ret None), None => true
  | Caller (Ret (Some _)), Some _ => true
  | _, _ => false
  end.

(** A goroutine that has been started and has not ended. *)
Definition inFlight (t : Thread) : bool :=
  match t with
  | Routine (Act _ _) | Routine (Go _ _) => true
  | _ => false
  end.

Definition countInFlight (sys : Sys) : nat :=
  length (List.filter inFlight (threads sys)).

(** Thread [i] runs until it ends, for at most [fuel] steps. *)
Fixpoint finish (fuel : nat) (i : nat) (sys : Sys) : Sys :=
  match fuel with
  | O => sys
  | S fuel' =>
      match step i sys with
      | None => sys
      | Some sys' => finish fuel' i sys'
      end
  end.

End Sched.

(** * Notions used in the statements *)

Module Stated.

(** The line logged for a missed slot. *)
Definition missedLine : Event := EvLog "Slot %d was missing, trying the previous one...".

(** The ceiling of a quotient, written with the floor. *)
Definition ceiling (a n : Z) : Z := - ((- a) / n).


(** The routine up to the two probes, when the value-specific flag is
    not set: the state in which [submitRplPrice] is entered. *)
Definition beforeSubmit (generic : bool) (s : Shared) : Shared :=
  fold_left (fun s' e => emit e s')
    ([EvLog "%s Starting price report in a separate thread.";
      EvLog "Getting RPL price for block %d...";
      EvLog "RPL price: %.6f ETH"]
     ++ (if generic
         then [EvLog "Have previously submitted out-of-date prices for block %d, trying again..."]
         else [])
     ++ [EvLog "Submitting RPL price..."])
    (setRunning true s).

(** What the routine does with the result of [submitRplPrice]. *)
Definition afterSubmit (serr : option error) : Prog unit :=
  match serr with
  | Some err => SubmitRplPrice.handleError (ErrWrap "%s could not submit RPL price" err)
  | None => log "%s Price report complete.";; modify (setRunning false)
  end.

End Stated.

(** * A concrete deployment

    A small network on which the tasks can be evaluated: genesis at
    second 1000, 12-second slots, 32-slot epochs, reward intervals
    starting at genesis, four oracle members, and collaborators that
    answer without faults unless a parameter says otherwise. *)

Module Example.
Import GoInt GoTime.

Definition eth2Config : beacon.Eth2Config :=
  {| beacon.GenesisTime := 1000; beacon.SecondsPerSlot := 12; beacon.SlotsPerEpoch := 32 |}.

Definition details (intervalDuration : Duration) : state.Details :=
  {| state.IntervalStart := Unix 1000;
     state.IntervalDuration := intervalDuration;
     state.RewardIndex := 7;
     state.SubmitPricesEnabled := true;
     state.LatestReportablePricesBlock := 9000;
     state.PricesBlock := 8000 |}.

Definition members : list state.OracleDaoMember :=
  [ {| state.Address_ := 11 |}; {| state.Address_ := 22 |};
    {| state.Address_ := 33 |}; {| state.Address_ := 44 |} ].

Definition networkState (intervalDuration : Duration) (beaconSlot elBlock : Z)
  : state.NetworkState :=
  {| state.ElBlockNumber := elBlock;
     state.BeaconSlotNumber := beaconSlot;
     state.BeaconConfig := eth2Config;
     state.NetworkDetails := details intervalDuration;
     state.OracleDaoMemberDetails := members |}.

(** Slots 350 and 351 were missed; every other slot has a block. *)
Definition blocks (slot : Z) : beacon.BlockLookup :=
  if (slot =? 350) || (slot =? 351)
  then beacon.Missing
  else beacon.Proposed {| beacon.ExecutionBlockNumber := slot + 5000 |}.

Definition client (finalizedEpoch : Z) : beacon.Client :=
  {| beacon.GetBeaconHead := Success {| beacon.FinalizedEpoch := finalizedEpoch |};
     beacon.GetBeaconBlock := blocks |}.

(** A rewards file is stored as the eight bytes of its interval
    count. *)
Definition file (intervals : Z) : rprewards.RewardsFile :=
  {| rprewards.GetHeader :=
       {| rprewards.Index := 7;
          rprewards.IntervalsPassed := intervals;
          rprewards.MerkleRoot := "0x00";
          rprewards.InvalidNetworkNodes := [] |};
     rprewards.MinipoolPerformanceFileCID := "";
     rprewards.Body := [] |}.

Definition decode (b : bytes) : Z :=
  fold_left (fun acc x => acc * 256 + Z.of_N (Byte.to_N x)) b 0.

Definition treeGen : TreeGen :=
  {| DeserializeRewardsFile := fun b =>
       if (length b =? 8)%nat then Success (file (decode b))
       else Failure (ErrExternal "unexpected end of JSON input");
     Serialize := fun f =>
       Success (bigint.be_bytes 8 (rprewards.IntervalsPassed (rprewards.GetHeader f)));
     SerializeMinipoolPerformance := fun _ => Success [];
     GetBestApiClient := fun _ => None;
     NewNetworkStateManager := None;
     GetStateForSlotAtSnapshot := fun _ => None;
     NewTreeGenerator := fun _ => None;
     GenerateTree := fun request => Success (file (reqIntervalsPassed request));
     DecodeMerkleRoot := fun _ => Success [Byte.x00] |}.

Definition opts0 (from : state.Address) : tx.TransactOpts :=
  {| tx.From := from; tx.Value := 0; tx.GasFeeCap := 0; tx.GasTipCap := 0; tx.GasLimit := 0 |}.

Definition txInfo0 : tx.TransactionInfo :=
  {| tx.SimError := "";
     tx.GasInfo_ := {| tx.EstGasLimit := 21000; tx.SafeGasLimit := 30000 |} |}.

(** The node at [address]; building the transaction fails for the
    calls for which [reverts] holds. *)
Definition txLayer (address : state.Address) (reverts : tx.Call -> bool) : TxLayer :=
  {| GetAddress := address;
     GetTransactor := Success (opts0 address);
     GetTxInfo := fun call _ =>
       if reverts call then (None, Some (ErrExternal "execution reverted"))
       else (Some txInfo0, None);
     PrintAndCheckGasInfo := fun _ _ => true;
     PrintAndWaitForTransaction := fun info _ => None;
     maxFee := 200000000000;
     prioFee := 3000000000 |}.

Definition noFaults : FileFaults :=
  {| WriteFileFault := fun _ => None;
     CreateFault := fun _ => None;
     WriteFault := fun _ => None |}.

Definition web3 : Web3Storage :=
  {| Web3StorageApiToken := "token";
     NewClient := None;
     EncodeAll := fun b => b;
     Put := fun _ => Success "bafy"%string |}.

(** The values of the two expressions in real arithmetic, which is what
    float64 gives up to rounding on the durations of the examples. *)
Definition floatUnit : FloatUnit :=
  {| ceilSecondsOver := fun d n =>
       if n =? 0 then 0 else - ((- d) / (GoTime.Second * n));
     truncSeconds := fun d => Z.quot d GoTime.Second |}.

(** Contract storage in which the flags at the keys [recorded] are
    set; the hash is the identity on its preimage. *)
Definition storage (recorded : bytes -> bool) : Storage :=
  {| Keccak256Hash := fun preimage => preimage;
     GetBool := fun key => (recorded key, None) |}.

Definition world (finalizedEpoch : Z) (recorded : bytes -> bool)
    (address : state.Address) (reverts : tx.Call -> bool) : World :=
  {| fl := floatUnit;
     bc := client finalizedEpoch;
     HeaderByNumber := fun n => Success {| Number := n; Time_ := 1000 + 12 * 352 |};
     GetStateForSlot := fun _ => Failure (ErrExternal "state manager");
     rpStorage := storage recorded;
     txl := txLayer address reverts;
     faults := noFaults;
     w3s := web3;
     gen := treeGen;
     RewardsTreeMode := RewardsMode_Download;
     GetRewardsTreePath := fun _ => "rewards-tree.json"%string;
     GetMinipoolPerformancePath := fun _ => "minipool-performance.json"%string;
     RewardsTreeIpfsExtension := ".zst";
     NewRewardsPool := None;
     enableSubmissionAfterConsensus_RewardsTree := true;
     IsNextPeriodRevert := fun _ => false;
     RewardsSubmissionForcedGas := 10000 |}.

Definition priceWorld (staleTargets : Target -> bool) : PriceWorld :=
  {| MessengerAddress := fun _ => "0xmessenger"%string;
     NewMessenger := fun _ => None;
     StaleQuery := None;
     IsRateStale := staleTargets;
     GetMaxFeeWeiForDaemon := Success 50000000000;
     arbitrumMaxFeePerGas := 100000000;
     fairL2GasPrice := 500000000;
     getRplTwap := fun _ => Success 12345;
     NewNetworkManager := None |}.

(** A process that has just started: no run in progress, no files. *)
Definition fresh : Shared := {| isRunning := false; files := ∅; trace := [] |}.

Definition nothingRecorded (key : bytes) : bool := false.
Definition everythingRecorded (key : bytes) : bool := true.
Definition neverReverts (call : tx.Call) : bool := false.

(** One interval of 3840 seconds (ten epochs) has elapsed at slot 400:
    the interval ended at second 4840, in slot 320 of epoch 10, whose
    last slot is 351. *)
Definition oneIntervalElapsed : state.NetworkState :=
  networkState (3840 * Second) 400 9100.

(** The same instant with a negative and with a zero interval
    duration. *)
Definition negativeDuration : state.NetworkState :=
  networkState (-3840 * Second) 400 9100.
Definition zeroDuration : state.NetworkState :=
  networkState 0 400 9100.

(** Oracle member 11, finalized epoch as given, nothing recorded
    on chain. *)
Definition worldAt (finalizedEpoch : Z) : World :=
  world finalizedEpoch nothingRecorded 11 neverReverts.

(** Every target stale, at execution block [elBlock], seen by the member
    with address [address]. *)
Definition allStale (t : Target) : bool := true.

Definition relayState (elBlock : Z) : state.NetworkState :=
  networkState (3840 * Second) 400 elBlock.

Definition relayWorld (address : state.Address) (reverts : tx.Call -> bool) : World :=
  world 11 nothingRecorded address reverts.

(** Building the Polygon transaction fails; Optimism, Polygon and
    Arbitrum are stale. *)
Definition polygonReverts (call : tx.Call) : bool :=
  match call with
  | tx.PolygonSubmitRate => true
  | _ => false
  end.

Definition threeStale (t : Target) : bool :=
  match t with
  | Optimism | Polygon | Arbitrum => true
  | _ => false
  end.

Definition polygonError : error :=
  ErrWrap "error getting tx for Polygon price update" (ErrExternal "execution reverted").

(** Contract storage in which the generic prices flag of a block is
    set (a key of 33 + 20 + 32 bytes) and no value-specific one (a key
    32 bytes longer). *)
Definition genericOnly (key : bytes) : bool := (length key =? 85)%nat.

Definition staleValueWorld : World := world 11 genericOnly 11 neverReverts.

(** Oracle member 11 with every submission flag set on chain. *)
Definition recordedWorld : World := world 11 everythingRecorded 11 neverReverts.

(** A process that holds the rewards tree generated for one elapsed
    interval. *)
Definition cached : Shared :=
  {| isRunning := false;
     files := {[ "rewards-tree.json"%string := Readable (bigint.be_bytes 8 1) ]};
     trace := [] |}.

(** Two calls of the rewards task's [Run] on a fresh process, with the
    same arguments. *)
Definition twoRewardsCalls : Sched.Sys :=
  {| Sched.shared := fresh;
     Sched.threads :=
       [Sched.Caller (SubmitRewardsTree.Run (worldAt 11) 3 true oneIntervalElapsed 400);
        Sched.Caller (SubmitRewardsTree.Run (worldAt 11) 3 true oneIntervalElapsed 400)] |}.

(** Two calls of the price task's [Run] on a fresh process; at block 75
    member 11 is not the relay leader. *)
Definition twoPriceCalls : Sched.Sys :=
  {| Sched.shared := fresh;
     Sched.threads :=
       [Sched.Caller (SubmitRplPrice.Run (worldAt 11) (priceWorld allStale) (relayState 75));
        Sched.Caller (SubmitRplPrice.Run (worldAt 11) (priceWorld allStale) (relayState 75))] |}.

(** The transactions sent, by contract call. *)
Definition sent (tr : list Event) : list tx.Call :=
  omap (fun ev => match ev with EvSend call _ _ => Some call | _ => None end) tr.

(** What is observed of two calls after a schedule: which threads are
    callers that returned nil, how many goroutines are in flight, the
    running flag, and the transactions sent once the goroutines (threads
    2 and 3) have run to their ends. *)
Definition observe (schedule : list nat) (sys : Sched.Sys)
  : option (list bool * nat * bool * list tx.Call) :=
  match Sched.exec schedule sys with
  | None => None
  | Some sys' =>
      Some (map (Sched.returned None) (Sched.threads sys'),
            Sched.countInFlight sys',
            isRunning (Sched.shared sys'),
            sent (trace (Sched.shared (Sched.finish 100 3 (Sched.finish 100 2 sys')))))
  end.

(** Arbitrum and Base are stale. *)
Definition arbitrumAndBaseStale (t : Target) : bool :=
  match t with
  | Arbitrum | Base => true
  | _ => false
  end.

(** The value carried by each transaction sent. *)
Definition sentValues (tr : list Event) : list (tx.Call * Z) :=
  omap (fun ev => match ev with
                  | EvSend call _ opts => Some (call, tx.Value opts)
                  | _ => None
                  end) tr.

End Example.

(** * Further parts of the two tasks *)

(** ** Uploads in a trace *)

Definition isUpload (e : Event) : bool :=
  match e with
  | EvUpload _ _ => true
  | _ => false
  end.

Definition uploads (tr : list Event) : list Event := List.filter isUpload tr.

(** ** Programs that leave the task alone

    Whatever state such a program starts in, it starts no goroutine and
    changes neither [isRunning] nor the files; its trace may grow. *)

Definition Framed {A : Type} (p : Prog A) : Prop :=
  forall s, let '(s', _, gs) := run p s in
            gs = [] /\ isRunning s' = isRunning s /\ files s' = files s.

(** ** Byte strings as numbers *)

Module Encoding.

(** The number a big-endian byte string spells ([big.Int.SetBytes]). *)
Definition value (b : bytes) : Z :=
  fold_left (fun acc x => acc * 256 + Z.of_N (Byte.to_N x)) b 0.

(** The preimage of the key of [hasSubmittedBlockPrices]. *)
Definition genericPreimage (nodeAddress : state.Address) (blockNumberBuf : bytes) : bytes :=
  list_byte_of_string SubmitRplPrice.SubmissionKey
    ++ SubmitRplPrice.AddressBytes nodeAddress ++ blockNumberBuf.

(** The preimage of the key of [hasSubmittedSpecificBlockPrices]. *)
Definition specificPreimage (nodeAddress : state.Address) (blockNumberBuf rplPriceBuf : bytes)
  : bytes :=
  list_byte_of_string SubmitRplPrice.SubmissionKey
    ++ SubmitRplPrice.AddressBytes nodeAddress ++ blockNumberBuf ++ rplPriceBuf.

End Encoding.

(** ** The arithmetic of [getRplTwap] (lines 275 to 288)

    [base] is [eth.EthToWei(1.0001)] and [one] is [eth.EthToWei(1)];
    [tickCumulatives] is the answer of the pool's [observe] call for
    the seconds [twapNumberOfSeconds] and 0 ago. *)

Module Twap.

Definition twapNumberOfSeconds : Z := 60 * 60 * 12.

(** [big.Int.Exp(x, y, nil)]: [x**y], and 1 when [y <= 0]. *)
Definition Exp (x y : Z) : Z := if y <=? 0 then 1 else x ^ y.

(** [big.Int.Div]: Euclidean division; a zero divisor panics. *)
Definition Div (x y : Z) : Outcome Z :=
  if y =? 0 then Panic "division by zero" else Done (Z.sgn y * (x / Z.abs y)).

Definition rplPrice (base one : Z) (tickCumulatives : list Z) : Outcome Z :=
  match tickCumulatives !! 1%nat, tickCumulatives !! 0%nat with
  | Some cumulative1, Some cumulative0 =>
      let interval := twapNumberOfSeconds in
      (** tick = (cumulative[1] - cumulative[0]) / interval *)
      match Div (cumulative1 - cumulative0) interval with
      | Done tick =>
          let numerator := Exp base tick * one in
          match Div numerator (Exp one tick) with
          | Done denominator => Div (one * one) denominator
          | Panic msg => Panic msg
          | OutOfFuel => OutOfFuel
          end
      | Panic msg => Panic msg
      | OutOfFuel => OutOfFuel
      end
  | _, _ => Panic "runtime error: index out of range"
  end.

End Twap.

(** ** The per-network arrays of [submitRewardsSnapshot] (lines 377 to 395) *)

Module NetworkRewards.

(** [sharedtypes.NetworkRewardsInfo] *)
Record NetworkRewardsInfo : Type := {
  CollateralRpl : Z;
  OracleDaoRpl : Z;
  SmoothingPoolEth : Z
}.

Record Arrays : Type := {
  collateralRplRewards : list Z;
  oDaoRplRewards : list Z;
  smoothingPoolEthRewards : list Z
}.

Definition empty : Arrays :=
  {| collateralRplRewards := []; oDaoRplRewards := []; smoothingPoolEthRewards := [] |}.

Definition append (a : Arrays) (networkRewards : NetworkRewardsInfo) : Arrays :=
  {| collateralRplRewards := collateralRplRewards a ++ [CollateralRpl networkRewards];
     oDaoRplRewards := oDaoRplRewards a ++ [OracleDaoRpl networkRewards];
     smoothingPoolEthRewards := smoothingPoolEthRewards a ++ [SmoothingPoolEth networkRewards] |}.

(** The loop [for { networkRewards, exists := NetworkRewards[network];
    if !exists { break }; append ...; network++ }], one iteration per
    unit of [fuel]. *)
Fixpoint collectFrom (rewards : gmap Z NetworkRewardsInfo) (fuel : nat) (network : Z)
    (arrays : Arrays) : Outcome Arrays :=
  match fuel with
  | O => OutOfFuel
  | S fuel' =>
      match rewards !! network with
      | None => Done arrays
      | Some networkRewards =>
          collectFrom rewards fuel' (GoInt.u64 (network + 1)) (append arrays networkRewards)
      end
  end.

(** From [network := uint64(0)] and empty arrays. *)
Definition collect (rewards : gmap Z NetworkRewardsInfo) (fuel : nat) : Outcome Arrays :=
  collectFrom rewards fuel 0 empty.

(** The arrays of the rewards of networks [0 .. k-1]. *)
Definition arraysUpTo (rewards : gmap Z NetworkRewardsInfo) (k : nat) : Arrays :=
  let infos := omap (fun i => rewards !! Z.of_nat i) (seq 0 k) in
  {| collateralRplRewards := map CollateralRpl infos;
     oDaoRplRewards := map OracleDaoRpl infos;
     smoothingPoolEthRewards := map SmoothingPoolEth infos |}.

End NetworkRewards.

(** ** The finality gate of the price task *)

Module PriceGate.
Import GoInt GoTime SubmitRplPrice.

(** The epoch of the block that prices are due for, as [Run] computes
    it from the block's header. *)
Definition targetEpochOf (w : World) (st : state.NetworkState) (header : Header) : Z :=
  let eth2Config := state.BeaconConfig st in
  wholeSeconds (fl w)
    (Sub (Unix (i64 (Time_ header))) (Unix (i64 (beacon.GenesisTime eth2Config))))
  / beacon.SecondsPerSlot eth2Config / beacon.SlotsPerEpoch eth2Config.

End PriceGate.

(** ** Programs whose every step respects a relation

    [Steps R p]: each atomic step of [p], from whatever state it is
    taken, leads to a state related by [R]; so do the steps of the
    goroutines [p] starts. *)

Inductive Steps (R : Shared -> Shared -> Prop) : forall A : Type, Prog A -> Prop :=
| Steps_ret (A : Type) (a : A) : Steps R A (Ret a)
| Steps_crash (A : Type) (msg : string) : Steps R A (Crash msg)
| Steps_exhausted (A : Type) : Steps R A Exhausted
| Steps_act (A X : Type) (step : Shared -> Shared * X) (k : X -> Prog A) :
    (forall s, R s (fst (step s))) ->
    (forall x, Steps R A (k x)) ->
    Steps R A (Act step k)
| Steps_go (A : Type) (g : Prog unit) (k : Prog A) :
    Steps R unit g -> Steps R A k -> Steps R A (Go g k).
Arguments Steps R {A} p.

Definition threadSteps (R : Shared -> Shared -> Prop) (t : Sched.Thread) : Prop :=
  match t with
  | Sched.Caller p => Steps R p
  | Sched.Routine p => Steps R p
  end.

(** From [s] to [s'] no transaction was built or sent, nothing was
    uploaded, and files changed at paths of [touch] only. *)
Definition Local (touch : string -> Prop) (s s' : Shared) : Prop :=
  submissions (trace s') = submissions (trace s)
  /\ uploads (trace s') = uploads (trace s)
  /\ forall path, ~ touch path -> files s' !! path = files s !! path.

(** The rewards tree file or the minipool performance file of some
    interval, uncompressed. *)
Definition generatedPath (w : World) (path : string) : Prop :=
  exists index, path = GetRewardsTreePath w index \/ path = GetMinipoolPerformancePath w index.

(** Any number of concurrent calls of the rewards task's [Run]. *)
Definition rewardsCalls (w : World) (fuel : nat) (nodeTrusted : bool)
    (calls : list (state.NetworkState * Z)) (s : Shared) : Sched.Sys :=
  {| Sched.shared := s;
     Sched.threads :=
       map (fun c => Sched.Caller (SubmitRewardsTree.Run w fuel nodeTrusted (fst c) (snd c)))
           calls |}.

(** From [s] to [s'] the files are as they were and nothing was
    uploaded. *)
Definition Offline (s s' : Shared) : Prop :=
  files s' = files s /\ uploads (trace s') = uploads (trace s).

(** Any number of concurrent calls of the price task's [Run]. *)
Definition priceCalls (w : World) (pw : PriceWorld) (calls : list state.NetworkState)
    (s : Shared) : Sched.Sys :=
  {| Sched.shared := s;
     Sched.threads := map (fun st => Sched.Caller (SubmitRplPrice.Run w pw st)) calls |}.

(** ** Transactions in a trace *)

Definition isSend (e : Event) : bool :=
  match e with
  | EvSend _ _ _ => true
  | _ => false
  end.

Definition sends (tr : list Event) : list Event := List.filter isSend tr.

(** The transaction [info] passed the simulation and the gas check, and
    [opts'] is [opts] with the gas fields the submit functions set. *)
Definition cleared (t : TxLayer) (info : tx.TransactionInfo) (opts opts' : tx.TransactOpts)
  : Prop :=
  tx.SimError info = ""%string
  /\ PrintAndCheckGasInfo t (tx.GasInfo_ info) (maxFee t) = true
  /\ tx.From opts' = tx.From opts
  /\ tx.Value opts' = tx.Value opts
  /\ tx.GasFeeCap opts' = maxFee t
  /\ tx.GasTipCap opts' = prioFee t
  /\ tx.GasLimit opts' = tx.SafeGasLimit (tx.GasInfo_ info).

(** The relay a contract call belongs to. *)
Definition relayOf (call : tx.Call) : option Target :=
  match call with
  | tx.OptimismSubmitRate => Some Optimism
  | tx.PolygonSubmitRate => Some Polygon
  | tx.ArbitrumSubmitRate _ _ _ => Some Arbitrum
  | tx.ZkSyncEraSubmitRate _ _ => Some ZkSyncEra
  | tx.BaseSubmitRate => Some Base
  | _ => None
  end.

(** ** Sample data *)

Module Sample.

(** Rewards for networks 0, 1 and 3; network 2 has none. *)
Definition rewardsWithGap : gmap Z NetworkRewards.NetworkRewardsInfo :=
  <[0 := {| NetworkRewards.CollateralRpl := 700;
            NetworkRewards.OracleDaoRpl := 150;
            NetworkRewards.SmoothingPoolEth := 9 |}]>
  (<[1 := {| NetworkRewards.CollateralRpl := 70;
             NetworkRewards.OracleDaoRpl := 15;
             NetworkRewards.SmoothingPoolEth := 1 |}]>
   (<[3 := {| NetworkRewards.CollateralRpl := 7;
              NetworkRewards.OracleDaoRpl := 2;
              NetworkRewards.SmoothingPoolEth := 0 |}]> ∅)).

(** The example network seen from a node outside the oracle DAO that
    generates its own trees. *)
Definition generatorWorld : World :=
  {| fl := fl (Example.worldAt 11);
     bc := bc (Example.worldAt 11);
     HeaderByNumber := HeaderByNumber (Example.worldAt 11);
     GetStateForSlot := fun _ => Success Example.oneIntervalElapsed;
     rpStorage := rpStorage (Example.worldAt 11);
     txl := txl (Example.worldAt 11);
     faults := faults (Example.worldAt 11);
     w3s := w3s (Example.worldAt 11);
     gen := gen (Example.worldAt 11);
     RewardsTreeMode := RewardsMode_Generate;
     GetRewardsTreePath := GetRewardsTreePath (Example.worldAt 11);
     GetMinipoolPerformancePath := GetMinipoolPerformancePath (Example.worldAt 11);
     RewardsTreeIpfsExtension := RewardsTreeIpfsExtension (Example.worldAt 11);
     NewRewardsPool := NewRewardsPool (Example.worldAt 11);
     enableSubmissionAfterConsensus_RewardsTree :=
       enableSubmissionAfterConsensus_RewardsTree (Example.worldAt 11);
     IsNextPeriodRevert := IsNextPeriodRevert (Example.worldAt 11);
     RewardsSubmissionForcedGas := RewardsSubmissionForcedGas (Example.worldAt 11) |}.

(** What is seen of a process after a schedule: the paths of its files,
    the transactions sent, the number of uploads, the goroutines in
    flight and the running flag. *)
Definition seen (schedule : list nat) (sys : Sched.Sys)
  : option (list string * list tx.Call * nat * nat * bool) :=
  match Sched.exec schedule sys with
  | Some sys' =>
      Some (map fst (map_to_list (files (Sched.shared sys'))),
            Example.sent (trace (Sched.shared sys')),
            length (uploads (trace (Sched.shared sys'))),
            Sched.countInFlight sys',
            isRunning (Sched.shared sys'))
  | None => None
  end.

(** Threads 2 and 3 take turns, [n] steps each. *)
Definition alternate (n : nat) : list nat := concat (repeat [2%nat; 3%nat] n).

End Sample.

(** ** The preimage of the key of [hasSubmittedTree] *)

Definition treePreimage (nodeAddress : state.Address) (indexBuffer : bytes) : bytes :=
  list_byte_of_string "rewards.snapshot.submitted.node"
    ++ SubmitRewardsTree.AddressBytes nodeAddress ++ indexBuffer.

(** ** The files of the watchtower *)

(** A rewards tree file or a minipool performance file of some
    interval, or the compressed form of one. *)
Definition artifactPath (w : World) (path : string) : Prop :=
  exists index,
    path = GetRewardsTreePath w index
    \/ path = GetMinipoolPerformancePath w index
    \/ path = (GetRewardsTreePath w index ++ RewardsTreeIpfsExtension w)%string
    \/ path = (GetMinipoolPerformancePath w index ++ RewardsTreeIpfsExtension w)%string.

(** From [s] to [s'] files changed at paths of [touch] only. *)
Definition Within (touch : string -> Prop) (s s' : Shared) : Prop :=
  forall path, ~ touch path -> files s' !! path = files s !! path.

(** Calls of both tasks, on oracle nodes or not, as the threads of one
    process. *)
Definition watchtowerCalls (w : World) (pw : PriceWorld) (fuel : nat)
    (rewards : list (bool * state.NetworkState * Z)) (prices : list state.NetworkState)
    (s : Shared) : Sched.Sys :=
  {| Sched.shared := s;
     Sched.threads :=
       map (fun c => Sched.Caller
                       (SubmitRewardsTree.Run w fuel (fst (fst c)) (snd (fst c)) (snd c)))
           rewards
       ++ map (fun st => Sched.Caller (SubmitRplPrice.Run w pw st)) prices |}.

(** ** Relay attempts in a trace *)

Module Relay.




(** The targets for which a transaction was built and simulated, in the
    order of the trace. *)
Definition simulated (tr : list Event) : list Target :=
  omap (fun e => match e with EvSimulate call _ => relayOf call | _ => None end) tr.


End Relay.

(** * Facts about machine integers and time *)

Module GoFacts.
Import GoInt GoTime.

Lemma u64_range x : is_u64 (u64 x).
Proof. unfold is_u64, u64, two64. apply Z.mod_pos_bound. lia. Qed.

Lemma u64_id x : is_u64 x -> u64 x = x.
Proof. unfold is_u64, u64. intros H. apply Z.mod_small. exact H. Qed.

Lemma i64_range x : is_i64 (i64 x).
Proof.
  unfold is_i64, i64, minInt64, maxInt64, two63, two64.
  pose proof (Z.mod_pos_bound (x + 2 ^ 63) (2 ^ 64)). lia.
Qed.

Lemma i64_id x : is_i64 x -> i64 x = x.
Proof.
  unfold is_i64, i64, minInt64, maxInt64, two63, two64. intros H.
  rewrite Z.mod_small; lia.
Qed.

Lemma Sub_range t u : is_i64 (Sub t u).
Proof.
  unfold Sub, is_i64, minDuration, maxDuration.
  destruct (Z.ltb_spec (t - u) minInt64); [unfold minInt64, maxInt64, two63; lia|].
  destruct (Z.ltb_spec maxInt64 (t - u)); [unfold minInt64, maxInt64, two63; lia|].
  lia.
Qed.

Lemma Sub_mono t1 t2 u : t1 <= t2 -> Sub t1 u <= Sub t2 u.
Proof.
  intros H. unfold Sub, minDuration, maxDuration, minInt64, maxInt64, two63.
  repeat match goal with |- context [?a <? ?b] => destruct (Z.ltb_spec a b) end; lia.
Qed.

Lemma Sub_exact t u : is_i64 (t - u) -> Sub t u = t - u.
Proof.
  unfold is_i64, Sub, minDuration, maxDuration. intros H.
  repeat match goal with |- context [?a <? ?b] => destruct (Z.ltb_spec a b) end; lia.
Qed.

End GoFacts.

(** * Facts about programs *)

Lemma run_bind {A B : Type} (p : Prog A) (f : A -> Prog B) (s : Shared) :
  run (p ≫= f) s =
    let '(s1, r, gs) := run p s in
    match r with
    | Done a => let '(s2, r2, gs2) := run (f a) s1 in (s2, r2, gs ++ gs2)
    | Panic msg => (s1, Panic msg, gs)
    | OutOfFuel => (s1, OutOfFuel, gs)
    end.
Proof.
  unfold mbind, Prog_bind. revert B f s.
  induction p as [A a | A msg | A | A X step k IH | A g _ k IH]; intros B f s; simpl.
  - destruct (run (f a) s) as [[s2 r2] gs2]. reflexivity.
  - reflexivity.
  - reflexivity.
  - destruct (step s) as [s' x]. apply IH.
  - rewrite IH. destruct (run k s) as [[s1 r] gs].
    destruct r as [a | msg | ]; try reflexivity.
    destruct (run (f a) s1) as [[s2 r2] gs2]. reflexivity.
Qed.

(** * Interval detection *)

Module IntervalFacts.
Import GoInt GoTime GoFacts SubmitRewardsTree Stated.

Lemma quot_i64 a d : is_i64 a -> 0 < d -> is_i64 (Z.quot a d).
Proof.
  unfold is_i64, minInt64, maxInt64, two63. intros Ha Hd.
  destruct (Z.le_gt_cases 0 a) as [Hpos | Hneg].
  - rewrite Z.quot_div_nonneg by lia.
    pose proof (Z.div_pos a d Hpos Hd).
    assert (a / d <= a) by (apply Z.div_le_upper_bound; nia). lia.
  - assert (E : Z.quot a d = - Z.quot (- a) d) by (rewrite Z.quot_opp_l; lia).
    rewrite E. rewrite Z.quot_div_nonneg by lia.
    assert (0 <= (- a) / d) by (apply Z.div_pos; lia).
    assert ((- a) / d <= - a) by (apply Z.div_le_upper_bound; nia). lia.
Qed.

Lemma quot_zero a d : - d < a < d -> Z.quot a d = 0.
Proof.
  intros H. destruct (Z.le_gt_cases 0 a) as [Hpos | Hneg].
  - apply Z.quot_small. lia.
  - assert (E : Z.quot a d = - Z.quot (- a) d) by (rewrite Z.quot_opp_l; lia).
    rewrite E, Z.quot_small; lia.
Qed.

(** With a positive duration the division is defined and is the
    truncated quotient of the saturated difference. *)
Lemma intervalsPassed_value (now start : Time) (duration : Duration) :
  0 < duration ->
  intervalsPassed now start duration = Some (Z.quot (Sub now start) duration).
Proof.
  intros Hd. unfold intervalsPassed, div.
  destruct (Z.eqb_spec duration 0) as [E | _]; [lia |].
  rewrite i64_id; [reflexivity |].
  apply quot_i64; [apply Sub_range | exact Hd].
Qed.

Lemma Run_checkpoint_noop (w : World) (fuel : nat) (nodeTrusted : bool)
    (st : state.NetworkState) (s : Shared) :
  intervalsPassed (stateTime st) (state.IntervalStart (state.NetworkDetails st))
    (state.IntervalDuration (state.NetworkDetails st)) = Some 0 ->
  run (Run_checkpoint w fuel nodeTrusted st) s
  = (emit (EvLog "Checking for rewards checkpoint...") s, Done None, []).
Proof.
  intros H. unfold Run_checkpoint. rewrite H. reflexivity.
Qed.

End IntervalFacts.

(** C5.  The interval start is the time of a past block and the state is
    at or after it.  For a positive interval duration and such a state
    the elapsed-interval count is defined and is not negative; it is
    [floor((now - start) / duration)] (stated for a distance that fits a
    [Duration], 292 years); it is monotonic non-decreasing in [now]; it is
    0 whenever [now < start + duration]; and when it is 0 [Run] logs its
    checkpoint line and returns nil: no goroutine, no change to
    [isRunning] or the files. *)
Theorem intervalsPassed_spec (now start : GoTime.Time) (duration : GoTime.Duration) :
  0 < duration ->
  start <= now ->
  exists n,
    SubmitRewardsTree.intervalsPassed now start duration = Some n
    /\ 0 <= n
    /\ (now - start <= GoTime.maxDuration -> n = (now - start) / duration)
    /\ (forall now' n', now <= now' ->
          SubmitRewardsTree.intervalsPassed now' start duration = Some n' -> n <= n')
    /\ (now < start + duration -> n = 0)
    /\ (forall w fuel nodeTrusted st s,
          SubmitRewardsTree.stateTime st = now ->
          state.IntervalStart (state.NetworkDetails st) = start ->
          state.IntervalDuration (state.NetworkDetails st) = duration ->
          n = 0 ->
          run (SubmitRewardsTree.Run_checkpoint w fuel nodeTrusted st) s
          = (emit (EvLog "Checking for rewards checkpoint...") s, Done None, [])).
Proof.
  intros Hd Hle.
  exists (Z.quot (GoTime.Sub now start) duration).
  split; [apply IntervalFacts.intervalsPassed_value; exact Hd |].
  assert (Hsub : 0 <= GoTime.Sub now start
                 /\ (now - start <= GoTime.maxDuration -> GoTime.Sub now start = now - start)
                 /\ (GoTime.maxDuration < now - start -> GoTime.Sub now start = GoTime.maxDuration)).
  { unfold GoTime.Sub, GoTime.minDuration, GoTime.maxDuration, GoInt.minInt64, GoInt.maxInt64,
      GoInt.two63.
    destruct (Z.ltb_spec (now - start) (- 2 ^ 63)); [lia |].
    destruct (Z.ltb_spec (2 ^ 63 - 1) (now - start)); lia. }
  destruct Hsub as (Hnonneg & Hexact & Hsat).
  split; [| split; [| split; [| split]]].
  - rewrite Z.quot_div_nonneg by lia. apply Z.div_pos; lia.
  - intros Hfit. rewrite (Hexact Hfit). apply Z.quot_div_nonneg; lia.
  - intros now' n' Hle' H'.
    rewrite IntervalFacts.intervalsPassed_value in H' by exact Hd.
    injection H' as <-.
    apply Z.quot_le_mono; [exact Hd | apply GoFacts.Sub_mono; exact Hle'].
  - intros Hnear. apply Z.quot_small.
    destruct (Z.le_gt_cases (now - start) GoTime.maxDuration) as [Hfit | Hbig].
    + rewrite (Hexact Hfit). lia.
    + rewrite (Hsat Hbig). lia.
  - intros w fuel nodeTrusted st s Hnow Hstart Hdur Hzero.
    apply IntervalFacts.Run_checkpoint_noop.
    rewrite Hnow, Hstart, Hdur, IntervalFacts.intervalsPassed_value by exact Hd.
    rewrite Hzero. reflexivity.
Qed.

(** The values of the specification's example: 45 seconds into a one-day
    interval nothing has elapsed, and [Run] returns after its checkpoint
    line. *)
Lemma intervalsPassed_spec_witness :
  let now := GoTime.Unix 1713420045 in
  let start := GoTime.Unix 1713420000 in
  let duration := 86400 * GoTime.Second in
  exists n,
    (SubmitRewardsTree.intervalsPassed now start duration = Some n
     /\ 0 <= n
     /\ (now - start <= GoTime.maxDuration -> n = (now - start) / duration)
     /\ (forall now' n', now <= now' ->
           SubmitRewardsTree.intervalsPassed now' start duration = Some n' -> n <= n')
     /\ (now < start + duration -> n = 0)
     /\ (forall w fuel nodeTrusted st s,
           SubmitRewardsTree.stateTime st = now ->
           state.IntervalStart (state.NetworkDetails st) = start ->
           state.IntervalDuration (state.NetworkDetails st) = duration ->
           n = 0 ->
           run (SubmitRewardsTree.Run_checkpoint w fuel nodeTrusted st) s
           = (emit (EvLog "Checking for rewards checkpoint...") s, Done None, [])))
    /\ n = (now - start) / duration
    /\ n = 0.
Proof.
  intros now start duration.
  destruct (intervalsPassed_spec now start duration) as [n Hall].
  - reflexivity.
  - vm_compute. discriminate.
  - exists n. split; [exact Hall |].
    destruct Hall as [_ [_ [Hfloor [_ [Hzero _]]]]]. split.
    + apply Hfloor. vm_compute. discriminate.
    + apply Hzero. vm_compute. reflexivity.
Defined.

(** The two cases of the specification: 45 seconds after the start of a
    one-day interval none has elapsed, 90000 seconds after it one has. *)
Lemma intervalsPassed_examples :
  SubmitRewardsTree.intervalsPassed (GoTime.Unix 1713420045) (GoTime.Unix 1713420000)
    (86400 * GoTime.Second) = Some 0
  /\ SubmitRewardsTree.intervalsPassed (GoTime.Unix 1713510000) (GoTime.Unix 1713420000)
       (86400 * GoTime.Second) = Some 1.
Proof. split; vm_compute; reflexivity. Qed.

(** C6.  The division of [Run] is not guarded: with a negative interval
    duration it is carried out (the count is -1 and [Run] goes on to start
    a generation), and with a zero duration it is a runtime panic, not an
    error returned by the task. *)
Theorem Run_divides_by_nonpositive_duration :
  SubmitRewardsTree.intervalsPassed
    (SubmitRewardsTree.stateTime Example.negativeDuration)
    (state.IntervalStart (state.NetworkDetails Example.negativeDuration))
    (state.IntervalDuration (state.NetworkDetails Example.negativeDuration)) = Some (-1)
  /\ snd (fst (run (SubmitRewardsTree.Run (Example.worldAt 11) 10 true
                      Example.negativeDuration 400) Example.fresh)) = Done None
  /\ length (snd (run (SubmitRewardsTree.Run (Example.worldAt 11) 10 true
                         Example.negativeDuration 400) Example.fresh)) = 1%nat
  /\ snd (fst (run (SubmitRewardsTree.Run (Example.worldAt 11) 10 true
                      Example.zeroDuration 400) Example.fresh))
     = Panic "runtime error: integer divide by zero".
Proof.
  repeat split; vm_compute; reflexivity.
Qed.

(** * Snapshot block resolution *)

Module ResolverFacts.
Import GoInt GoTime GoFacts SubmitRewardsTree Stated.

Lemma ceiling_round_up a n : 0 < n -> (a + n - 1) / n = ceiling a n.
Proof.
  intros Hn. unfold ceiling.
  pose proof (Z.div_mod (- a) n ltac:(lia)) as E.
  pose proof (Z.mod_pos_bound (- a) n Hn) as B.
  symmetry.
  apply (Z.div_unique (a + n - 1) n (- ((- a) / n)) (n - 1 - (- a) mod n)); lia.
Qed.

Lemma ceiling_nonneg a n : 0 < n -> 0 <= a -> 0 <= ceiling a n.
Proof.
  intros Hn Ha. rewrite <- ceiling_round_up by exact Hn.
  apply Z.div_pos; lia.
Qed.

Lemma emitAll_nil s : emitAll [] s = s.
Proof. destruct s. unfold emitAll. simpl. rewrite app_nil_r. reflexivity. Qed.

(** The backward walk, started [k] slots above a proposed block with
    only missed slots in between, stops at that block after [k]
    decrements. *)
Lemma firstProposedBlock_walk (client : beacon.Client) (b : beacon.BeaconBlock) (s0 : Z) :
  0 <= s0 ->
  beacon.GetBeaconBlock client s0 = beacon.Proposed b ->
  forall (k fuel : nat) (L : Z),
    L = s0 + Z.of_nat k ->
    L < two64 ->
    (forall t, s0 < t <= L -> beacon.GetBeaconBlock client t = beacon.Missing) ->
    (k < fuel)%nat ->
    firstProposedBlock client fuel L
    = (repeat missedLine k, Done (s0, beacon.ExecutionBlockNumber b, None)).
Proof.
  intros Hs0 Hb.
  induction k as [| k IH]; intros fuel L HL Hmax Hmiss Hfuel.
  - destruct fuel as [| fuel]; [lia |].
    replace L with s0 by lia. simpl. rewrite Hb. reflexivity.
  - destruct fuel as [| fuel]; [lia |].
    simpl. rewrite (Hmiss L) by lia.
    assert (E : u64 (L - 1) = s0 + Z.of_nat k).
    { rewrite u64_id; [lia | unfold is_u64; lia]. }
    rewrite E.
    rewrite (IH fuel (s0 + Z.of_nat k)); [reflexivity | reflexivity | lia | | lia].
    intros t Ht. apply Hmiss. lia.
Qed.

(** On a whole number of seconds at or after genesis the first slot
    is the ceiling of the quotient. *)
Lemma rawTargetSlot_exact (w : World) (endTime : Time) (st : state.NetworkState) :
  let genesisTime := Unix (i64 (beacon.GenesisTime (state.BeaconConfig st))) in
  let secondsPerSlot := beacon.SecondsPerSlot (state.BeaconConfig st) in
  0 < secondsPerSlot ->
  genesisTime <= endTime ->
  (endTime - genesisTime) mod Second = 0 ->
  endTime - genesisTime <= maxDuration ->
  rawTargetSlot w endTime st = ceiling ((endTime - genesisTime) / Second) secondsPerSlot.
Proof.
  intros genesisTime secondsPerSlot Hsps Hge Hwhole Hfit.
  unfold rawTargetSlot, ceilSlots. fold genesisTime. fold secondsPerSlot.
  rewrite Sub_exact.
  - destruct (Z.leb_spec 0 (endTime - genesisTime)); [| lia].
    rewrite Hwhole. simpl.
    destruct (Z.ltb_spec 0 secondsPerSlot); [| lia].
    simpl. apply ceiling_round_up. exact Hsps.
  - unfold is_i64, maxDuration in *. unfold minInt64, maxInt64, two63 in *. lia.
Qed.

Lemma u64_le x : 0 <= x -> u64 x <= x.
Proof. intros H. unfold u64, two64. apply Z.mod_le; lia. Qed.

Lemma rawTargetSlot_nonneg (w : World) (endTime : Time) (st : state.NetworkState) :
  0 <= rawTargetSlot w endTime st.
Proof.
  unfold rawTargetSlot, ceilSlots.
  set (d := Sub endTime _). set (n := beacon.SecondsPerSlot _).
  destruct (Z.leb_spec 0 d); simpl; [| apply u64_range].
  destruct (d mod Second =? 0); simpl; [| apply u64_range].
  destruct (Z.ltb_spec 0 n); simpl; [| apply u64_range].
  apply Z.div_pos; [| assumption].
  assert (0 <= d / Second) by (apply Z.div_pos; [assumption | reflexivity]). lia.
Qed.

(** Unless the addition wraps, the required epoch is the target epoch
    plus one. *)
Lemma requiredEpoch_plus_one (w : World) (endTime : Time) (st : state.NetworkState) :
  0 < beacon.SlotsPerEpoch (state.BeaconConfig st) ->
  targetSlotEpoch w endTime st + 1 < two64 ->
  requiredEpoch w endTime st = targetSlotEpoch w endTime st + 1.
Proof.
  intros Hspe Hmax. unfold requiredEpoch. apply u64_id. unfold is_u64.
  split; [| exact Hmax].
  assert (0 <= targetSlotEpoch w endTime st); [| lia].
  unfold targetSlotEpoch. apply Z.div_pos; [apply rawTargetSlot_nonneg | exact Hspe].
Qed.

End ResolverFacts.

(** C2.  For an end time a whole number of seconds at or after genesis,
    once epoch [targetEpoch + 1] is finalized and with the beacon client
    answering, the resolver returns the greatest slot [s0 <= L] that has a
    proposed block, with that block's execution block number, where [L] is
    the last slot of the epoch of slot [ceil((endTime - genesis) /
    secondsPerSlot)].  The walk goes down one slot at a time (one log line
    per missed slot) and ends at the first proposed block: [L - s0 + 1]
    iterations are enough. *)
Theorem getSnapshotConsensusBlock_resolves (w : World) (endTime : GoTime.Time)
    (st : state.NetworkState) (head : beacon.BeaconHead) (s0 : Z) (b : beacon.BeaconBlock) :
  let genesisTime := GoTime.Unix (GoInt.i64 (beacon.GenesisTime (state.BeaconConfig st))) in
  let secondsPerSlot := beacon.SecondsPerSlot (state.BeaconConfig st) in
  let slotsPerEpoch := beacon.SlotsPerEpoch (state.BeaconConfig st) in
  let targetEpoch :=
    Stated.ceiling ((endTime - genesisTime) / GoTime.Second) secondsPerSlot / slotsPerEpoch in
  let L := targetEpoch * slotsPerEpoch + (slotsPerEpoch - 1) in
  0 < secondsPerSlot ->
  0 < slotsPerEpoch ->
  genesisTime <= endTime ->
  (endTime - genesisTime) mod GoTime.Second = 0 ->
  endTime - genesisTime <= GoTime.maxDuration ->
  L < GoInt.two64 ->
  beacon.GetBeaconHead (bc w) = Success head ->
  targetEpoch + 1 <= beacon.FinalizedEpoch head ->
  0 <= s0 <= L ->
  beacon.GetBeaconBlock (bc w) s0 = beacon.Proposed b ->
  (forall t, s0 < t <= L -> beacon.GetBeaconBlock (bc w) t = beacon.Missing) ->
  forall fuel, (Z.to_nat (L - s0) < fuel)%nat ->
    SubmitRewardsTree.getSnapshotConsensusBlock w fuel endTime st
    = (repeat Stated.missedLine (Z.to_nat (L - s0)),
       Done (s0, beacon.ExecutionBlockNumber b, None)).
Proof.
  intros genesisTime secondsPerSlot slotsPerEpoch targetEpoch L
         Hsps Hspe Hge Hwhole Hfit HL Hhead Hfinal Hs0 Hb Hmiss fuel Hfuel.
  assert (Hraw : SubmitRewardsTree.rawTargetSlot w endTime st
                 = Stated.ceiling ((endTime - genesisTime) / GoTime.Second) secondsPerSlot)
    by (apply ResolverFacts.rawTargetSlot_exact; assumption).
  assert (Hepoch : SubmitRewardsTree.targetSlotEpoch w endTime st = targetEpoch)
    by (unfold SubmitRewardsTree.targetSlotEpoch; rewrite Hraw; reflexivity).
  assert (Hnonneg : 0 <= targetEpoch).
  { apply Z.div_pos; [| exact Hspe].
    apply ResolverFacts.ceiling_nonneg; [exact Hsps |].
    apply Z.div_pos; [lia | reflexivity]. }
  assert (Hslot : SubmitRewardsTree.targetSlot w endTime st = L).
  { unfold SubmitRewardsTree.targetSlot. rewrite Hepoch. fold slotsPerEpoch.
    apply GoFacts.u64_id. unfold GoInt.is_u64. subst L. nia. }
  unfold SubmitRewardsTree.getSnapshotConsensusBlock.
  rewrite Hhead. fold slotsPerEpoch.
  destruct (Z.eqb_spec slotsPerEpoch 0) as [E | _]; [lia |].
  assert (Hreq : SubmitRewardsTree.requiredEpoch w endTime st <= beacon.FinalizedEpoch head).
  { unfold SubmitRewardsTree.requiredEpoch. rewrite Hepoch.
    pose proof (ResolverFacts.u64_le (targetEpoch + 1)). lia. }
  destruct (Z.ltb_spec (beacon.FinalizedEpoch head) (SubmitRewardsTree.requiredEpoch w endTime st));
    [lia |].
  rewrite Hslot.
  apply ResolverFacts.firstProposedBlock_walk; try assumption; try lia.
Qed.

(** In the example network the interval ends at second 4840: slot 320,
    epoch 10, last slot 351; slots 351 and 350 were missed, so the
    snapshot is slot 349 with execution block 5349. *)
Lemma getSnapshotConsensusBlock_resolves_witness :
  SubmitRewardsTree.getSnapshotConsensusBlock (Example.worldAt 11) 3 (GoTime.Unix 4840)
    Example.oneIntervalElapsed
  = ([Stated.missedLine; Stated.missedLine], Done (349, 5349, None)).
Proof.
  apply (getSnapshotConsensusBlock_resolves (Example.worldAt 11) (GoTime.Unix 4840)
           Example.oneIntervalElapsed {| beacon.FinalizedEpoch := 11 |} 349
           {| beacon.ExecutionBlockNumber := 5349 |}).
  - reflexivity.
  - reflexivity.
  - vm_compute. discriminate.
  - reflexivity.
  - vm_compute. discriminate.
  - reflexivity.
  - reflexivity.
  - vm_compute. discriminate.
  - vm_compute. split; discriminate.
  - reflexivity.
  - intros t Ht. change (Example.blocks t = beacon.Missing). unfold Example.blocks.
    match type of Ht with
    | _ < _ <= ?u => replace u with 351 in Ht by (vm_compute; reflexivity)
    end.
    assert (t = 350 \/ t = 351) as [-> | ->] by lia; reflexivity.
  - vm_compute. lia.
Defined.

Module FinalityFacts.
Import GoInt GoTime GoFacts SubmitRewardsTree Stated.

(** A resolved block is returned only past the finality check. *)
Lemma resolved_only_when_finalized (w : World) (fuel : nat) (endTime : Time)
    (st : state.NetworkState) (logs : list Event) (slot block : Z) :
  getSnapshotConsensusBlock w fuel endTime st = (logs, Done (slot, block, None)) ->
  exists head,
    beacon.GetBeaconHead (bc w) = Success head
    /\ requiredEpoch w endTime st <= beacon.FinalizedEpoch head.
Proof.
  unfold getSnapshotConsensusBlock. intros H.
  destruct (beacon.GetBeaconHead (bc w)) as [head | err]; [| discriminate].
  exists head. split; [reflexivity |].
  destruct (beacon.SlotsPerEpoch (state.BeaconConfig st) =? 0); [discriminate |].
  destruct (Z.ltb_spec (beacon.FinalizedEpoch head) (requiredEpoch w endTime st));
    [discriminate | assumption].
Qed.

(** Before that, the answer is the waiting error. *)
Lemma waiting_error (w : World) (fuel : nat) (endTime : Time) (st : state.NetworkState)
    (head : beacon.BeaconHead) :
  beacon.GetBeaconHead (bc w) = Success head ->
  beacon.SlotsPerEpoch (state.BeaconConfig st) <> 0 ->
  beacon.FinalizedEpoch head < requiredEpoch w endTime st ->
  getSnapshotConsensusBlock w fuel endTime st
  = ([], Done (0, 0, Some (ErrWaiting endTime (targetSlot w endTime st)
                             (targetSlotEpoch w endTime st) (requiredEpoch w endTime st)
                             (beacon.FinalizedEpoch head)))).
Proof.
  intros Hhead Hspe Hlt. unfold getSnapshotConsensusBlock. rewrite Hhead.
  destruct (Z.eqb_spec (beacon.SlotsPerEpoch (state.BeaconConfig st)) 0); [contradiction |].
  destruct (Z.ltb_spec (beacon.FinalizedEpoch head) (requiredEpoch w endTime st)); [| lia].
  reflexivity.
Qed.

(** [Run] hands an error of the resolver to its caller. *)
Lemma Run_checkpoint_resolver_error (w : World) (fuel : nat) (nodeTrusted : bool)
    (st : state.NetworkState) (s : Shared) (n : Duration) (logs : list Event)
    (slot block : Z) (err : error) :
  let startTime := state.IntervalStart (state.NetworkDetails st) in
  let intervalTime := state.IntervalDuration (state.NetworkDetails st) in
  intervalsPassed (stateTime st) startTime intervalTime = Some n ->
  n <> 0 ->
  getSnapshotConsensusBlock w fuel (Add startTime (mul intervalTime n)) st
  = (logs, Done (slot, block, Some err)) ->
  run (Run_checkpoint w fuel nodeTrusted st) s
  = (emitAll logs (emit (EvLog "Checking for rewards checkpoint...") s), Done (Some err), []).
Proof.
  intros startTime intervalTime Hn Hnz Hres.
  unfold Run_checkpoint. fold startTime. fold intervalTime. rewrite Hn.
  destruct (Z.eqb_spec n 0); [contradiction |].
  rewrite Hres. reflexivity.
Qed.

End FinalityFacts.

(** C1, as amended.  The resolver returns a resolved (slot, execution
    block) pair only when the finalized epoch is at least
    [requiredEpoch], which is [targetEpoch + 1] (in uint64 arithmetic;
    the sum itself unless it reaches 2^64).  Whenever the beacon head is known
    and the finalized epoch is below [requiredEpoch], it returns no block
    but [(0, 0, err)] with the non-nil "waiting until epoch ... is
    finalized" error, and [Run] returns that error to its caller after its
    checkpoint log line: nothing is started, [isRunning] and the files are
    as before, and a later tick tries again. *)
Theorem getSnapshotConsensusBlock_finality (w : World) (fuel : nat) (endTime : GoTime.Time)
    (st : state.NetworkState) :
  0 < beacon.SlotsPerEpoch (state.BeaconConfig st) ->
  (SubmitRewardsTree.targetSlotEpoch w endTime st + 1 < GoInt.two64 ->
   SubmitRewardsTree.requiredEpoch w endTime st
   = SubmitRewardsTree.targetSlotEpoch w endTime st + 1)
  /\ (forall logs slot block,
        SubmitRewardsTree.getSnapshotConsensusBlock w fuel endTime st
        = (logs, Done (slot, block, None)) ->
        exists head,
          beacon.GetBeaconHead (bc w) = Success head
          /\ SubmitRewardsTree.requiredEpoch w endTime st <= beacon.FinalizedEpoch head)
  /\ (forall head,
        beacon.GetBeaconHead (bc w) = Success head ->
        beacon.FinalizedEpoch head < SubmitRewardsTree.requiredEpoch w endTime st ->
        let waiting :=
          ErrWaiting endTime (SubmitRewardsTree.targetSlot w endTime st)
            (SubmitRewardsTree.targetSlotEpoch w endTime st)
            (SubmitRewardsTree.requiredEpoch w endTime st) (beacon.FinalizedEpoch head) in
        SubmitRewardsTree.getSnapshotConsensusBlock w fuel endTime st
        = ([], Done (0, 0, Some waiting))
        /\ (forall nodeTrusted s n,
              SubmitRewardsTree.intervalsPassed (SubmitRewardsTree.stateTime st)
                (state.IntervalStart (state.NetworkDetails st))
                (state.IntervalDuration (state.NetworkDetails st)) = Some n ->
              n <> 0 ->
              endTime = GoTime.Add (state.IntervalStart (state.NetworkDetails st))
                          (GoTime.mul (state.IntervalDuration (state.NetworkDetails st)) n) ->
              run (SubmitRewardsTree.Run_checkpoint w fuel nodeTrusted st) s
              = (emit (EvLog "Checking for rewards checkpoint...") s, Done (Some waiting), []))).
Proof.
  intros Hpos.
  assert (Hspe : beacon.SlotsPerEpoch (state.BeaconConfig st) <> 0) by lia.
  split; [apply ResolverFacts.requiredEpoch_plus_one; exact Hpos |]. split.
  - intros logs slot block H.
    apply (FinalityFacts.resolved_only_when_finalized w fuel endTime st logs slot block H).
  - intros head Hhead Hlt waiting.
    pose proof (FinalityFacts.waiting_error w fuel endTime st head Hhead Hspe Hlt) as Hwait.
    split; [exact Hwait |].
    intros nodeTrusted s n Hn Hnz HendTime.
    rewrite HendTime in Hwait.
    rewrite (FinalityFacts.Run_checkpoint_resolver_error w fuel nodeTrusted st s n [] 0 0
               _ Hn Hnz Hwait).
    rewrite ResolverFacts.emitAll_nil. subst waiting. rewrite HendTime. reflexivity.
Qed.

(** The example network with epoch 10 finalized, where epoch 11 is
    required. *)
Lemma getSnapshotConsensusBlock_finality_witness :
  SubmitRewardsTree.getSnapshotConsensusBlock (Example.worldAt 10) 3 (GoTime.Unix 4840)
    Example.oneIntervalElapsed
  = ([], Done (0, 0, Some (ErrWaiting (GoTime.Unix 4840) 351 10 11 10))).
Proof.
  destruct (getSnapshotConsensusBlock_finality (Example.worldAt 10) 3 (GoTime.Unix 4840)
              Example.oneIntervalElapsed) as [_ [_ Hwait]].
  - reflexivity.
  - destruct (Hwait {| beacon.FinalizedEpoch := 10 |}) as [H _].
    + reflexivity.
    + vm_compute. reflexivity.
    + exact H.
Defined.

(** C1 as stated fails: with epoch 10 finalized and epoch 11 required the
    resolver's third result is a non-nil error, and [Run] returns that
    error instead of nil. *)
Lemma Run_waiting_is_an_error :
  beacon.FinalizedEpoch {| beacon.FinalizedEpoch := 10 |}
  < SubmitRewardsTree.targetSlotEpoch (Example.worldAt 10) (GoTime.Unix 4840)
      Example.oneIntervalElapsed + 1
  /\ snd (SubmitRewardsTree.getSnapshotConsensusBlock (Example.worldAt 10) 3 (GoTime.Unix 4840)
            Example.oneIntervalElapsed)
     = Done (0, 0, Some (ErrWaiting (GoTime.Unix 4840) 351 10 11 10))
  /\ snd (fst (run (SubmitRewardsTree.Run (Example.worldAt 10) 3 true
                      Example.oneIntervalElapsed 400) Example.fresh))
     = Done (Some (ErrWaiting (GoTime.Unix 4840) 351 10 11 10))
  /\ snd (fst (run (SubmitRewardsTree.Run (Example.worldAt 10) 3 true
                      Example.oneIntervalElapsed 400) Example.fresh))
     <> Done None.
Proof.
  split; [vm_compute; reflexivity |].
  split; [vm_compute; reflexivity |].
  split; [vm_compute; reflexivity | vm_compute; discriminate].
Qed.

(** * Artifact reuse *)

Module ArtifactFacts.
Import GoInt GoTime GoFacts SubmitRewardsTree Stated.

(** The check is true exactly for a readable file that deserializes to
    a rewards file recording the given number of intervals. *)
Lemma isExistingFileValid_iff (g : TreeGen) (fs : gmap string FileNode) (path : string) (N : Z) :
  fst (isExistingFileValid g fs path N) = true
  <-> exists content f,
        fs !! path = Some (Readable content)
        /\ DeserializeRewardsFile g content = Success f
        /\ rprewards.IntervalsPassed (rprewards.GetHeader f) = N.
Proof.
  unfold isExistingFileValid. split.
  - destruct (fs !! path) as [[content | err] |]; simpl; try discriminate.
    destruct (DeserializeRewardsFile g content) as [f | err] eqn:Hf; simpl; try discriminate.
    destruct (Z.eqb_spec (rprewards.IntervalsPassed (rprewards.GetHeader f)) N) as [E | _];
      simpl; try discriminate.
    intros _. exists content, f. auto.
  - intros (content & f & Hfile & Hf & HN).
    rewrite Hfile, Hf, HN, Z.eqb_refl. reflexivity.
Qed.

Lemma isExistingFileValid_false_iff (g : TreeGen) (fs : gmap string FileNode) (path : string) (N : Z) :
  fst (isExistingFileValid g fs path N) = false
  <-> ~ exists content f,
        fs !! path = Some (Readable content)
        /\ DeserializeRewardsFile g content = Success f
        /\ rprewards.IntervalsPassed (rprewards.GetHeader f) = N.
Proof.
  rewrite <- isExistingFileValid_iff.
  destruct (fst (isExistingFileValid g fs path N)); split; intros H; congruence.
Qed.

(** After a successful [os.WriteFile] the path holds the data. *)
Lemma WriteFile_files (w : World) (path : string) (data : bytes) (s : Shared) :
  WriteFileFault (faults w) path = None ->
  run (WriteFile w path data) s = (setFile path (Some (Readable data)) s, Done None, []).
Proof. intros H. unfold WriteFile. rewrite H. reflexivity. Qed.

Lemma u64_succ_neq (N : Z) : is_u64 N -> u64 (N + 1) <> N.
Proof.
  unfold is_u64, u64, two64. intros H E.
  destruct (Z.eq_dec N (2 ^ 64 - 1)) as [-> | Hne].
  - vm_compute in E. discriminate.
  - rewrite Z.mod_small in E; lia.
Qed.

(** An invalid file sends [Run] to [generateTree]: it returns nil with
    one goroutine started, and has touched neither the files nor
    [isRunning]. *)
Lemma Run_work_regenerates (w : World) (nodeTrusted : bool) (st : state.NetworkState)
    (ip : Duration) (startTime endTime : Time) (slot elBlockIndex : Z) (hdr : Header)
    (s : Shared) :
  NewRewardsPool w = None ->
  fst (isExistingFileValid (gen w) (files s)
         (GetRewardsTreePath w (state.RewardIndex (state.NetworkDetails st))) (u64 ip)) = false ->
  exists s' g,
    run (Run_work w nodeTrusted st ip startTime endTime slot elBlockIndex hdr) s
    = (s', Done None, [g])
    /\ files s' = files s
    /\ isRunning s' = isRunning s.
Proof.
  intros Hpool Hinvalid. unfold Run_work. rewrite Hpool.
  cbn -[isExistingFileValid].
  destruct (isExistingFileValid (gen w) (files s)
              (GetRewardsTreePath w (state.RewardIndex (state.NetworkDetails st))) (u64 ip))
    as [ok logs].
  simpl in Hinvalid. subst ok. cbn.
  eexists _, _. split; [reflexivity |]. split; reflexivity.
Qed.

End ArtifactFacts.

(** C7.  The validity check on [path] for [N] elapsed intervals is true
    if and only if a readable file is at [path], it deserializes, and its
    header records [N] intervals; an absent or an unparsable file gives
    false, and a false answer makes [Run] start a regeneration and return
    nil; an artifact written with [N] recorded intervals is valid against
    [N] and invalid against [N + 1]. *)
Theorem isExistingFileValid_spec (w : World) (s : Shared) (path : string) (N : Z) :
  GoInt.is_u64 N ->
  (fst (SubmitRewardsTree.isExistingFileValid (gen w) (files s) path N) = true
   <-> exists content f,
         files s !! path = Some (Readable content)
         /\ DeserializeRewardsFile (gen w) content = Success f
         /\ rprewards.IntervalsPassed (rprewards.GetHeader f) = N)
  /\ (files s !! path = None ->
      fst (SubmitRewardsTree.isExistingFileValid (gen w) (files s) path N) = false)
  /\ (forall content err,
        files s !! path = Some (Readable content) ->
        DeserializeRewardsFile (gen w) content = Failure err ->
        fst (SubmitRewardsTree.isExistingFileValid (gen w) (files s) path N) = false)
  /\ (forall nodeTrusted st ip startTime endTime slot elBlockIndex hdr,
        N = GoInt.u64 ip ->
        path = GetRewardsTreePath w (state.RewardIndex (state.NetworkDetails st)) ->
        NewRewardsPool w = None ->
        fst (SubmitRewardsTree.isExistingFileValid (gen w) (files s) path N) = false ->
        exists s' g,
          run (SubmitRewardsTree.Run_work w nodeTrusted st ip startTime endTime slot
                 elBlockIndex hdr) s = (s', Done None, [g])
          /\ files s' = files s)
  /\ (forall file content file',
        rprewards.IntervalsPassed (rprewards.GetHeader file) = N ->
        Serialize (gen w) file = Success content ->
        DeserializeRewardsFile (gen w) content = Success file' ->
        rprewards.GetHeader file' = rprewards.GetHeader file ->
        WriteFileFault (faults w) path = None ->
        let s' := fst (fst (run (SubmitRewardsTree.WriteFile w path content) s)) in
        fst (SubmitRewardsTree.isExistingFileValid (gen w) (files s') path N) = true
        /\ fst (SubmitRewardsTree.isExistingFileValid (gen w) (files s') path (GoInt.u64 (N + 1)))
           = false).
Proof.
  intros HN.
  split; [apply ArtifactFacts.isExistingFileValid_iff |].
  split; [| split; [| split]].
  - intros Habsent. unfold SubmitRewardsTree.isExistingFileValid. rewrite Habsent. reflexivity.
  - intros content err Hfile Hbad.
    unfold SubmitRewardsTree.isExistingFileValid. rewrite Hfile, Hbad. reflexivity.
  - intros nodeTrusted st ip startTime endTime slot elBlockIndex hdr -> -> Hpool Hinvalid.
    destruct (ArtifactFacts.Run_work_regenerates w nodeTrusted st ip startTime endTime slot
                elBlockIndex hdr s Hpool Hinvalid) as (s' & g & Hrun & Hfiles & _).
    exists s', g. split; assumption.
  - intros file content file' Hcount Hser Hde Hhdr Hfault s'.
    subst s'. rewrite ArtifactFacts.WriteFile_files by exact Hfault. simpl.
    split.
    + apply ArtifactFacts.isExistingFileValid_iff.
      exists content, file'. rewrite lookup_insert_eq, Hhdr. auto.
    + apply ArtifactFacts.isExistingFileValid_false_iff.
      intros (content' & f & Hlook & Hf & Hcount').
      rewrite lookup_insert_eq in Hlook. injection Hlook as <-.
      rewrite Hde in Hf. injection Hf as <-.
      rewrite Hhdr, Hcount in Hcount'.
      symmetry in Hcount'. revert Hcount'. apply ArtifactFacts.u64_succ_neq. exact HN.
Qed.

(** The tree the example network generates for one elapsed interval is
    valid against 1 and invalid against 2. *)
Lemma isExistingFileValid_spec_witness :
  fst (SubmitRewardsTree.isExistingFileValid Example.treeGen
         (files (fst (fst (run (SubmitRewardsTree.WriteFile (Example.worldAt 11)
                                  "rewards-tree.json" (bigint.be_bytes 8 1)) Example.fresh))))
         "rewards-tree.json" 1) = true
  /\ fst (SubmitRewardsTree.isExistingFileValid Example.treeGen
            (files (fst (fst (run (SubmitRewardsTree.WriteFile (Example.worldAt 11)
                                     "rewards-tree.json" (bigint.be_bytes 8 1)) Example.fresh))))
            "rewards-tree.json" (GoInt.u64 (1 + 1))) = false.
Proof.
  destruct (isExistingFileValid_spec (Example.worldAt 11) Example.fresh "rewards-tree.json" 1)
    as (_ & _ & _ & _ & Hfresh).
  - unfold GoInt.is_u64. vm_compute. split; [discriminate | reflexivity].
  - apply (Hfresh (Example.file 1) (bigint.be_bytes 8 1) (Example.file 1)); reflexivity.
Defined.

(** The same through a whole run: the tree that the example network's
    goroutine generates for one elapsed interval is reused on the next
    tick as long as one interval has elapsed, and regenerated once two
    have. *)
Lemma generated_tree_example :
  let s := fst (runThrough (SubmitRewardsTree.Run (Example.worldAt 11) 3 true
                              Example.oneIntervalElapsed 400) Example.fresh) in
  files s !! "rewards-tree.json"%string = Some (Readable (bigint.be_bytes 8 1))
  /\ fst (SubmitRewardsTree.isExistingFileValid Example.treeGen (files s) "rewards-tree.json" 1)
     = true
  /\ fst (SubmitRewardsTree.isExistingFileValid Example.treeGen (files s) "rewards-tree.json" 2)
     = false.
Proof. vm_compute. repeat split; reflexivity. Qed.

(** * Relay leader rotation *)

Module RotationFacts.
Import GoInt GoTime GoFacts SubmitRplPrice Stated.

Lemma findIndex_first (members : list state.OracleDaoMember) (from : state.Address) :
  forall (i : nat) (m : state.OracleDaoMember) (base : Z),
    members !! i = Some m ->
    state.Address_ m = from ->
    (forall j m', (j < i)%nat -> members !! j = Some m' -> state.Address_ m' <> from) ->
    findIndex members from base = base + Z.of_nat i.
Proof.
  induction members as [| m0 rest IH]; intros i m base Hi Hm Hfirst.
  - discriminate.
  - destruct i as [| i]; simpl in *.
    + injection Hi as ->. rewrite Hm, Z.eqb_refl. lia.
    + destruct (Z.eqb_spec (state.Address_ m0) from) as [E | _].
      * exfalso. apply (Hfirst 0%nat m0); [lia | reflexivity | exact E].
      * rewrite (IH i m (base + 1) Hi Hm); [lia |].
        intros j m' Hj Hlook. apply (Hfirst (S j) m'); [lia | exact Hlook].
Qed.

(** Every path of [updateL2Prices] on which the node is not the
    selected member ends without an effect. *)
Lemma updateL2Prices_not_leader (w : World) (pw : PriceWorld) (st : state.NetworkState)
    (s : Shared) (opts : tx.TransactOpts) :
  state.OracleDaoMemberDetails st <> [] ->
  GetTransactor (txl w) = Success opts ->
  findIndex (state.OracleDaoMemberDetails st) (tx.From opts) 0
  <> indexToSubmit (state.ElBlockNumber st)
       (Z.of_nat (length (state.OracleDaoMemberDetails st))) ->
  exists r, run (updateL2Prices w pw st) s = (s, Done r, []).
Proof.
  intros Hmembers Hopts Hother. unfold updateL2Prices.
  destruct (errors.Join _) as [err |]; [eexists; reflexivity |].
  destruct (forallb _ targets); [eexists; reflexivity |].
  rewrite Hopts.
  destruct (StaleQuery pw) as [err |]; [eexists; reflexivity |].
  destruct (negb _); [eexists; reflexivity |].
  destruct (Z.eqb_spec (Z.of_nat (length (state.OracleDaoMemberDetails st))) 0) as [E | _].
  - destruct (state.OracleDaoMemberDetails st); [contradiction | discriminate].
  - destruct (Z.eqb_spec (findIndex (state.OracleDaoMemberDetails st) (tx.From opts) 0)
                (indexToSubmit (state.ElBlockNumber st)
                   (Z.of_nat (length (state.OracleDaoMemberDetails st))))) as [E | _];
      [contradiction | eexists; reflexivity].
Qed.

Lemma div75 (b q : Z) : 75 * q <= b < 75 * q + 75 -> b / 75 = q.
Proof. intros H. symmetry. apply (Z.div_unique b 75 q (b - 75 * q)); lia. Qed.

End RotationFacts.

(** C8.  For a non-empty member list the selected index is
    [(blockNumber / 75) mod memberCount], a valid position in the list;
    with four members blocks 0..74 select 0, 75..149 select 1 and 300..374
    wrap to 0.  The node's own index is the position of the first member
    whose address is the transactor's.  When the own index is not the
    selected one, [updateL2Prices] ends without any effect, stale targets
    or not; so whenever it has an effect the own index is the selected
    one. *)
Theorem indexToSubmit_rotation (w : World) (pw : PriceWorld) (st : state.NetworkState)
    (s : Shared) (opts : tx.TransactOpts) :
  let members := state.OracleDaoMemberDetails st in
  let count := Z.of_nat (length members) in
  let blockNumber := state.ElBlockNumber st in
  let own := SubmitRplPrice.findIndex members (tx.From opts) 0 in
  members <> [] ->
  GetTransactor (txl w) = Success opts ->
  SubmitRplPrice.indexToSubmit blockNumber count = (blockNumber / 75) mod count
  /\ 0 <= SubmitRplPrice.indexToSubmit blockNumber count < count
  /\ (forall b, (0 <= b <= 74 -> SubmitRplPrice.indexToSubmit b 4 = 0)
                /\ (75 <= b <= 149 -> SubmitRplPrice.indexToSubmit b 4 = 1)
                /\ (300 <= b <= 374 -> SubmitRplPrice.indexToSubmit b 4 = 0))
  /\ (forall (i : nat) m,
        members !! i = Some m ->
        state.Address_ m = tx.From opts ->
        (forall j m', (j < i)%nat -> members !! j = Some m' ->
                      state.Address_ m' <> tx.From opts) ->
        own = Z.of_nat i)
  /\ (own <> SubmitRplPrice.indexToSubmit blockNumber count ->
      exists r, run (SubmitRplPrice.updateL2Prices w pw st) s = (s, Done r, []))
  /\ (fst (fst (run (SubmitRplPrice.updateL2Prices w pw st) s)) <> s ->
      own = SubmitRplPrice.indexToSubmit blockNumber count).
Proof.
  intros members count blockNumber own Hmembers Hopts.
  assert (Hcount : 0 < count).
  { subst count. destruct members; [contradiction | simpl; lia]. }
  split; [reflexivity |].
  split; [unfold SubmitRplPrice.indexToSubmit; apply Z.mod_pos_bound; exact Hcount |].
  split.
  { intros b. unfold SubmitRplPrice.indexToSubmit, SubmitRplPrice.BlocksPerTurn.
    split; [| split]; intros Hb.
    - rewrite (RotationFacts.div75 b 0) by lia. reflexivity.
    - rewrite (RotationFacts.div75 b 1) by lia. reflexivity.
    - rewrite (RotationFacts.div75 b 4) by lia. reflexivity. }
  split.
  { intros i m Hi Hm Hfirst. subst own.
    rewrite (RotationFacts.findIndex_first members (tx.From opts) i m 0 Hi Hm Hfirst). lia. }
  assert (Hnot : own <> SubmitRplPrice.indexToSubmit blockNumber count ->
                 exists r, run (SubmitRplPrice.updateL2Prices w pw st) s = (s, Done r, [])).
  { intros Hother.
    apply (RotationFacts.updateL2Prices_not_leader w pw st s opts Hmembers Hopts Hother). }
  split; [exact Hnot |].
  intros Heffect.
  destruct (Z.eq_dec own (SubmitRplPrice.indexToSubmit blockNumber count)) as [E | Hother];
    [exact E |].
  destruct (Hnot Hother) as [r Hrun]. rewrite Hrun in Heffect. contradiction.
Qed.

(** At block 75 of the example network the selected member is number 1;
    the member with address 11 is number 0 and relays nothing although
    every target is stale. *)
Lemma indexToSubmit_rotation_witness :
  SubmitRplPrice.indexToSubmit 75 4 = 1
  /\ exists r,
       run (SubmitRplPrice.updateL2Prices (Example.relayWorld 11 Example.neverReverts)
              (Example.priceWorld Example.allStale) (Example.relayState 75)) Example.fresh
       = (Example.fresh, Done r, []).
Proof.
  destruct (indexToSubmit_rotation (Example.relayWorld 11 Example.neverReverts)
              (Example.priceWorld Example.allStale) (Example.relayState 75) Example.fresh
              (Example.opts0 11)) as (_ & _ & Hex & _ & Hnoop & _).
  - discriminate.
  - reflexivity.
  - split.
    + apply (Hex 75). vm_compute. split; discriminate.
    + apply Hnoop. vm_compute. discriminate.
Defined.

(** * Relaying to several stale targets *)

Module RelayFacts.
Import GoInt GoTime GoFacts SubmitRplPrice Stated.





Lemma some_stale_some_configured (pw : PriceWorld) :
  existsb (stale pw) targets = true ->
  forallb (fun t => negb (configured pw t)) targets = false.
Proof.
  unfold targets, stale. simpl.
  destruct (configured pw Optimism), (configured pw Polygon), (configured pw Arbitrum),
    (configured pw ZkSyncEra), (configured pw Base); simpl; congruence.
Qed.






End RelayFacts.



(** The same run, evaluated: the joined error holds Polygon's failure
    alone, and the transactions of Optimism and Arbitrum were sent. *)
Lemma updateL2Prices_partial_failure_example :
  let '(s', r, _) :=
    run (SubmitRplPrice.updateL2Prices (Example.relayWorld 11 Example.polygonReverts)
           (Example.priceWorld Example.threeStale) (Example.relayState 0)) Example.fresh in
  r = Done (Some (ErrJoin [Example.polygonError]))
  /\ omap (fun ev => match ev with EvSend call _ _ => Some call | _ => None end) (trace s')
     = [tx.OptimismSubmitRate; tx.ArbitrumSubmitRate 323200000000000 40000 100000000].
Proof. vm_compute. split; reflexivity. Qed.

(** The attempts share one [opts]: the value that [updateArbitrum] puts
    into it is still there when [updateBase] sends. *)
Lemma relay_options_are_shared :
  Example.sentValues
    (trace (fst (fst (run (SubmitRplPrice.updateL2Prices
                             (Example.relayWorld 11 Example.neverReverts)
                             (Example.priceWorld Example.arbitrumAndBaseStale)
                             (Example.relayState 0)) Example.fresh))))
  = [(tx.ArbitrumSubmitRate 323200000000000 40000 100000000, 327200000000000);
     (tx.BaseSubmitRate, 327200000000000)].
Proof. vm_compute. reflexivity. Qed.

(** * Duplicate price submissions *)

Module PriceFacts.
Import GoInt GoTime GoFacts SubmitRplPrice Stated.

Lemma submissions_app (a b : list Event) : submissions (a ++ b) = submissions a ++ submissions b.
Proof. apply List.filter_app. Qed.

Lemma failures_app (a b : list Event) : failures (a ++ b) = failures a ++ failures b.
Proof. apply List.filter_app. Qed.

Lemma app_cons_neq {T : Type} (l l' : list T) (x : T) : l ++ x :: l' <> l.
Proof.
  intros E. apply (f_equal (@length T)) in E.
  rewrite length_app in E. simpl in E. lia.
Qed.

(** The block number that the specific probe could encode, the generic
    probe can encode too. *)
Lemma generic_probe_returns (st : Storage) (a : state.Address) (blockNumber rplPrice : Z)
    (r : bool * option error) :
  hasSubmittedSpecificBlockPrices st a blockNumber rplPrice = Done r ->
  exists r', hasSubmittedBlockPrices st a blockNumber = Done r'.
Proof.
  unfold hasSubmittedSpecificBlockPrices, hasSubmittedBlockPrices.
  destruct (bigint.FillBytes 32 (i64 blockNumber)); [| discriminate].
  intros _. eexists. reflexivity.
Qed.

Lemma routine_reaches_submit (w : World) (pw : PriceWorld) (blockNumber rplPrice : Z)
    (generic : bool) (s : Shared) :
  getRplTwap pw blockNumber = Success rplPrice ->
  hasSubmittedSpecificBlockPrices (rpStorage w) (GetAddress (txl w)) blockNumber rplPrice
  = Done (false, None) ->
  hasSubmittedBlockPrices (rpStorage w) (GetAddress (txl w)) blockNumber
  = Done (generic, None) ->
  run (priceReportRoutine w pw blockNumber) s
  = run (submitRplPrice w pw blockNumber rplPrice ≫= afterSubmit) (beforeSubmit generic s).
Proof.
  intros Htwap Hspecific Hgeneric.
  unfold priceReportRoutine. rewrite Htwap.
  cbn -[submitRplPrice hasSubmittedSpecificBlockPrices hasSubmittedBlockPrices].
  rewrite Hspecific.
  cbn -[submitRplPrice hasSubmittedSpecificBlockPrices hasSubmittedBlockPrices].
  rewrite Hgeneric.
  destruct generic;
    cbn -[submitRplPrice hasSubmittedSpecificBlockPrices hasSubmittedBlockPrices];
    reflexivity.
Qed.

Ltac trace_grows :=
  rewrite ?submissions_app, ?failures_app; cbn;
  rewrite <- ?app_assoc; cbn; apply app_cons_neq.

(** Entered, [submitRplPrice] either builds the transaction or its
    failure is reported through [handleError]. *)
Lemma submit_or_fail (w : World) (pw : PriceWorld) (blockNumber rplPrice : Z) (s0 : Shared) :
  snd (fst (run (submitRplPrice w pw blockNumber rplPrice ≫= afterSubmit) s0)) = Done tt ->
  let s1 := fst (fst (run (submitRplPrice w pw blockNumber rplPrice ≫= afterSubmit) s0)) in
  submissions (trace s1) <> submissions (trace s0)
  \/ failures (trace s1) <> failures (trace s0).
Proof.
  unfold submitRplPrice, afterSubmit, tryTx, txflow.simulate, txflow.checkAndSend, handleError.
  destruct (GetTransactor (txl w)) as [opts | err]; cbn.
  2: { intros _. right. trace_grows. }
  destruct (NewNetworkManager pw) as [err |]; cbn.
  1: { intros _. right. trace_grows. }
  destruct (GetTxInfo (txl w) (tx.SubmitPrices blockNumber rplPrice) opts)
    as [[info |] [err |]]; cbn; try discriminate; try (intros _; left; trace_grows).
  destruct (negb (String.eqb (tx.SimError info) "")); cbn; [intros _; left; trace_grows |].
  destruct (negb (PrintAndCheckGasInfo (txl w) (tx.GasInfo_ info) (maxFee (txl w)))); cbn;
    [intros _; left; trace_grows |].
  destruct (PrintAndWaitForTransaction (txl w) info (txflow.withGas (txl w) info opts));
    cbn; intros _; left; trace_grows.
Qed.

(** With a transactor and a network manager at hand the transaction
    with the new value is built. *)
Lemma submit_simulates (w : World) (pw : PriceWorld) (blockNumber rplPrice : Z)
    (opts : tx.TransactOpts) (s0 : Shared) :
  GetTransactor (txl w) = Success opts ->
  NewNetworkManager pw = None ->
  In (EvSimulate (tx.SubmitPrices blockNumber rplPrice) opts)
     (trace (fst (fst (run (submitRplPrice w pw blockNumber rplPrice ≫= afterSubmit) s0)))).
Proof.
  intros Hopts Hmgr.
  unfold submitRplPrice, afterSubmit, tryTx, txflow.simulate, txflow.checkAndSend, handleError.
  rewrite Hopts, Hmgr. cbn.
  destruct (GetTxInfo (txl w) (tx.SubmitPrices blockNumber rplPrice) opts)
    as [[info |] [err |]]; cbn; try (rewrite ?in_app_iff; simpl; tauto).
  destruct (negb (String.eqb (tx.SimError info) "")); cbn;
    [rewrite ?in_app_iff; simpl; tauto |].
  destruct (negb (PrintAndCheckGasInfo (txl w) (tx.GasInfo_ info) (maxFee (txl w)))); cbn;
    [rewrite ?in_app_iff; simpl; tauto |].
  destruct (PrintAndWaitForTransaction (txl w) info (txflow.withGas (txl w) info opts));
    cbn; rewrite ?in_app_iff; simpl; tauto.
Qed.

Lemma beforeSubmit_quiet (generic : bool) (s : Shared) :
  submissions (trace (beforeSubmit generic s)) = submissions (trace s)
  /\ failures (trace (beforeSubmit generic s)) = failures (trace s).
Proof.
  destruct generic; cbn; rewrite ?submissions_app, ?failures_app; cbn;
    rewrite ?app_nil_r; split; reflexivity.
Qed.

(** The exact pair is recorded: the routine stops after its three log
    lines and clears [isRunning]. *)
Lemma routine_skips (w : World) (pw : PriceWorld) (blockNumber rplPrice : Z) (s : Shared) :
  getRplTwap pw blockNumber = Success rplPrice ->
  hasSubmittedSpecificBlockPrices (rpStorage w) (GetAddress (txl w)) blockNumber rplPrice
  = Done (true, None) ->
  run (priceReportRoutine w pw blockNumber) s
  = (setRunning false
       (emit (EvLog "RPL price: %.6f ETH")
          (emit (EvLog "Getting RPL price for block %d...")
             (emit (EvLog "%s Starting price report in a separate thread.")
                (setRunning true s)))),
     Done tt, []).
Proof.
  intros Htwap Hspecific. unfold priceReportRoutine. rewrite Htwap.
  cbn -[hasSubmittedSpecificBlockPrices]. rewrite Hspecific. reflexivity.
Qed.

End PriceFacts.

(** C10.  Once the price is computed:
    - when the value-specific flag is not set and the block-generic one
      is, the routine logs that out-of-date prices were submitted and
      enters [submitRplPrice] with the new value, which builds the
      [SubmitPrices(block, price)] transaction as soon as a transactor
      and a network manager are available;
    - when the value-specific flag is set it stops without error and
      without submitting;
    - and it ends without a submission event and without a reported
      failure only in that case. *)
Theorem priceReportRoutine_resubmits_new_value (w : World) (pw : PriceWorld)
    (blockNumber rplPrice : Z) (s : Shared) :
  getRplTwap pw blockNumber = Success rplPrice ->
  let specific :=
    SubmitRplPrice.hasSubmittedSpecificBlockPrices (rpStorage w) (GetAddress (txl w))
      blockNumber rplPrice in
  let generic :=
    SubmitRplPrice.hasSubmittedBlockPrices (rpStorage w) (GetAddress (txl w)) blockNumber in
  let ended := run (SubmitRplPrice.priceReportRoutine w pw blockNumber) s in
  (specific = Done (false, None) -> generic = Done (true, None) ->
   ended = run (SubmitRplPrice.submitRplPrice w pw blockNumber rplPrice
                  ≫= Stated.afterSubmit)
               (Stated.beforeSubmit true s)
   /\ In (EvLog "Have previously submitted out-of-date prices for block %d, trying again...")
         (trace (Stated.beforeSubmit true s))
   /\ (forall opts,
         GetTransactor (txl w) = Success opts ->
         NewNetworkManager pw = None ->
         In (EvSimulate (tx.SubmitPrices blockNumber rplPrice) opts) (trace (fst (fst ended)))))
  /\ (specific = Done (true, None) ->
      snd (fst ended) = Done tt
      /\ submissions (trace (fst (fst ended))) = submissions (trace s)
      /\ failures (trace (fst (fst ended))) = failures (trace s))
  /\ (forall recorded,
        specific = Done (recorded, None) ->
        snd (fst ended) = Done tt ->
        submissions (trace (fst (fst ended))) = submissions (trace s) ->
        failures (trace (fst (fst ended))) = failures (trace s) ->
        recorded = true).
Proof.
  intros Htwap specific generic ended.
  split; [| split].
  - intros Hspecific Hgeneric.
    assert (Hrun := PriceFacts.routine_reaches_submit w pw blockNumber rplPrice true s
                      Htwap Hspecific Hgeneric).
    split; [exact Hrun |].
    split; [cbn; rewrite ?in_app_iff; simpl; tauto |].
    intros opts Hopts Hmgr. subst ended. rewrite Hrun.
    apply PriceFacts.submit_simulates; assumption.
  - intros Hspecific. subst ended.
    rewrite (PriceFacts.routine_skips w pw blockNumber rplPrice s Htwap Hspecific).
    cbn. rewrite ?PriceFacts.submissions_app, ?PriceFacts.failures_app. cbn.
    rewrite ?app_nil_r. auto.
  - intros recorded Hspecific Hdone Hsub Hfail.
    destruct recorded; [reflexivity | exfalso].
    destruct (PriceFacts.generic_probe_returns _ _ _ _ _ Hspecific) as [[g [err |]] Hgeneric].
    + (* the generic probe fails: handleError *)
      revert Hfail. subst ended. unfold SubmitRplPrice.priceReportRoutine. rewrite Htwap.
      cbn -[SubmitRplPrice.hasSubmittedSpecificBlockPrices SubmitRplPrice.hasSubmittedBlockPrices].
      fold specific. rewrite Hspecific.
      cbn -[SubmitRplPrice.hasSubmittedSpecificBlockPrices SubmitRplPrice.hasSubmittedBlockPrices].
      rewrite Hgeneric. cbn. PriceFacts.trace_grows.
    + assert (Hrun := PriceFacts.routine_reaches_submit w pw blockNumber rplPrice g s
                        Htwap Hspecific Hgeneric).
      subst ended. rewrite Hrun in Hdone, Hsub, Hfail.
      destruct (PriceFacts.beforeSubmit_quiet g s) as [Hq1 Hq2].
      destruct (PriceFacts.submit_or_fail w pw blockNumber rplPrice
                  (Stated.beforeSubmit g s) Hdone) as [H | H];
        apply H; congruence.
Qed.

(** Member 11 of the example network finds the generic flag of block
    9000 set and no flag for the price 12345: the transaction
    [SubmitPrices(9000, 12345)] is built. *)
Lemma priceReportRoutine_resubmits_new_value_witness :
  In (EvSimulate (tx.SubmitPrices 9000 12345) (Example.opts0 11))
     (trace (fst (fst (run (SubmitRplPrice.priceReportRoutine Example.staleValueWorld
                              (Example.priceWorld Example.allStale) 9000) Example.fresh)))).
Proof.
  destruct (priceReportRoutine_resubmits_new_value Example.staleValueWorld
              (Example.priceWorld Example.allStale) 9000 12345 Example.fresh)
    as [Hresubmit _].
  - reflexivity.
  - destruct Hresubmit as (_ & _ & Hsim).
    + vm_compute. reflexivity.
    + vm_compute. reflexivity.
    + apply Hsim; reflexivity.
Defined.

(** * Duplicate rewards submissions *)

Module DuplicateFacts.
Import GoInt GoTime GoFacts SubmitRewardsTree Stated.

Lemma firstProposedBlock_logs (client : beacon.Client) (fuel : nat) :
  forall slot, submissions (fst (firstProposedBlock client fuel slot)) = [].
Proof.
  induction fuel as [| fuel IH]; intros slot; simpl; [reflexivity |].
  destruct (beacon.GetBeaconBlock client slot); try reflexivity.
  specialize (IH (u64 (slot - 1))).
  destruct (firstProposedBlock client fuel (u64 (slot - 1))) as [logs r].
  simpl in *. exact IH.
Qed.

Lemma getSnapshotConsensusBlock_logs (w : World) (fuel : nat) (endTime : Time)
    (st : state.NetworkState) :
  submissions (fst (getSnapshotConsensusBlock w fuel endTime st)) = [].
Proof.
  unfold getSnapshotConsensusBlock.
  destruct (beacon.GetBeaconHead (bc w)); [| reflexivity].
  destruct (_ =? 0); [reflexivity |].
  destruct (_ <? _); [reflexivity |].
  apply firstProposedBlock_logs.
Qed.

(** A valid file is accepted silently. *)
Lemma isExistingFileValid_true_logs (g : TreeGen) (fs : gmap string FileNode) (path : string)
    (N : Z) :
  fst (isExistingFileValid g fs path N) = true ->
  isExistingFileValid g fs path N = (true, []).
Proof.
  unfold isExistingFileValid.
  destruct (fs !! path) as [[content | err] |]; simpl; try discriminate.
  destruct (DeserializeRewardsFile g content); simpl; try discriminate.
  destruct (negb _); simpl; [discriminate | reflexivity].
Qed.

(** An oracle node with a valid file and its submission recorded:
    [Run] returns nil at the probe. *)
Lemma Run_work_already_submitted (w : World) (st : state.NetworkState) (ip : Duration)
    (startTime endTime : Time) (slot elBlockIndex : Z) (hdr : Header) (s : Shared) :
  NewRewardsPool w = None ->
  fst (isExistingFileValid (gen w) (files s)
         (GetRewardsTreePath w (state.RewardIndex (state.NetworkDetails st))) (u64 ip)) = true ->
  hasSubmittedTree (rpStorage w) (GetAddress (txl w))
    (state.RewardIndex (state.NetworkDetails st)) = Done (true, None) ->
  run (Run_work w true st ip startTime endTime slot elBlockIndex hdr) s = (s, Done None, []).
Proof.
  intros Hpool Hvalid Hprobe. unfold Run_work. rewrite Hpool.
  cbn -[isExistingFileValid hasSubmittedTree].
  rewrite (isExistingFileValid_true_logs _ _ _ _ Hvalid).
  rewrite ResolverFacts.emitAll_nil.
  cbn -[isExistingFileValid hasSubmittedTree].
  rewrite Hprobe. reflexivity.
Qed.

(** The same for a failing rewards pool binding: [handleError], no
    submission. *)
Lemma Run_work_quiet (w : World) (st : state.NetworkState) (ip : Duration)
    (startTime endTime : Time) (slot elBlockIndex : Z) (hdr : Header) (s : Shared) :
  fst (isExistingFileValid (gen w) (files s)
         (GetRewardsTreePath w (state.RewardIndex (state.NetworkDetails st))) (u64 ip)) = true ->
  hasSubmittedTree (rpStorage w) (GetAddress (txl w))
    (state.RewardIndex (state.NetworkDetails st)) = Done (true, None) ->
  let '(s', r, gs) := run (Run_work w true st ip startTime endTime slot elBlockIndex hdr) s in
  gs = [] /\ submissions (trace s') = submissions (trace s) /\ files s' = files s.
Proof.
  intros Hvalid Hprobe.
  destruct (NewRewardsPool w) as [err |] eqn:Hpool.
  - unfold Run_work. rewrite Hpool. cbn.
    rewrite ?PriceFacts.submissions_app. cbn. rewrite ?app_nil_r. auto.
  - rewrite (Run_work_already_submitted w st ip startTime endTime slot elBlockIndex hdr s
               Hpool Hvalid Hprobe). auto.
Qed.

Ltac quiet :=
  cbn; rewrite ?PriceFacts.submissions_app; cbn; rewrite ?app_nil_r; auto.

(** The whole of [Run] on an oracle node whose file is valid and whose
    submission is recorded: wherever it ends, it has built and sent no
    transaction, started no goroutine and left the files alone. *)
Lemma Run_quiet (w : World) (fuel : nat) (st : state.NetworkState) (beaconSlot : Z)
    (s : Shared) :
  (forall n,
     intervalsPassed (stateTime st) (state.IntervalStart (state.NetworkDetails st))
       (state.IntervalDuration (state.NetworkDetails st)) = Some n ->
     fst (isExistingFileValid (gen w) (files s)
            (GetRewardsTreePath w (state.RewardIndex (state.NetworkDetails st))) (u64 n)) = true) ->
  hasSubmittedTree (rpStorage w) (GetAddress (txl w))
    (state.RewardIndex (state.NetworkDetails st)) = Done (true, None) ->
  let '(s', r, gs) := run (Run w fuel true st beaconSlot) s in
  gs = [] /\ submissions (trace s') = submissions (trace s) /\ files s' = files s.
Proof.
  intros Hvalid Hprobe. unfold Run. simpl negb. cbv iota. unfold Run_checkpoint.
  destruct (intervalsPassed _ _ _) as [n |] eqn:Hn; [| quiet].
  specialize (Hvalid n eq_refl).
  destruct (n =? 0); [quiet |].
  pose proof (getSnapshotConsensusBlock_logs w fuel
                (Add (state.IntervalStart (state.NetworkDetails st))
                   (mul (state.IntervalDuration (state.NetworkDetails st)) n)) st) as Hlogs.
  destruct (getSnapshotConsensusBlock w fuel _ st) as [logs resolved].
  simpl in Hlogs.
  destruct resolved as [[[slot block] [err |]] | msg |];
    try (cbn; rewrite ?PriceFacts.submissions_app, Hlogs; cbn; rewrite ?app_nil_r; auto; fail).
  destruct (HeaderByNumber w (i64 block)) as [hdr | err] eqn:Hhdr.
  2: { cbn. rewrite Hhdr. cbn.
       rewrite ?PriceFacts.submissions_app, Hlogs; cbn; rewrite ?app_nil_r; auto. }
  cbn -[Run_work]. rewrite Hhdr. cbn -[Run_work].
  destruct (isRunning s) eqn:Hrunning.
  - cbn. rewrite ?PriceFacts.submissions_app, Hlogs; cbn; rewrite ?app_nil_r; auto.
  - cbn -[Run_work].
    match goal with
    | |- context [run (Run_work w true st n ?a ?b ?c ?d ?e) ?s0] =>
        pose proof (Run_work_quiet w st n a b c d e s0 Hvalid Hprobe) as Hwork;
        destruct (run (Run_work w true st n a b c d e) s0) as [[s' r] gs]
    end.
    cbn in Hwork.
    rewrite ?PriceFacts.submissions_app, Hlogs in Hwork. cbn in Hwork.
    rewrite ?app_nil_r in Hwork. exact Hwork.
Qed.

(** What [Run] starts for an invalid file does not depend on the
    contract storage: the submission record is not consulted. *)
Lemma regeneration_ignores_record (w : World) (st' : Storage) (ip : Duration)
    (nodeTrusted : bool) (currentIndex slot elBlockIndex : Z) (startTime endTime : Time)
    (hdr : Header) (p1 p2 p3 p4 : string) :
  generateTreeRoutine (withStorage st' w) ip nodeTrusted currentIndex slot elBlockIndex
    startTime endTime hdr p1 p2 p3 p4
  = generateTreeRoutine w ip nodeTrusted currentIndex slot elBlockIndex
      startTime endTime hdr p1 p2 p3 p4.
Proof. reflexivity. Qed.

(** An invalid file: whatever the storage holds, [Run] starts the
    generation goroutine and returns nil. *)
Lemma Run_work_regenerates_any_record (w : World) (st' : Storage) (nodeTrusted : bool)
    (st : state.NetworkState) (ip : Duration) (startTime endTime : Time)
    (slot elBlockIndex : Z) (hdr : Header) (s : Shared) :
  NewRewardsPool w = None ->
  fst (isExistingFileValid (gen w) (files s)
         (GetRewardsTreePath w (state.RewardIndex (state.NetworkDetails st))) (u64 ip)) = false ->
  let currentIndex := state.RewardIndex (state.NetworkDetails st) in
  run (Run_work (withStorage st' w) nodeTrusted st ip startTime endTime slot elBlockIndex hdr) s
  = (emitAll (snd (isExistingFileValid (gen w) (files s)
                     (GetRewardsTreePath w currentIndex) (u64 ip))) s,
     Done None,
     [generateTreeRoutine w ip nodeTrusted currentIndex slot elBlockIndex startTime endTime hdr
        (GetRewardsTreePath w currentIndex)
        (GetRewardsTreePath w currentIndex ++ RewardsTreeIpfsExtension w)%string
        (GetMinipoolPerformancePath w currentIndex)
        (GetMinipoolPerformancePath w currentIndex ++ RewardsTreeIpfsExtension w)%string]).
Proof.
  intros Hpool Hinvalid currentIndex. unfold Run_work.
  change (NewRewardsPool (withStorage st' w)) with (NewRewardsPool w). rewrite Hpool.
  cbn -[isExistingFileValid generateTreeRoutine].
  fold currentIndex in Hinvalid |- *.
  destruct (isExistingFileValid (gen w) (files s) (GetRewardsTreePath w currentIndex) (u64 ip))
    as [ok logs] eqn:Hcheck.
  simpl in Hinvalid. subst ok.
  cbn -[generateTreeRoutine]. reflexivity.
Qed.

End DuplicateFacts.

(** C4, as amended.  On an oracle node that holds a valid artifact for
    the current count of elapsed intervals and whose tree for the current
    interval index is recorded on chain, [Run] builds and sends no
    transaction, starts no goroutine and leaves the files alone, and it
    returns nil at the probe.  In the price task, when the exact (block,
    price) pair is recorded the routine ends without a submission and
    without a reported failure.  The rewards probe belongs to the reuse
    path only: for a file that is absent or invalid [Run] starts the same
    generation goroutine and returns nil whatever the contract storage
    holds. *)
Theorem recorded_submission_is_not_repeated (w : World) (fuel : nat)
    (st : state.NetworkState) (beaconSlot : Z) (s : Shared) :
  let path := GetRewardsTreePath w (state.RewardIndex (state.NetworkDetails st)) in
  (forall n,
     SubmitRewardsTree.intervalsPassed (SubmitRewardsTree.stateTime st)
       (state.IntervalStart (state.NetworkDetails st))
       (state.IntervalDuration (state.NetworkDetails st)) = Some n ->
     fst (SubmitRewardsTree.isExistingFileValid (gen w) (files s) path (GoInt.u64 n)) = true) ->
  SubmitRewardsTree.hasSubmittedTree (rpStorage w) (GetAddress (txl w))
    (state.RewardIndex (state.NetworkDetails st)) = Done (true, None) ->
  (let '(s', r, gs) := run (SubmitRewardsTree.Run w fuel true st beaconSlot) s in
   gs = [] /\ submissions (trace s') = submissions (trace s) /\ files s' = files s)
  /\ (forall ip startTime endTime slot elBlockIndex hdr,
        NewRewardsPool w = None ->
        fst (SubmitRewardsTree.isExistingFileValid (gen w) (files s) path (GoInt.u64 ip)) = true ->
        run (SubmitRewardsTree.Run_work w true st ip startTime endTime slot elBlockIndex hdr) s
        = (s, Done None, []))
  /\ (forall pw blockNumber rplPrice s0,
        getRplTwap pw blockNumber = Success rplPrice ->
        SubmitRplPrice.hasSubmittedSpecificBlockPrices (rpStorage w) (GetAddress (txl w))
          blockNumber rplPrice = Done (true, None) ->
        let ended := run (SubmitRplPrice.priceReportRoutine w pw blockNumber) s0 in
        snd (fst ended) = Done tt
        /\ snd ended = []
        /\ submissions (trace (fst (fst ended))) = submissions (trace s0)
        /\ failures (trace (fst (fst ended))) = failures (trace s0))
  /\ (forall st' nodeTrusted ip startTime endTime slot elBlockIndex hdr s0,
        NewRewardsPool w = None ->
        fst (SubmitRewardsTree.isExistingFileValid (gen w) (files s0) path (GoInt.u64 ip)) = false ->
        exists s' g,
          run (SubmitRewardsTree.Run_work (withStorage st' w) nodeTrusted st ip startTime
                 endTime slot elBlockIndex hdr) s0 = (s', Done None, [g])
          /\ run (SubmitRewardsTree.Run_work w nodeTrusted st ip startTime
                    endTime slot elBlockIndex hdr) s0 = (s', Done None, [g])).
Proof.
  intros path Hvalid Hprobe.
  split; [apply DuplicateFacts.Run_quiet; assumption |].
  split.
  { intros ip startTime endTime slot elBlockIndex hdr Hpool Hok.
    apply DuplicateFacts.Run_work_already_submitted; assumption. }
  split.
  { intros pw blockNumber rplPrice s0 Htwap Hspecific ended. subst ended.
    rewrite (PriceFacts.routine_skips w pw blockNumber rplPrice s0 Htwap Hspecific).
    cbn. rewrite ?PriceFacts.submissions_app, ?PriceFacts.failures_app. cbn.
    rewrite ?app_nil_r. auto. }
  intros st' nodeTrusted ip startTime endTime slot elBlockIndex hdr s0 Hpool Hinvalid.
  eexists _, _. split.
  - apply (DuplicateFacts.Run_work_regenerates_any_record w st' nodeTrusted st ip startTime
             endTime slot elBlockIndex hdr s0 Hpool Hinvalid).
  - pose proof (DuplicateFacts.Run_work_regenerates_any_record w (rpStorage w) nodeTrusted st ip
                  startTime endTime slot elBlockIndex hdr s0 Hpool Hinvalid) as Hrun.
    assert (Hsame : withStorage (rpStorage w) w = w) by (destruct w; reflexivity).
    rewrite Hsame in Hrun. exact Hrun.
Qed.

(** Member 11 of the example network holds the tree for one elapsed
    interval and finds it recorded: [Run] returns nil and has done
    nothing but log. *)
Lemma recorded_submission_is_not_repeated_witness :
  let '(s', r, gs) :=
    run (SubmitRewardsTree.Run Example.recordedWorld 3 true Example.oneIntervalElapsed 400)
      Example.cached in
  gs = [] /\ submissions (trace s') = submissions (trace Example.cached)
  /\ files s' = files Example.cached.
Proof.
  destruct (recorded_submission_is_not_repeated Example.recordedWorld 3
              Example.oneIntervalElapsed 400 Example.cached) as [Hquiet _].
  - intros n Hn. vm_compute in Hn. injection Hn as <-. vm_compute. reflexivity.
  - vm_compute. reflexivity.
  - exact Hquiet.
Defined.

(** C4 as stated fails when the artifact has to be regenerated: with the
    tree of interval 7 recorded for member 11 and no local file, the run
    and its goroutine build and send the [SubmitRewardSnapshot]
    transaction. *)
Lemma regenerated_tree_is_submitted_again :
  SubmitRewardsTree.hasSubmittedTree (rpStorage Example.recordedWorld)
    (GetAddress (txl Example.recordedWorld))
    (state.RewardIndex (state.NetworkDetails Example.oneIntervalElapsed)) = Done (true, None)
  /\ submissions (trace Example.fresh) = []
  /\ snd (runThrough (SubmitRewardsTree.Run Example.recordedWorld 3 true
                        Example.oneIntervalElapsed 400) Example.fresh) = Done None
  /\ omap (fun ev => match ev with
                     | EvSend (tx.SubmitRewardSnapshot sub) _ _ =>
                         Some (tx.RewardIndex sub, tx.ConsensusBlock sub, tx.IntervalsPassed sub)
                     | _ => None
                     end)
          (trace (fst (runThrough (SubmitRewardsTree.Run Example.recordedWorld 3 true
                                     Example.oneIntervalElapsed 400) Example.fresh)))
     = [(7, 349, 1)].
Proof.
  split; [vm_compute; reflexivity |].
  split; [reflexivity |].
  split; vm_compute; reflexivity.
Qed.

(** * Single flight *)

Module SingleFlightFacts.
Import GoInt GoTime GoFacts SubmitRewardsTree Stated.

(** A call that finds [isRunning] set starts nothing, builds no
    transaction and leaves the files and the flag alone, wherever it
    returns. *)
Lemma Run_checkpoint_busy (w : World) (fuel : nat) (nodeTrusted : bool)
    (st : state.NetworkState) (s : Shared) :
  isRunning s = true ->
  let '(s', r, gs) := run (Run_checkpoint w fuel nodeTrusted st) s in
  gs = [] /\ files s' = files s /\ isRunning s' = true
  /\ submissions (trace s') = submissions (trace s).
Proof.
  intros Hbusy. unfold Run_checkpoint.
  destruct (intervalsPassed _ _ _) as [n |]; [| DuplicateFacts.quiet].
  destruct (n =? 0); [DuplicateFacts.quiet |].
  pose proof (DuplicateFacts.getSnapshotConsensusBlock_logs w fuel
                (Add (state.IntervalStart (state.NetworkDetails st))
                   (mul (state.IntervalDuration (state.NetworkDetails st)) n)) st) as Hlogs.
  destruct (getSnapshotConsensusBlock w fuel _ st) as [logs resolved].
  simpl in Hlogs.
  destruct resolved as [[[slot block] [err |]] | msg |];
    try (cbn; rewrite ?PriceFacts.submissions_app, Hlogs; cbn; rewrite ?app_nil_r; auto; fail).
  destruct (HeaderByNumber w (i64 block)) as [hdr | err] eqn:Hhdr.
  2: { cbn. rewrite Hhdr. cbn.
       rewrite ?PriceFacts.submissions_app, Hlogs; cbn; rewrite ?app_nil_r; auto. }
  cbn -[Run_work]. rewrite Hhdr. cbn -[Run_work]. rewrite Hbusy.
  cbn. rewrite ?PriceFacts.submissions_app, Hlogs; cbn; rewrite ?app_nil_r; auto.
Qed.

Lemma Run_busy (w : World) (fuel : nat) (nodeTrusted : bool) (st : state.NetworkState)
    (beaconSlot : Z) (s : Shared) :
  isRunning s = true ->
  let '(s', r, gs) := run (Run w fuel nodeTrusted st beaconSlot) s in
  gs = [] /\ files s' = files s /\ isRunning s' = true
  /\ submissions (trace s') = submissions (trace s).
Proof.
  intros Hbusy. unfold Run.
  destruct nodeTrusted; simpl negb; cbv iota.
  - apply Run_checkpoint_busy. exact Hbusy.
  - destruct (RewardsTreeMode w); try (cbn; auto; fail).
    destruct (GetStateForSlot w beaconSlot) as [st' | err]; [| cbn; auto].
    apply Run_checkpoint_busy. exact Hbusy.
Qed.

End SingleFlightFacts.

(** C3.  The running flag is tested in one critical section of [Run] and
    set in another, inside the goroutine.  Two calls of [Run] that both
    pass the test before either goroutine has set the flag, each start a
    goroutine: both callers have returned nil, both goroutines have set
    [isRunning] and are in flight, and run to their ends both submit.
    This holds for the rewards task and for the price task, and also when
    the second call begins only after the first has returned (the third
    schedule). *)
Theorem two_calls_two_background_runs :
  (exists submission,
     Example.observe [0; 0; 0; 1; 1; 1; 0; 0; 1; 1; 2; 3]%nat Example.twoRewardsCalls
     = Some ([true; true; false; false], 2%nat, true,
             [tx.SubmitRewardSnapshot submission; tx.SubmitRewardSnapshot submission]))
  /\ Example.observe [0; 0; 1; 1; 0; 1; 2; 3]%nat Example.twoPriceCalls
     = Some ([true; true; false; false], 2%nat, true,
             [tx.SubmitPrices 9000 12345; tx.SubmitPrices 9000 12345])
  /\ (exists submission,
        Example.observe [0; 0; 0; 0; 0; 1; 1; 1; 1; 1; 2; 3]%nat Example.twoRewardsCalls
        = Some ([true; true; false; false], 2%nat, true,
                [tx.SubmitRewardSnapshot submission; tx.SubmitRewardSnapshot submission])).
Proof.
  split; [| split].
  - eexists. vm_compute. reflexivity.
  - vm_compute. reflexivity.
  - eexists. vm_compute. reflexivity.
Qed.

(** * Further properties *)

(** ** Byte encodings and storage keys *)

Module EncodingFacts.
Import GoInt GoFacts bigint Encoding.

Lemma be_bytes_length (n : nat) : forall x, length (be_bytes n x) = n.
Proof.
  induction n as [| n IH]; intros x; simpl; [reflexivity |].
  rewrite length_app, IH. simpl. lia.
Qed.

Lemma byte_of_value (z : Z) : 0 <= z < 256 -> Z.of_N (Byte.to_N (byte_of z)) = z.
Proof.
  intros Hz. unfold byte_of.
  destruct (Byte.of_N (Z.to_N z)) as [b |] eqn:Hb.
  - apply Byte.to_of_N in Hb. rewrite Hb. lia.
  - apply Byte.of_N_None_iff in Hb. lia.
Qed.

Lemma value_app (a b : bytes) :
  value (a ++ b) = value a * 256 ^ Z.of_nat (length b) + value b.
Proof.
  unfold value. revert a. induction b as [| x b IH] using rev_ind; intros a.
  - rewrite app_nil_r. simpl. lia.
  - rewrite app_assoc, !fold_left_app. simpl.
    rewrite <- fold_left_app, IH.
    rewrite length_app. simpl length.
    replace (Z.of_nat (length b + 1)) with (Z.of_nat (length b) + 1) by lia.
    rewrite Z.pow_add_r by lia.
    change (fold_left (λ (acc : Z) (x0 : Byte.byte), acc * 256 + Z.of_N (Byte.to_N x0)) b 0)
      with (value b).
    change (fold_left (λ (acc : Z) (x0 : Byte.byte), acc * 256 + Z.of_N (Byte.to_N x0)) a 0)
      with (value a).
    lia.
Qed.

Lemma value_be_bytes (n : nat) : forall x, 0 <= x -> value (be_bytes n x) = x mod 256 ^ Z.of_nat n.
Proof.
  induction n as [| n IH]; intros x Hx.
  - simpl. rewrite Z.mod_1_r. reflexivity.
  - simpl be_bytes. rewrite value_app. simpl length.
    rewrite IH by (apply Z.div_pos; lia).
    assert (Hbyte : value [byte_of (x mod 256)] = x mod 256).
    { unfold value. simpl. apply byte_of_value. apply Z.mod_pos_bound. lia. }
    rewrite Hbyte.
    replace (Z.of_nat (S n)) with (1 + Z.of_nat n) by lia.
    rewrite Z.pow_add_r by lia. change (256 ^ Z.of_nat 1) with 256. change (256 ^ 1) with 256.
    assert (Hpow : 0 < 256 ^ Z.of_nat n) by (apply Z.pow_pos_nonneg; lia).
    rewrite Z.rem_mul_r by lia. lia.
Qed.

Lemma FillBytes_Some (n : nat) (x : Z) (b : bytes) :
  FillBytes n x = Some b -> length b = n /\ value b = Z.abs x /\ Z.abs x < 256 ^ Z.of_nat n.
Proof.
  unfold FillBytes. destruct (Z.ltb_spec (Z.abs x) (256 ^ Z.of_nat n)); [| discriminate].
  intros [= <-]. split; [apply be_bytes_length |]. split; [| assumption].
  rewrite value_be_bytes by lia. apply Z.mod_small. lia.
Qed.

Lemma FillBytes_fits (n : nat) (x : Z) :
  Z.abs x < 256 ^ Z.of_nat n -> FillBytes n x = Some (be_bytes n (Z.abs x)).
Proof.
  intros H. unfold FillBytes. destruct (Z.ltb_spec (Z.abs x) (256 ^ Z.of_nat n)); [reflexivity | lia].
Qed.

Lemma i64_fits (x : Z) : Z.abs (i64 x) < 256 ^ Z.of_nat 32.
Proof.
  pose proof (i64_range x) as H. unfold is_i64, minInt64, maxInt64, two63 in H.
  change (256 ^ Z.of_nat 32) with (2 ^ 256).
  assert (2 ^ 63 < 2 ^ 256) by (apply Z.pow_lt_mono_r; lia). lia.
Qed.

Lemma block_buffer (b : Z) :
  0 <= b < two63 -> FillBytes 32 (i64 b) = Some (be_bytes 32 b).
Proof.
  intros Hb. rewrite i64_id by (unfold is_i64, minInt64, maxInt64, two63 in *; lia).
  rewrite FillBytes_fits.
  - rewrite Z.abs_eq by lia. reflexivity.
  - change (256 ^ Z.of_nat 32) with (2 ^ 256). unfold two63 in Hb.
    assert (2 ^ 63 < 2 ^ 256) by (apply Z.pow_lt_mono_r; lia). lia.
Qed.

Lemma be_bytes_inj (n : nat) (x y : Z) :
  0 <= x < 256 ^ Z.of_nat n -> 0 <= y < 256 ^ Z.of_nat n ->
  be_bytes n x = be_bytes n y -> x = y.
Proof.
  intros Hx Hy E. apply (f_equal value) in E.
  rewrite !value_be_bytes, !Z.mod_small in E by lia. exact E.
Qed.

End EncodingFacts.

(** X1.  The three submission probes read the flag at the hash of the tag,
    the 20 address bytes and the 32-byte big-endian subject fields.  The
    tree probe and the generic prices probe return for every uint64
    subject; the specific prices probe panics exactly when the price does
    not fit 32 bytes. *)
Theorem probes_defined (st : Storage) (a : state.Address) (index blockNumber rplPrice : Z) :
  (GoInt.is_u64 index ->
   SubmitRewardsTree.hasSubmittedTree st a index
   = Done (GetBool st (SubmitRewardsTree.submittedTreeKey st a (bigint.be_bytes 32 index))))
  /\ (exists buf,
        length buf = 32%nat
        /\ Encoding.value buf = Z.abs (GoInt.i64 blockNumber)
        /\ SubmitRplPrice.hasSubmittedBlockPrices st a blockNumber
           = Done (GetBool st (Keccak256Hash st (Encoding.genericPreimage a buf)))
        /\ (Z.abs rplPrice < 2 ^ 256 ->
            SubmitRplPrice.hasSubmittedSpecificBlockPrices st a blockNumber rplPrice
            = Done (GetBool st (Keccak256Hash st
                      (Encoding.specificPreimage a buf (bigint.be_bytes 32 (Z.abs rplPrice)))))))
  /\ (2 ^ 256 <= Z.abs rplPrice ->
      SubmitRplPrice.hasSubmittedSpecificBlockPrices st a blockNumber rplPrice
      = Panic "math/big: buffer too small to fit value").
Proof.
  split; [| split].
  - intros Hu. unfold SubmitRewardsTree.hasSubmittedTree.
    rewrite EncodingFacts.FillBytes_fits.
    + rewrite Z.abs_eq by (unfold GoInt.is_u64 in Hu; lia). reflexivity.
    + unfold GoInt.is_u64, GoInt.two64 in Hu. change (256 ^ Z.of_nat 32) with (2 ^ 256).
      assert (2 ^ 64 < 2 ^ 256) by (apply Z.pow_lt_mono_r; lia). lia.
  - exists (bigint.be_bytes 32 (Z.abs (GoInt.i64 blockNumber))).
    pose proof (EncodingFacts.i64_fits blockNumber) as Hfit.
    split; [apply EncodingFacts.be_bytes_length |].
    split.
    { rewrite EncodingFacts.value_be_bytes by lia. apply Z.mod_small. lia. }
    unfold SubmitRplPrice.hasSubmittedBlockPrices, SubmitRplPrice.hasSubmittedSpecificBlockPrices.
    rewrite (EncodingFacts.FillBytes_fits 32 (GoInt.i64 blockNumber) Hfit).
    split; [reflexivity |].
    intros Hprice. rewrite (EncodingFacts.FillBytes_fits 32 rplPrice Hprice).
    unfold Encoding.specificPreimage. reflexivity.
  - intros Hbig. unfold SubmitRplPrice.hasSubmittedSpecificBlockPrices.
    rewrite (EncodingFacts.FillBytes_fits 32 (GoInt.i64 blockNumber)
               (EncodingFacts.i64_fits blockNumber)).
    unfold bigint.FillBytes. change (256 ^ Z.of_nat 32) with (2 ^ 256).
    destruct (Z.ltb_spec (Z.abs rplPrice) (2 ^ 256)); [lia | reflexivity].
Qed.

(** Block 9000 and price 12345 in the example storage. *)
Lemma probes_defined_witness :
  SubmitRewardsTree.hasSubmittedTree (Example.storage Example.nothingRecorded) 11 7
  = Done (false, None).
Proof.
  destruct (probes_defined (Example.storage Example.nothingRecorded) 11 7 9000 12345)
    as (Htree & _ & _).
  rewrite Htree; [reflexivity |].
  unfold GoInt.is_u64. vm_compute. split; [discriminate | reflexivity].
Defined.

(** X2.  For blocks below 2^63 and prices below 2^256 the flags are kept
    apart by their preimages: a value-specific preimage is never a
    block-generic one, two value-specific preimages of one node agree only
    for the same block and the same price, and two generic ones only for
    the same block. *)
Theorem price_keys_separate (a : state.Address) (b1 b2 p1 p2 : Z) :
  0 <= b1 < GoInt.two63 -> 0 <= b2 < GoInt.two63 ->
  0 <= p1 < 2 ^ 256 -> 0 <= p2 < 2 ^ 256 ->
  let block1 := bigint.be_bytes 32 b1 in
  let block2 := bigint.be_bytes 32 b2 in
  let price1 := bigint.be_bytes 32 p1 in
  let price2 := bigint.be_bytes 32 p2 in
  (forall st,
     SubmitRplPrice.hasSubmittedBlockPrices st a b1
     = Done (GetBool st (Keccak256Hash st (Encoding.genericPreimage a block1)))
     /\ SubmitRplPrice.hasSubmittedSpecificBlockPrices st a b1 p1
        = Done (GetBool st (Keccak256Hash st (Encoding.specificPreimage a block1 price1))))
  /\ Encoding.genericPreimage a block1 <> Encoding.specificPreimage a block2 price2
  /\ (Encoding.specificPreimage a block1 price1 = Encoding.specificPreimage a block2 price2 ->
      b1 = b2 /\ p1 = p2)
  /\ (Encoding.genericPreimage a block1 = Encoding.genericPreimage a block2 -> b1 = b2).
Proof.
  intros Hb1 Hb2 Hp1 Hp2 block1 block2 price1 price2.
  assert (Hpow : GoInt.two63 < 256 ^ Z.of_nat 32).
  { change (256 ^ Z.of_nat 32) with (2 ^ 256). unfold GoInt.two63.
    apply Z.pow_lt_mono_r; lia. }
  change (2 ^ 256) with (256 ^ Z.of_nat 32) in Hp1, Hp2.
  split; [| split; [| split]].
  - intros st.
    unfold SubmitRplPrice.hasSubmittedBlockPrices, SubmitRplPrice.hasSubmittedSpecificBlockPrices.
    rewrite (EncodingFacts.block_buffer b1 Hb1).
    rewrite (EncodingFacts.FillBytes_fits 32 p1) by (rewrite Z.abs_eq; lia).
    rewrite (Z.abs_eq p1) by lia. split; reflexivity.
  - intros E. apply (f_equal (@length Byte.byte)) in E.
    unfold Encoding.genericPreimage, Encoding.specificPreimage in E.
    rewrite !length_app in E. subst block1 block2 price2.
    rewrite !EncodingFacts.be_bytes_length in E. lia.
  - unfold Encoding.specificPreimage. intros E.
    apply app_inv_head in E. apply app_inv_head in E.
    apply app_inj_1 in E; [| subst block1 block2; rewrite !EncodingFacts.be_bytes_length; reflexivity].
    destruct E as [Eb Ep]. split.
    + apply (EncodingFacts.be_bytes_inj 32); [lia | lia | exact Eb].
    + apply (EncodingFacts.be_bytes_inj 32); [lia | lia | exact Ep].
  - unfold Encoding.genericPreimage. intros E.
    apply app_inv_head in E. apply app_inv_head in E.
    apply (EncodingFacts.be_bytes_inj 32); [lia | lia | exact E].
Qed.

(** Blocks 9000 and 9001 with the prices 12345 and 12346. *)
Lemma price_keys_separate_witness :
  Encoding.genericPreimage 11 (bigint.be_bytes 32 9000)
  <> Encoding.specificPreimage 11 (bigint.be_bytes 32 9001) (bigint.be_bytes 32 12346).
Proof.
  destruct (price_keys_separate 11 9000 9001 12345 12346) as (_ & Hsep & _).
  - vm_compute. split; [discriminate | reflexivity].
  - vm_compute. split; [discriminate | reflexivity].
  - vm_compute. split; [discriminate | reflexivity].
  - vm_compute. split; [discriminate | reflexivity].
  - exact Hsep.
Defined.

(** ** The rotation among the members *)

Module RoundRobinFacts.
Import SubmitRplPrice.

Lemma turn_of_next (b : Z) : (b + 75) / 75 = b / 75 + 1.
Proof.
  replace (b + 75) with (b + 1 * 75) by lia. rewrite Z.div_add by lia. reflexivity.
Qed.

Lemma findIndex_range (members : list state.OracleDaoMember) (from : state.Address) :
  forall base,
    findIndex members from base = 0
    \/ (base <= findIndex members from base < base + Z.of_nat (length members)
        /\ exists m, members !! Z.to_nat (findIndex members from base - base) = Some m
                     /\ state.Address_ m = from).
Proof.
  induction members as [| m rest IH]; intros base; simpl; [left; reflexivity |].
  destruct (Z.eqb_spec (state.Address_ m) from) as [E | _].
  - right. split; [lia |]. exists m. rewrite Z.sub_diag. simpl. auto.
  - destruct (IH (base + 1)) as [Hzero | [Hrange [m' [Hm' Haddr]]]]; [left; exact Hzero |].
    right. split; [lia |]. exists m'. split; [| exact Haddr].
    replace (Z.to_nat (findIndex rest from (base + 1) - base))
      with (S (Z.to_nat (findIndex rest from (base + 1) - (base + 1)))) by lia.
    exact Hm'.
Qed.

Lemma findIndex_absent (members : list state.OracleDaoMember) (from : state.Address) :
  (forall m, In m members -> state.Address_ m <> from) ->
  forall base, findIndex members from base = 0.
Proof.
  induction members as [| m rest IH]; intros Hnone base; simpl; [reflexivity |].
  destruct (Z.eqb_spec (state.Address_ m) from) as [E | _].
  - exfalso. apply (Hnone m); [left; reflexivity | exact E].
  - apply IH. intros m' Hin. apply Hnone. right. exact Hin.
Qed.

Lemma findIndex_present (members : list state.OracleDaoMember) (from : state.Address) :
  (exists m, In m members /\ state.Address_ m = from) ->
  forall base,
    exists m, members !! Z.to_nat (findIndex members from base - base) = Some m
              /\ state.Address_ m = from
              /\ base <= findIndex members from base < base + Z.of_nat (length members).
Proof.
  induction members as [| m0 rest IH]; intros [m [Hin Hm]] base; [contradiction |].
  simpl. destruct (Z.eqb_spec (state.Address_ m0) from) as [E | Hne].
  - exists m0. rewrite Z.sub_diag. simpl. split; [reflexivity |]. split; [exact E | lia].
  - destruct Hin as [-> | Hin]; [contradiction |].
    destruct (IH (ex_intro _ m (conj Hin Hm)) (base + 1)) as (m' & Hlook & Haddr & Hrange).
    exists m'. split; [| split; [exact Haddr | lia]].
    replace (Z.to_nat (findIndex rest from (base + 1) - base))
      with (S (Z.to_nat (findIndex rest from (base + 1) - (base + 1)))) by lia.
    exact Hlook.
Qed.

End RoundRobinFacts.

(** X3.  The selection is a round robin over turns of 75 blocks: it is the
    same for all blocks of a turn, moves to the next member (modulo the
    member count) with the next turn, comes back after [count] turns, and
    member [i] is selected in turn [i]. *)
Theorem indexToSubmit_round_robin (blockNumber count : Z) :
  0 < count ->
  (forall b', blockNumber / 75 = b' / 75 ->
              SubmitRplPrice.indexToSubmit b' count
              = SubmitRplPrice.indexToSubmit blockNumber count)
  /\ SubmitRplPrice.indexToSubmit (blockNumber + 75) count
     = (SubmitRplPrice.indexToSubmit blockNumber count + 1) mod count
  /\ SubmitRplPrice.indexToSubmit (blockNumber + 75 * count) count
     = SubmitRplPrice.indexToSubmit blockNumber count
  /\ (forall i, 0 <= i < count -> SubmitRplPrice.indexToSubmit (75 * i) count = i).
Proof.
  intros Hcount. unfold SubmitRplPrice.indexToSubmit, SubmitRplPrice.BlocksPerTurn.
  split; [| split; [| split]].
  - intros b' E. rewrite E. reflexivity.
  - rewrite RoundRobinFacts.turn_of_next.
    rewrite (Z.add_mod (blockNumber / 75) 1 count) by lia.
    rewrite (Z.add_mod (blockNumber / 75 mod count) 1 count) by lia.
    rewrite Z.mod_mod by lia. reflexivity.
  - replace (blockNumber + 75 * count) with (blockNumber + count * 75) by lia.
    rewrite Z.div_add by lia.
    rewrite <- (Z.mul_1_l count) at 1. rewrite Z.mod_add by lia. reflexivity.
  - intros i Hi. rewrite Z.mul_comm, Z.div_mul by lia. apply Z.mod_small. exact Hi.
Qed.

(** Four members at block 299, the last block of turn 3. *)
Lemma indexToSubmit_round_robin_witness :
  SubmitRplPrice.indexToSubmit (299 + 75) 4 = (SubmitRplPrice.indexToSubmit 299 4 + 1) mod 4.
Proof.
  destruct (indexToSubmit_round_robin 299 4) as (_ & Hnext & _).
  - reflexivity.
  - exact Hnext.
Defined.

(** X4.  "Find out which oDAO index we are": the index found is a position
    in the member list; when some member has the transactor's address it
    is the position of such a member; when none has, it is 0, the index of
    the first member. *)
Theorem findIndex_member_or_zero (members : list state.OracleDaoMember) (from : state.Address) :
  let index := SubmitRplPrice.findIndex members from 0 in
  0 <= index
  /\ (members <> [] -> index < Z.of_nat (length members))
  /\ ((exists m, In m members /\ state.Address_ m = from) ->
      exists m, members !! Z.to_nat index = Some m /\ state.Address_ m = from)
  /\ ((forall m, In m members -> state.Address_ m <> from) -> index = 0).
Proof.
  intros index. subst index.
  destruct (RoundRobinFacts.findIndex_range members from 0) as [Hzero | [Hrange _]].
  - rewrite Hzero. split; [lia |]. split.
    { intros Hne. destruct members; [contradiction | simpl; lia]. }
    split.
    + intros Hsome.
      destruct (RoundRobinFacts.findIndex_present members from Hsome 0) as (m & Hlook & Haddr & _).
      rewrite Hzero in Hlook. exists m. auto.
    + intros _. reflexivity.
  - split; [lia |]. split; [intros _; lia |]. split.
    + intros Hsome.
      destruct (RoundRobinFacts.findIndex_present members from Hsome 0) as (m & Hlook & Haddr & _).
      rewrite Z.sub_0_r in Hlook. exists m. auto.
    + intros Hnone. apply RoundRobinFacts.findIndex_absent. exact Hnone.
Qed.

(** Address 55 is not among the example members 11, 22, 33 and 44. *)
Lemma findIndex_member_or_zero_witness :
  SubmitRplPrice.findIndex Example.members 55 0 = 0.
Proof.
  destruct (findIndex_member_or_zero Example.members 55) as (_ & _ & _ & Habsent).
  apply Habsent. intros m Hin.
  repeat (destruct Hin as [<- | Hin]; [vm_compute; discriminate |]). contradiction.
Defined.

(** ** Programs that leave the task alone *)

Module FrameFacts.
Import SubmitRplPrice.

Lemma Framed_ret {A : Type} (a : A) : Framed (Ret a).
Proof. intros s. simpl. auto. Qed.

Lemma Framed_crash {A : Type} (msg : string) : Framed (@Crash A msg).
Proof. intros s. simpl. auto. Qed.

Lemma Framed_bind {A B : Type} (p : Prog A) (f : A -> Prog B) :
  Framed p -> (forall a, Framed (f a)) -> Framed (p ≫= f).
Proof.
  intros Hp Hf s. rewrite run_bind. specialize (Hp s).
  destruct (run p s) as [[s1 r] gs]. destruct Hp as (-> & Hrun & Hfiles).
  destruct r as [a | msg |]; [| auto | auto].
  specialize (Hf a s1). destruct (run (f a) s1) as [[s2 r2] gs2].
  destruct Hf as (-> & Hrun2 & Hfiles2). simpl. split; [reflexivity |]. split; congruence.
Qed.

Lemma Framed_act {X : Type} (step : Shared -> Shared * X) :
  (forall s, isRunning (fst (step s)) = isRunning s /\ files (fst (step s)) = files s) ->
  Framed (act step).
Proof.
  intros H s. unfold act. simpl. specialize (H s). destruct (step s) as [s' x]. simpl in *.
  destruct H. auto.
Qed.

Lemma Framed_log (line : string) : Framed (log line).
Proof. apply Framed_act. intros s. simpl. auto. Qed.

Lemma Framed_checkAndSend (t : TxLayer) (simFailed : string) (call : tx.Call)
    (info : tx.TransactionInfo) (opts : tx.TransactOpts) (line : string) :
  Framed (txflow.checkAndSend t simFailed call info opts (log line)).
Proof.
  unfold txflow.checkAndSend.
  destruct (negb _); [apply Framed_ret |].
  destruct (negb _); [apply Framed_ret |].
  apply Framed_bind; [apply Framed_act; intros s; simpl; auto |].
  intros [e |]; [apply Framed_ret |].
  apply Framed_bind; [apply Framed_log | intros _; apply Framed_ret].
Qed.

Lemma Framed_tryTx (w : World) (call : tx.Call) (opts : tx.TransactOpts)
    (getFailed simFailed line : string) :
  Framed (tryTx w call opts getFailed simFailed (log line)).
Proof.
  unfold tryTx. apply Framed_bind.
  - unfold txflow.simulate. apply Framed_act. intros s. simpl. auto.
  - intros [[info |] [err |]]; try apply Framed_ret; try apply Framed_crash.
    apply Framed_checkAndSend.
Qed.

Lemma Framed_update (w : World) (pw : PriceWorld) (t : Target) (opts : tx.TransactOpts) :
  Framed (update w pw t opts).
Proof.
  destruct t; unfold update, updateOptimism, updatePolygon, updateArbitrum, updateZkSyncEra,
    updateBase.
  - apply Framed_bind; [apply Framed_log | intros _; apply Framed_tryTx].
  - apply Framed_bind; [apply Framed_log | intros _; apply Framed_tryTx].
  - apply Framed_bind; [apply Framed_log | intros _].
    destruct (GetMaxFeeWeiForDaemon pw); [apply Framed_tryTx | apply Framed_ret].
  - apply Framed_bind; [apply Framed_log | intros _; apply Framed_tryTx].
  - apply Framed_bind; [apply Framed_log | intros _; apply Framed_tryTx].
Qed.

Lemma Framed_relayStale (w : World) (pw : PriceWorld) (ts : list Target) :
  forall opts errs, Framed (relayStale w pw ts opts errs).
Proof.
  induction ts as [| t rest IH]; intros opts errs; simpl; [apply Framed_ret |].
  destruct (stale pw t); [| apply IH].
  apply Framed_bind; [apply Framed_update | intros r; apply IH].
Qed.

Lemma Framed_updateL2Prices (w : World) (pw : PriceWorld) (st : state.NetworkState) :
  Framed (updateL2Prices w pw st).
Proof.
  unfold updateL2Prices.
  destruct (errors.Join _); [apply Framed_ret |].
  destruct (forallb _ _); [apply Framed_ret |].
  destruct (GetTransactor (txl w)); [| apply Framed_ret].
  destruct (StaleQuery pw); [apply Framed_ret |].
  destruct (negb _); [apply Framed_ret |].
  destruct (_ =? 0); [apply Framed_crash |].
  destruct (_ =? _); [| apply Framed_ret].
  apply Framed_bind; [apply Framed_relayStale | intros errs; apply Framed_ret].
Qed.

End FrameFacts.

(** ** The gates of the price task *)

Module PriceGateFacts.
Import GoInt GoTime GoFacts SubmitRplPrice PriceGate.

Lemma wholeSeconds_exact (f : FloatUnit) (blockTime genesis : Z) :
  0 <= genesis <= blockTime ->
  blockTime < two63 ->
  blockTime - genesis <= 9223372036 ->
  wholeSeconds f (Sub (Unix (i64 blockTime)) (Unix (i64 genesis))) = blockTime - genesis.
Proof.
  intros Hg Ht Hspan.
  rewrite !i64_id by (unfold is_i64, minInt64, maxInt64, two63 in *; lia).
  unfold Unix, Second. rewrite Sub_exact.
  - unfold wholeSeconds, Second.
    replace (blockTime * 1000000000 - genesis * 1000000000)
      with ((blockTime - genesis) * 1000000000) by lia.
    destruct (Z.leb_spec 0 ((blockTime - genesis) * 1000000000)); [| lia].
    rewrite Z.mod_mul by lia. simpl. apply Z.div_mul. lia.
  - unfold is_i64, minInt64, maxInt64, two63. lia.
Qed.

End PriceGateFacts.

(** X5.  [SubmitRplPrice.Run] itself changes neither the files nor
    [isRunning], and starts at most the one price report goroutine.  It
    starts it only when price submission is enabled, the reportable block
    is beyond the block of the prices on chain, the block's header and the
    beacon head are available, the epoch of the block's time is not beyond
    the finalized epoch, and no report is running; it then returns nil.
    For a block time at or after genesis that epoch is
    [(blockTime - genesis) / secondsPerSlot / slotsPerEpoch]. *)
Theorem price_Run_gate (w : World) (pw : PriceWorld) (st : state.NetworkState) (s : Shared) :
  let blockNumber := state.LatestReportablePricesBlock (state.NetworkDetails st) in
  let ended := run (SubmitRplPrice.Run w pw st) s in
  files (fst (fst ended)) = files s
  /\ isRunning (fst (fst ended)) = isRunning s
  /\ (snd ended = [] \/ snd ended = [SubmitRplPrice.priceReportRoutine w pw blockNumber])
  /\ (snd ended <> [] ->
      snd (fst ended) = Done None
      /\ state.SubmitPricesEnabled (state.NetworkDetails st) = true
      /\ state.PricesBlock (state.NetworkDetails st) < blockNumber
      /\ isRunning s = false
      /\ exists header head,
           HeaderByNumber w blockNumber = Success header
           /\ beacon.GetBeaconHead (bc w) = Success head
           /\ PriceGate.targetEpochOf w st header <= beacon.FinalizedEpoch head)
  /\ (forall header,
        0 <= beacon.GenesisTime (state.BeaconConfig st) <= Time_ header ->
        Time_ header < GoInt.two63 ->
        Time_ header - beacon.GenesisTime (state.BeaconConfig st) <= 9223372036 ->
        PriceGate.targetEpochOf w st header
        = (Time_ header - beacon.GenesisTime (state.BeaconConfig st))
          / beacon.SecondsPerSlot (state.BeaconConfig st)
          / beacon.SlotsPerEpoch (state.BeaconConfig st)).
Proof.
  intros blockNumber ended.
  assert (Hexact : forall header,
        0 <= beacon.GenesisTime (state.BeaconConfig st) <= Time_ header ->
        Time_ header < GoInt.two63 ->
        Time_ header - beacon.GenesisTime (state.BeaconConfig st) <= 9223372036 ->
        PriceGate.targetEpochOf w st header
        = (Time_ header - beacon.GenesisTime (state.BeaconConfig st))
          / beacon.SecondsPerSlot (state.BeaconConfig st)
          / beacon.SlotsPerEpoch (state.BeaconConfig st)).
  { intros header Hg Ht Hspan. unfold PriceGate.targetEpochOf.
    rewrite PriceGateFacts.wholeSeconds_exact by assumption. reflexivity. }
  cut (files (fst (fst ended)) = files s
       /\ isRunning (fst (fst ended)) = isRunning s
       /\ (snd ended = [] \/ snd ended = [SubmitRplPrice.priceReportRoutine w pw blockNumber])
       /\ (snd ended <> [] ->
           snd (fst ended) = Done None
           /\ state.SubmitPricesEnabled (state.NetworkDetails st) = true
           /\ state.PricesBlock (state.NetworkDetails st) < blockNumber
           /\ isRunning s = false
           /\ exists header head,
                HeaderByNumber w blockNumber = Success header
                /\ beacon.GetBeaconHead (bc w) = Success head
                /\ PriceGate.targetEpochOf w st header <= beacon.FinalizedEpoch head)).
  { intros (H1 & H2 & H3 & H4). auto. }
  clear Hexact. subst ended. unfold SubmitRplPrice.Run.
  destruct (state.SubmitPricesEnabled (state.NetworkDetails st)) eqn:Henabled; simpl negb; cbv iota.
  2: { simpl. split; [reflexivity |]. split; [reflexivity |]. split; [left; reflexivity |].
       intros Hne. congruence. }
  rewrite run_bind.
  pose proof (FrameFacts.Framed_updateL2Prices w pw st s) as Hframe.
  destruct (run (SubmitRplPrice.updateL2Prices w pw st) s) as [[s1 r1] gs1].
  destruct Hframe as (-> & Hrun1 & Hfiles1).
  destruct r1 as [err | msg |]; simpl;
    [| split; [assumption |]; split; [assumption |]; split; [left; reflexivity |];
       intros Hne; congruence
     | split; [assumption |]; split; [assumption |]; split; [left; reflexivity |];
       intros Hne; congruence].
  fold blockNumber.
  assert (Hquiet : forall (s2 : Shared) (r : Outcome (option error)),
            files s2 = files s -> isRunning s2 = isRunning s ->
            files s2 = files s /\ isRunning s2 = isRunning s
            /\ (@nil (Prog unit) = [] \/ @nil (Prog unit)
                                     = [SubmitRplPrice.priceReportRoutine w pw blockNumber])
            /\ (@nil (Prog unit) <> [] ->
                r = Done None
                /\ true = true
                /\ state.PricesBlock (state.NetworkDetails st) < blockNumber
                /\ isRunning s = false
                /\ exists header head,
                     HeaderByNumber w blockNumber = Success header
                     /\ beacon.GetBeaconHead (bc w) = Success head
                     /\ PriceGate.targetEpochOf w st header <= beacon.FinalizedEpoch head)).
  { intros s2 r Hf Hr. split; [assumption |]. split; [assumption |].
    split; [left; reflexivity |]. intros Hne. congruence. }
  destruct err as [e |]; cbn -[SubmitRplPrice.priceReportRoutine SubmitRplPrice.wholeSeconds].
  all: destruct (Z.leb_spec blockNumber (state.PricesBlock (state.NetworkDetails st)));
       cbn -[SubmitRplPrice.priceReportRoutine SubmitRplPrice.wholeSeconds];
       [apply Hquiet; assumption |].
  all: destruct (HeaderByNumber w blockNumber) as [header | herr] eqn:Hheader;
       cbn -[SubmitRplPrice.priceReportRoutine SubmitRplPrice.wholeSeconds];
       [| apply Hquiet; assumption].
  all: destruct (Z.eqb_spec (beacon.SecondsPerSlot (state.BeaconConfig st)) 0);
       cbn -[SubmitRplPrice.priceReportRoutine SubmitRplPrice.wholeSeconds];
       [apply Hquiet; assumption |].
  all: destruct (Z.eqb_spec (beacon.SlotsPerEpoch (state.BeaconConfig st)) 0);
       cbn -[SubmitRplPrice.priceReportRoutine SubmitRplPrice.wholeSeconds];
       [apply Hquiet; assumption |].
  all: destruct (beacon.GetBeaconHead (bc w)) as [head | berr] eqn:Hhead;
       cbn -[SubmitRplPrice.priceReportRoutine SubmitRplPrice.wholeSeconds];
       [| apply Hquiet; assumption].
  all: match goal with
       | |- context [?a <? ?b] => destruct (Z.ltb_spec a b) as [Hlt | Hge]
       end;
       cbn -[SubmitRplPrice.priceReportRoutine SubmitRplPrice.wholeSeconds];
       [apply Hquiet; assumption |].
  all: rewrite Hrun1; destruct (isRunning s) eqn:Hbusy;
       cbn -[SubmitRplPrice.priceReportRoutine SubmitRplPrice.wholeSeconds];
       [apply Hquiet; assumption |].
  all: split; [assumption |]; split; [assumption |]; split; [right; reflexivity |];
       intros _; split; [reflexivity |]; split; [reflexivity |]; split; [lia |];
       split; [reflexivity |]; exists header, head;
       split; [reflexivity |]; split; [reflexivity |];
       unfold PriceGate.targetEpochOf; exact Hge.
Qed.

(** In the example network the goroutine is started: block 9000 is due,
    its time lies in epoch 11 and epoch 11 is finalized. *)
Lemma price_Run_gate_witness :
  snd (fst (run (SubmitRplPrice.Run (Example.worldAt 11) (Example.priceWorld Example.allStale)
                   (Example.relayState 75)) Example.fresh)) = Done None
  /\ isRunning Example.fresh = false.
Proof.
  destruct (price_Run_gate (Example.worldAt 11) (Example.priceWorld Example.allStale)
              (Example.relayState 75) Example.fresh) as (_ & _ & _ & Hgate & _).
  destruct Hgate as (Hnil & _ & _ & Hidle & _).
  - assert (Hlen : length (snd (run (SubmitRplPrice.Run (Example.worldAt 11)
                                       (Example.priceWorld Example.allStale)
                                       (Example.relayState 75)) Example.fresh)) = 1%nat)
      by (vm_compute; reflexivity).
    intros E. rewrite E in Hlen. discriminate.
  - split; assumption.
Defined.

(** ** Uploading to Web3.Storage *)

(** X6.  [uploadFileToWeb3Storage] starts no goroutine, leaves [isRunning]
    alone and touches no file but the compressed one.  It returns a CID
    with a nil error only after the upload, and then the compressed file
    holds the encoder's output, the CID is the storage network's answer
    and the API token is configured; with an error the CID is empty and at
    most the one upload was attempted. *)
Theorem uploadFileToWeb3Storage_outcomes (w : World) (wrapperBytes : bytes)
    (compressedPath description : string) (s : Shared) :
  let compressed := EncodeAll (w3s w) wrapperBytes in
  let ended := run (SubmitRewardsTree.uploadFileToWeb3Storage w wrapperBytes compressedPath
                      description) s in
  snd ended = []
  /\ isRunning (fst (fst ended)) = isRunning s
  /\ (forall path, path <> compressedPath -> files (fst (fst ended)) !! path = files s !! path)
  /\ ((exists cid,
         snd (fst ended) = Done (cid, None)
         /\ Put (w3s w) compressed = Success cid
         /\ Web3StorageApiToken (w3s w) <> ""%string
         /\ files (fst (fst ended)) !! compressedPath = Some (Readable compressed)
         /\ trace (fst (fst ended)) = trace s ++ [EvUpload compressedPath compressed])
      \/ (exists err,
            snd (fst ended) = Done (""%string, Some err)
            /\ (trace (fst (fst ended)) = trace s
                \/ (trace (fst (fst ended)) = trace s ++ [EvUpload compressedPath compressed]
                    /\ Put (w3s w) compressed = Failure
                         match err with ErrWrap _ cause => cause | other => other end)))).
Proof.
  intros compressed ended. subst ended. unfold SubmitRewardsTree.uploadFileToWeb3Storage.
  destruct (String.eqb_spec (Web3StorageApiToken (w3s w)) "") as [Htoken | Htoken].
  { simpl. split; [reflexivity |]. split; [reflexivity |]. split; [reflexivity |].
    right. eexists. split; [reflexivity |]. left. reflexivity. }
  destruct (NewClient (w3s w)) as [err |].
  { simpl. split; [reflexivity |]. split; [reflexivity |]. split; [reflexivity |].
    right. eexists. split; [reflexivity |]. left. reflexivity. }
  destruct (CreateFault (faults w) compressedPath) as [err |].
  { simpl. split; [reflexivity |]. split; [reflexivity |]. split; [reflexivity |].
    right. eexists. split; [reflexivity |]. left. reflexivity. }
  destruct (WriteFault (faults w) compressedPath) as [[err remains] |].
  { cbn. split; [reflexivity |]. split; [reflexivity |].
    split; [intros path Hpath; rewrite !lookup_insert_ne by congruence; reflexivity |].
    right. eexists. split; [reflexivity |]. left. reflexivity. }
  cbn. fold compressed.
  destruct (Put (w3s w) compressed) as [cid | err] eqn:Hput; cbn.
  - split; [reflexivity |]. split; [reflexivity |].
    split; [intros path Hpath; rewrite !lookup_insert_ne by congruence; reflexivity |].
    left. exists cid. split; [reflexivity |]. split; [reflexivity |]. split; [exact Htoken |].
    split; [apply lookup_insert_eq | reflexivity].
  - split; [reflexivity |]. split; [reflexivity |].
    split; [intros path Hpath; rewrite !lookup_insert_ne by congruence; reflexivity |].
    right. eexists. split; [reflexivity |]. right. split; reflexivity.
Qed.

(** ** The running flag at the end of a goroutine *)

(** X7.  Whenever the generation goroutine ends without a panic, on success
    and on every failure alike, [isRunning] is false. *)
Theorem generateTreeRoutine_clears_isRunning (w : World) (intervalsPassed : GoTime.Duration)
    (nodeTrusted : bool) (currentIndex snapshotBeaconBlock elBlockIndex : Z)
    (startTime endTime : GoTime.Time) (snapshotElBlockHeader : Header)
    (p1 p2 p3 p4 : string) (s : Shared) :
  let ended :=
    run (SubmitRewardsTree.generateTreeRoutine w intervalsPassed nodeTrusted currentIndex
           snapshotBeaconBlock elBlockIndex startTime endTime snapshotElBlockHeader
           p1 p2 p3 p4) s in
  snd (fst ended) = Done tt ->
  isRunning (fst (fst ended)) = false.
Proof.
  intros ended. subst ended. unfold SubmitRewardsTree.generateTreeRoutine.
  rewrite run_bind. cbn [run modify act].
  destruct (GetBestApiClient (gen w) (Number snapshotElBlockHeader)) as [err |].
  - cbn. intros _. reflexivity.
  - rewrite run_bind.
    destruct (run (SubmitRewardsTree.generateTreeImpl w intervalsPassed nodeTrusted currentIndex
                     snapshotBeaconBlock elBlockIndex startTime endTime snapshotElBlockHeader
                     p1 p2 p3 p4) (setRunning true s)) as [[s1 r] gs].
    destruct r as [[e |] | msg |]; cbn; try discriminate; intros _; reflexivity.
Qed.

(** The goroutine of the example network, started on a fresh process. *)
Lemma generateTreeRoutine_clears_isRunning_witness :
  isRunning (fst (fst (run (SubmitRewardsTree.generateTreeRoutine (Example.worldAt 11) 1 true 7
                              349 5349 (GoTime.Unix 1000) (GoTime.Unix 4840)
                              {| Number := 5349; Time_ := 5224 |}
                              "rewards-tree.json" "rewards-tree.json.zst"
                              "minipool-performance.json" "minipool-performance.json.zst")
                         Example.fresh))) = false.
Proof.
  apply (generateTreeRoutine_clears_isRunning (Example.worldAt 11) 1 true 7 349 5349
           (GoTime.Unix 1000) (GoTime.Unix 4840) {| Number := 5349; Time_ := 5224 |}
           "rewards-tree.json" "rewards-tree.json.zst"
           "minipool-performance.json" "minipool-performance.json.zst" Example.fresh).
  vm_compute. reflexivity.
Defined.

(** X8.  The same for the price report goroutine: whenever it ends without a
    panic, [isRunning] is false. *)
Theorem priceReportRoutine_clears_isRunning (w : World) (pw : PriceWorld) (blockNumber : Z)
    (s : Shared) :
  let ended := run (SubmitRplPrice.priceReportRoutine w pw blockNumber) s in
  snd (fst ended) = Done tt ->
  isRunning (fst (fst ended)) = false.
Proof.
  intros ended. subst ended. unfold SubmitRplPrice.priceReportRoutine.
  destruct (getRplTwap pw blockNumber) as [rplPrice | err].
  2: { cbn. intros _. reflexivity. }
  cbn -[SubmitRplPrice.submitRplPrice SubmitRplPrice.hasSubmittedSpecificBlockPrices
        SubmitRplPrice.hasSubmittedBlockPrices].
  destruct (SubmitRplPrice.hasSubmittedSpecificBlockPrices (rpStorage w) (GetAddress (txl w))
              blockNumber rplPrice) as [[[|] [err1 |]] | msg |];
    cbn -[SubmitRplPrice.submitRplPrice SubmitRplPrice.hasSubmittedBlockPrices];
    try discriminate; try (intros _; reflexivity).
  destruct (SubmitRplPrice.hasSubmittedBlockPrices (rpStorage w) (GetAddress (txl w))
              blockNumber) as [[[|] [err2 |]] | msg |];
    cbn -[SubmitRplPrice.submitRplPrice];
    try discriminate; try (intros _; reflexivity).
  all: rewrite run_bind;
       match goal with
       | |- context [run (SubmitRplPrice.submitRplPrice ?a ?b ?c ?d) ?s0] =>
           destruct (run (SubmitRplPrice.submitRplPrice a b c d) s0) as [[s1 r] gs]
       end;
       destruct r as [[e |] | msg |]; cbn; try discriminate; intros _; reflexivity.
Qed.

(** The price report of the example network. *)
Lemma priceReportRoutine_clears_isRunning_witness :
  isRunning (fst (fst (run (SubmitRplPrice.priceReportRoutine (Example.worldAt 11)
                              (Example.priceWorld Example.allStale) 9000) Example.fresh)))
  = false.
Proof.
  apply (priceReportRoutine_clears_isRunning (Example.worldAt 11)
           (Example.priceWorld Example.allStale) 9000 Example.fresh).
  vm_compute. reflexivity.
Defined.

(** ** Step invariants under every schedule *)

Module StepsFacts.

Section Relation.
Variable R : Shared -> Shared -> Prop.

Lemma Steps_bind {A B : Type} (p : Prog A) (f : A -> Prog B) :
  Steps R p -> (forall a, Steps R (f a)) -> Steps R (p ≫= f).
Proof.
  intros Hp. revert B f. unfold mbind, Prog_bind.
  induction Hp as [A a | A msg | A | A X step k Hstep Hk IH | A g k Hg _ Hk IH];
    intros B f Hf; simpl.
  - apply Hf.
  - constructor.
  - constructor.
  - constructor; [exact Hstep | intros x; apply IH; exact Hf].
  - constructor; [exact Hg | apply IH; exact Hf].
Qed.

Lemma Steps_modify (f : Shared -> Shared) : (forall s, R s (f s)) -> Steps R (modify f).
Proof. intros H. constructor; [exact H | intros x; constructor]. Qed.

Lemma Steps_lift {A : Type} (o : Outcome A) : Steps R (lift o).
Proof. destruct o; constructor. Qed.

Hypothesis R_refl : forall s, R s s.
Hypothesis R_trans : forall s1 s2 s3, R s1 s2 -> R s2 s3 -> R s1 s3.

(** One step of one thread. *)
Lemma stepProg_Steps {A : Type} (p : Prog A) (s s' : Shared) (p' : Prog A)
    (gs : list (Prog unit)) :
  Steps R p -> Sched.stepProg p s = Some (s', p', gs) ->
  R s s' /\ Steps R p' /\ Forall (fun g => Steps R g) gs.
Proof.
  intros Hp. destruct Hp as [A a | A msg | A | A X step k Hstep Hk | A g k Hg Hk];
    simpl; try discriminate.
  - specialize (Hstep s). destruct (step s) as [s1 x]. intros [= <- <- <-].
    split; [exact Hstep |]. split; [apply Hk | constructor].
  - intros [= <- <- <-]. split; [apply R_refl |]. split; [exact Hk |].
    constructor; [exact Hg | constructor].
Qed.

Lemma step_Steps (i : nat) (sys sys' : Sched.Sys) :
  Forall (threadSteps R) (Sched.threads sys) ->
  Sched.step i sys = Some sys' ->
  R (Sched.shared sys) (Sched.shared sys') /\ Forall (threadSteps R) (Sched.threads sys').
Proof.
  intros Hall. unfold Sched.step.
  destruct (Sched.threads sys !! i) as [[p | p] |] eqn:Hi; [| | discriminate].
  - assert (Hp : Steps R p) by exact (proj1 (Forall_lookup _ _) Hall i _ Hi).
    destruct (Sched.stepProg p (Sched.shared sys)) as [[[s' p'] gs] |] eqn:Hs; [| discriminate].
    destruct (stepProg_Steps p _ _ _ _ Hp Hs) as (HR & Hp' & Hgs).
    intros [= <-]. simpl. split; [exact HR |].
    apply Forall_app. split.
    + apply Forall_insert; assumption.
    + apply Forall_fmap. exact Hgs.
  - assert (Hp : Steps R p) by exact (proj1 (Forall_lookup _ _) Hall i _ Hi).
    destruct (Sched.stepProg p (Sched.shared sys)) as [[[s' p'] gs] |] eqn:Hs; [| discriminate].
    destruct (stepProg_Steps p _ _ _ _ Hp Hs) as (HR & Hp' & Hgs).
    intros [= <-]. simpl. split; [exact HR |].
    apply Forall_app. split.
    + apply Forall_insert; assumption.
    + apply Forall_fmap. exact Hgs.
Qed.

(** Every schedule. *)
Lemma exec_Steps (schedule : list nat) (sys sys' : Sched.Sys) :
  Forall (threadSteps R) (Sched.threads sys) ->
  Sched.exec schedule sys = Some sys' ->
  R (Sched.shared sys) (Sched.shared sys') /\ Forall (threadSteps R) (Sched.threads sys').
Proof.
  revert sys. induction schedule as [| i rest IH]; intros sys Hall; simpl.
  - intros [= <-]. split; [apply R_refl | exact Hall].
  - destruct (Sched.step i sys) as [sys1 |] eqn:Hstep; [| discriminate].
    destruct (step_Steps i sys sys1 Hall Hstep) as (HR1 & Hall1).
    intros Hrest. destruct (IH sys1 Hall1 Hrest) as (HR2 & Hall2).
    split; [exact (R_trans _ _ _ HR1 HR2) | exact Hall2].
Qed.

(** The uninterrupted run, and the goroutines it leaves. *)
Lemma run_Steps {A : Type} (p : Prog A) :
  Steps R p ->
  forall s, R s (fst (fst (run p s))) /\ Forall (fun g => Steps R g) (snd (run p s)).
Proof.
  intros Hp. induction Hp as [A a | A msg | A | A X step k Hstep Hk IH | A g k Hg _ Hk IH];
    intros s; simpl; try (split; [apply R_refl | constructor]).
  - specialize (Hstep s). destruct (step s) as [s1 x]. simpl in Hstep.
    destruct (IH x s1) as (HR & Hgs). split; [exact (R_trans _ _ _ Hstep HR) | exact Hgs].
  - destruct (IH s) as (HR & Hgs). destruct (run k s) as [[s1 r] gs]. simpl in *.
    split; [exact HR | constructor; assumption].
Qed.

End Relation.

Lemma Local_refl (touch : string -> Prop) (s : Shared) : Local touch s s.
Proof. unfold Local. auto. Qed.

Lemma Local_trans (touch : string -> Prop) (s1 s2 s3 : Shared) :
  Local touch s1 s2 -> Local touch s2 s3 -> Local touch s1 s3.
Proof.
  unfold Local. intros (H1 & H2 & H3) (H4 & H5 & H6).
  split; [congruence |]. split; [congruence |].
  intros path Hp. rewrite (H6 path Hp). apply H3. exact Hp.
Qed.

Lemma uploads_app (a b : list Event) : uploads (a ++ b) = uploads a ++ uploads b.
Proof. apply List.filter_app. Qed.

Lemma Local_emitAll (touch : string -> Prop) (es : list Event) (s : Shared) :
  submissions es = [] -> uploads es = [] -> Local touch s (emitAll es s).
Proof.
  intros H1 H2. unfold Local. simpl.
  rewrite PriceFacts.submissions_app, uploads_app, H1, H2, !app_nil_r. auto.
Qed.

Lemma Local_emit (touch : string -> Prop) (e : Event) (s : Shared) :
  isSubmission e = false -> isUpload e = false -> Local touch s (emit e s).
Proof.
  intros H1 H2. unfold Local. simpl.
  rewrite PriceFacts.submissions_app, uploads_app. unfold submissions, uploads. simpl.
  rewrite H1, H2, !app_nil_r. auto.
Qed.

Lemma Local_setRunning (touch : string -> Prop) (b : bool) (s : Shared) :
  Local touch s (setRunning b s).
Proof. unfold Local. simpl. auto. Qed.

Lemma Local_setFile (touch : string -> Prop) (path : string) (node : option FileNode)
    (s : Shared) :
  touch path -> Local touch s (setFile path node s).
Proof.
  intros Hpath. unfold Local. simpl. split; [reflexivity |]. split; [reflexivity |].
  intros other Hother. assert (path <> other) by (intros ->; contradiction).
  destruct node; [apply lookup_insert_ne | apply lookup_delete_ne]; assumption.
Qed.

End StepsFacts.

(** ** A node outside the oracle DAO *)

Module ObserverFacts.
Import GoInt GoTime SubmitRewardsTree StepsFacts.

Ltac local_step :=
  simpl;
  first [ apply Local_refl
        | apply Local_setRunning
        | apply Local_emit; reflexivity
        | apply Local_setFile; eexists; eauto ].

Ltac steps :=
  repeat match goal with
         | |- Steps _ (Ret _) => apply Steps_ret
         | |- Steps _ (Crash _) => apply Steps_crash
         | |- Steps _ Exhausted => apply Steps_exhausted
         | |- Steps _ (_ ≫= _) => apply Steps_bind; [| intros ?]
         | |- Steps _ (Go _ _) => apply Steps_go
         | |- Steps _ (lift _) => apply Steps_lift
         | |- Steps _ (modify _) => apply Steps_modify; intros ?; local_step
         | |- Steps _ (log _) => apply Steps_modify; intros ?; local_step
         | |- Steps _ (printMessage _) => apply Steps_modify; intros ?; local_step
         | |- Steps _ (match ?x with _ => _ end) => destruct x
         end.

Lemma lines_only (es : list Event) :
  Forall (fun e => exists line, e = EvLog line) es -> submissions es = [] /\ uploads es = [].
Proof.
  induction 1 as [| e es [line ->] _ [IH1 IH2]]; [split; reflexivity |].
  unfold submissions, uploads in *. simpl. auto.
Qed.

Lemma firstProposedBlock_lines (client : beacon.Client) (fuel : nat) (slot : Z) :
  Forall (fun e => exists line, e = EvLog line) (fst (firstProposedBlock client fuel slot)).
Proof.
  revert slot. induction fuel as [| fuel IH]; intros slot; simpl; [constructor |].
  destruct (beacon.GetBeaconBlock client slot); try constructor.
  specialize (IH (u64 (slot - 1))).
  destruct (firstProposedBlock client fuel (u64 (slot - 1))) as [logs r]. simpl in *.
  constructor; [eexists; reflexivity | exact IH].
Qed.

Lemma getSnapshotConsensusBlock_lines (w : World) (fuel : nat) (endTime : Time)
    (st : state.NetworkState) :
  Forall (fun e => exists line, e = EvLog line) (fst (getSnapshotConsensusBlock w fuel endTime st)).
Proof.
  unfold getSnapshotConsensusBlock.
  destruct (beacon.GetBeaconHead (bc w)); [| constructor].
  destruct (_ =? 0); [constructor |].
  destruct (_ <? _); [constructor |].
  apply firstProposedBlock_lines.
Qed.

Lemma isExistingFileValid_lines (g : TreeGen) (fs : gmap string FileNode) (path : string)
    (N : Z) :
  Forall (fun e => exists line, e = EvLog line) (snd (isExistingFileValid g fs path N)).
Proof.
  unfold isExistingFileValid.
  destruct (fs !! path) as [[content | err] |]; simpl;
    [| repeat constructor; eexists; reflexivity | constructor].
  destruct (DeserializeRewardsFile g content); simpl;
    [| repeat constructor; eexists; reflexivity].
  destruct (negb _); simpl; [repeat constructor; eexists; reflexivity | constructor].
Qed.

Lemma WriteFile_local (w : World) (path : string) (data : bytes) :
  generatedPath w path -> Steps (Local (generatedPath w)) (WriteFile w path data).
Proof.
  intros Hpath. unfold WriteFile.
  destruct (WriteFileFault (faults w) path) as [[err remains] |];
    (apply Steps_bind; [| intros ?; apply Steps_ret]);
    apply Steps_modify; intros s; apply Local_setFile; exact Hpath.
Qed.

Lemma generateTreeImpl_local (w : World) (n : Duration) (index beaconBlock elBlock : Z)
    (startTime endTime : Time) (header : Header) (treePath perfPath p2 p4 : string) :
  generatedPath w treePath -> generatedPath w perfPath ->
  Steps (Local (generatedPath w))
    (generateTreeImpl w n false index beaconBlock elBlock startTime endTime header
       treePath p2 perfPath p4).
Proof.
  intros Htree Hperf. unfold generateTreeImpl.
  apply Steps_bind; [steps | intros _].
  apply Steps_bind; [steps | intros _].
  destruct (NewNetworkStateManager (gen w)); [steps |].
  destruct (GetStateForSlotAtSnapshot (gen w) beaconBlock); [steps |].
  destruct (NewTreeGenerator (gen w) _); [steps |].
  destruct (GenerateTree (gen w) _) as [rewardsFile | err]; [| steps].
  apply Steps_bind.
  { apply Steps_modify. intros s. apply Local_emitAll.
    - induction (rprewards.InvalidNetworkNodes _); [reflexivity | assumption].
    - induction (rprewards.InvalidNetworkNodes _); [reflexivity | assumption]. }
  intros _.
  destruct (SerializeMinipoolPerformance (gen w) rewardsFile) as [perfBytes | err]; [| steps].
  apply Steps_bind; [apply WriteFile_local; exact Hperf | intros [err |]]; [steps |].
  apply Steps_bind; [steps | intros [file | err]]; [| steps].
  destruct (Serialize (gen w) file) as [wrapperBytes | err]; [| steps].
  apply Steps_bind; [steps | intros _].
  apply Steps_bind; [apply WriteFile_local; exact Htree | intros [err |]]; steps.
Qed.

Lemma generateTreeRoutine_local (w : World) (n : Duration) (index beaconBlock elBlock : Z)
    (startTime endTime : Time) (header : Header) (treePath perfPath p2 p4 : string) :
  generatedPath w treePath -> generatedPath w perfPath ->
  Steps (Local (generatedPath w))
    (generateTreeRoutine w n false index beaconBlock elBlock startTime endTime header
       treePath p2 perfPath p4).
Proof.
  intros Htree Hperf. unfold generateTreeRoutine, handleError.
  apply Steps_bind; [steps | intros _].
  destruct (GetBestApiClient (gen w) (Number header)); [steps |].
  apply Steps_bind; [apply generateTreeImpl_local; assumption | intros [err |]]; steps.
Qed.

Lemma Run_work_local (w : World) (st : state.NetworkState) (n : Duration)
    (startTime endTime : Time) (beaconBlock elBlock : Z) (header : Header) :
  Steps (Local (generatedPath w))
    (Run_work w false st n startTime endTime beaconBlock elBlock header).
Proof.
  unfold Run_work, handleError.
  destruct (NewRewardsPool w); [steps |].
  apply Steps_bind.
  { constructor; [| intros x; constructor]. intros s.
    pose proof (isExistingFileValid_lines (gen w) (files s)
                  (GetRewardsTreePath w (state.RewardIndex (state.NetworkDetails st)))
                  (u64 n)) as Hlines.
    destruct (isExistingFileValid _ _ _ _) as [ok logs]. simpl in *.
    destruct (lines_only logs Hlines). apply Local_emitAll; assumption. }
  intros [|]; simpl negb; cbv iota; [steps |].
  apply Steps_bind; [| intros _; steps].
  unfold generateTree. apply Steps_go; [| steps].
  apply generateTreeRoutine_local; eexists; eauto.
Qed.

Lemma Run_checkpoint_local (w : World) (fuel : nat) (st : state.NetworkState) :
  Steps (Local (generatedPath w)) (Run_checkpoint w fuel false st).
Proof.
  unfold Run_checkpoint.
  apply Steps_bind; [steps | intros _].
  destruct (intervalsPassed _ _ _) as [n |]; [| steps].
  destruct (n =? 0); [steps |].
  pose proof (getSnapshotConsensusBlock_lines w fuel
                (Add (state.IntervalStart (state.NetworkDetails st))
                   (mul (state.IntervalDuration (state.NetworkDetails st)) n)) st) as Hlines.
  destruct (getSnapshotConsensusBlock w fuel _ st) as [logs resolved]. simpl in Hlines.
  destruct (lines_only logs Hlines).
  apply Steps_bind; [apply Steps_modify; intros s; apply Local_emitAll; assumption | intros _].
  apply Steps_bind; [steps | intros [[beaconBlock elBlock] [err |]]]; [steps |].
  destruct (HeaderByNumber w (i64 elBlock)) as [header | err]; [| steps].
  apply Steps_bind.
  { constructor; [| intros x; constructor]. intros s. destruct (isRunning s); local_step. }
  intros [|]; [steps |]. apply Run_work_local.
Qed.

Lemma Run_local (w : World) (fuel : nat) (st : state.NetworkState) (beaconSlot : Z) :
  Steps (Local (generatedPath w)) (Run w fuel false st beaconSlot).
Proof.
  unfold Run. simpl negb. cbv iota.
  destruct (RewardsTreeMode w); try apply Steps_ret.
  destruct (GetStateForSlot w beaconSlot); [apply Run_checkpoint_local | apply Steps_ret].
Qed.

End ObserverFacts.

(** X9.  A node outside the oracle DAO generates trees for its own use:
    however many calls of [Run] and their goroutines are interleaved,
    no transaction is built or sent, nothing is uploaded, and no file
    changes but rewards tree files and minipool performance files. *)
Theorem observer_stays_local (w : World) (fuel : nat) (calls : list (state.NetworkState * Z))
    (schedule : list nat) (s : Shared) :
  match Sched.exec schedule (rewardsCalls w fuel false calls s) with
  | Some sys =>
      submissions (trace (Sched.shared sys)) = submissions (trace s)
      /\ uploads (trace (Sched.shared sys)) = uploads (trace s)
      /\ forall path, ~ generatedPath w path ->
                      files (Sched.shared sys) !! path = files s !! path
  | None => True
  end.
Proof.
  destruct (Sched.exec schedule (rewardsCalls w fuel false calls s)) as [sys |] eqn:Hexec;
    [| exact I].
  destruct (StepsFacts.exec_Steps (Local (generatedPath w))
              (StepsFacts.Local_refl _) (StepsFacts.Local_trans _)
              schedule (rewardsCalls w fuel false calls s) sys) as (Hlocal & _);
    [| exact Hexec | exact Hlocal].
  simpl. apply Forall_fmap, Forall_forall. intros c _. simpl.
  apply ObserverFacts.Run_local.
Qed.

(** ** The price task and the files *)

Module OfflineFacts.
Import GoInt GoTime SubmitRplPrice StepsFacts.

Lemma Offline_refl (s : Shared) : Offline s s.
Proof. unfold Offline. auto. Qed.

Lemma Offline_trans (s1 s2 s3 : Shared) : Offline s1 s2 -> Offline s2 s3 -> Offline s1 s3.
Proof. unfold Offline. intros [H1 H2] [H3 H4]. split; congruence. Qed.

Lemma Offline_emit (e : Event) (s : Shared) : isUpload e = false -> Offline s (emit e s).
Proof.
  intros H. unfold Offline. simpl. rewrite uploads_app. unfold uploads. simpl.
  rewrite H, app_nil_r. auto.
Qed.

Lemma Offline_setRunning (b : bool) (s : Shared) : Offline s (setRunning b s).
Proof. unfold Offline. simpl. auto. Qed.

Ltac offline_step :=
  simpl;
  first [ apply Offline_refl
        | apply Offline_setRunning
        | apply Offline_emit; reflexivity ].

Ltac steps :=
  repeat match goal with
         | |- Steps _ (Ret _) => apply Steps_ret
         | |- Steps _ (Crash _) => apply Steps_crash
         | |- Steps _ Exhausted => apply Steps_exhausted
         | |- Steps _ (_ ≫= _) => apply Steps_bind; [| intros ?]
         | |- Steps _ (Go _ _) => apply Steps_go
         | |- Steps _ (lift _) => apply Steps_lift
         | |- Steps _ (modify _) => apply Steps_modify; intros ?; offline_step
         | |- Steps _ (log _) => apply Steps_modify; intros ?; offline_step
         | |- Steps _ (act _) => apply Steps_act; [intros ?; offline_step | intros ?]
         | |- Steps _ (Act _ _) => apply Steps_act; [intros ?; offline_step | intros ?]
         | |- Steps _ (match ?x with _ => _ end) => destruct x
         end.

Lemma tryTx_offline (w : World) (call : tx.Call) (opts : tx.TransactOpts)
    (getFailed simFailed line : string) :
  Steps Offline (tryTx w call opts getFailed simFailed (log line)).
Proof. unfold tryTx, txflow.simulate, txflow.checkAndSend. steps. Qed.

Lemma update_offline (w : World) (pw : PriceWorld) (t : Target) (opts : tx.TransactOpts) :
  Steps Offline (update w pw t opts).
Proof.
  destruct t; unfold update, updateOptimism, updatePolygon, updateArbitrum, updateZkSyncEra,
    updateBase.
  - apply Steps_bind; [steps | intros _; apply tryTx_offline].
  - apply Steps_bind; [steps | intros _; apply tryTx_offline].
  - apply Steps_bind; [steps | intros _].
    destruct (GetMaxFeeWeiForDaemon pw); [apply tryTx_offline | steps].
  - apply Steps_bind; [steps | intros _; apply tryTx_offline].
  - apply Steps_bind; [steps | intros _; apply tryTx_offline].
Qed.

Lemma relayStale_offline (w : World) (pw : PriceWorld) (ts : list Target) :
  forall opts errs, Steps Offline (relayStale w pw ts opts errs).
Proof.
  induction ts as [| t rest IH]; intros opts errs; simpl; [steps |].
  destruct (stale pw t); [| apply IH].
  apply Steps_bind; [apply update_offline | intros r; apply IH].
Qed.

Lemma updateL2Prices_offline (w : World) (pw : PriceWorld) (st : state.NetworkState) :
  Steps Offline (updateL2Prices w pw st).
Proof.
  unfold updateL2Prices.
  destruct (errors.Join _); [steps |].
  destruct (forallb _ _); [steps |].
  destruct (GetTransactor (txl w)) as [opts | err]; [| steps].
  destruct (StaleQuery pw); [steps |].
  destruct (negb _); [steps |].
  destruct (_ =? 0); [steps |].
  destruct (_ =? _); [| steps].
  apply Steps_bind; [apply relayStale_offline | intros errs; steps].
Qed.

Lemma submitRplPrice_offline (w : World) (pw : PriceWorld) (blockNumber rplPrice : Z) :
  Steps Offline (submitRplPrice w pw blockNumber rplPrice).
Proof.
  unfold submitRplPrice.
  apply Steps_bind; [steps | intros _].
  destruct (GetTransactor (txl w)) as [opts | err]; [| steps].
  destruct (NewNetworkManager pw); [steps |].
  apply Steps_bind; [apply tryTx_offline | intros r; steps].
Qed.

Lemma priceReportRoutine_offline (w : World) (pw : PriceWorld) (blockNumber : Z) :
  Steps Offline (priceReportRoutine w pw blockNumber).
Proof.
  unfold priceReportRoutine, handleError.
  do 3 (apply Steps_bind; [steps | intros _]).
  destruct (getRplTwap pw blockNumber) as [rplPrice | err]; [| steps].
  apply Steps_bind; [steps | intros _].
  apply Steps_bind; [steps | intros [[|] [err |]]]; try solve [steps].
  apply Steps_bind; [steps | intros [hasSubmitted [err |]]]; [steps |].
  apply Steps_bind; [steps | intros _].
  apply Steps_bind; [steps | intros _].
  apply Steps_bind; [apply submitRplPrice_offline | intros [err |]]; steps.
Qed.

Lemma Run_offline (w : World) (pw : PriceWorld) (st : state.NetworkState) :
  Steps Offline (Run w pw st).
Proof.
  unfold Run.
  destruct (negb _); [steps |].
  apply Steps_bind; [apply updateL2Prices_offline | intros relayErr].
  apply Steps_bind; [steps | intros _].
  apply Steps_bind; [steps | intros _].
  destruct (_ <=? _); [steps |].
  destruct (HeaderByNumber w _) as [header | err]; [| steps].
  destruct (_ =? 0); [steps |].
  destruct (_ =? 0); [steps |].
  destruct (beacon.GetBeaconHead (bc w)) as [head | err]; [| steps].
  destruct (_ <? _); [steps |].
  apply Steps_bind.
  { unfold checkRunning. apply Steps_act; [| intros x; constructor].
    intros s. destruct (isRunning s); offline_step. }
  intros [|]; [steps |].
  apply Steps_go; [apply priceReportRoutine_offline | steps].
Qed.

End OfflineFacts.

(** X10.  The price task works on chain only: however many calls of its
    [Run] and their goroutines are interleaved, with the relays to the
    five L2 networks and the price submission among their steps, no
    file is created, changed or removed and nothing is uploaded. *)
Theorem price_task_leaves_files (w : World) (pw : PriceWorld) (calls : list state.NetworkState)
    (schedule : list nat) (s : Shared) :
  match Sched.exec schedule (priceCalls w pw calls s) with
  | Some sys =>
      files (Sched.shared sys) = files s
      /\ uploads (trace (Sched.shared sys)) = uploads (trace s)
  | None => True
  end.
Proof.
  destruct (Sched.exec schedule (priceCalls w pw calls s)) as [sys |] eqn:Hexec; [| exact I].
  destruct (StepsFacts.exec_Steps Offline OfflineFacts.Offline_refl OfflineFacts.Offline_trans
              schedule (priceCalls w pw calls s) sys) as (Hoffline & _);
    [| exact Hexec | exact Hoffline].
  simpl. apply Forall_fmap, Forall_forall. intros st _. simpl.
  apply OfflineFacts.Run_offline.
Qed.

(** ** What is sent *)

Module SendFacts.
Import GoInt GoTime SubmitRplPrice.

(** [tryTx] simulates once; if it sends, the simulation gave this
    transaction without an error, the checks passed, and the result
    carries the options sent and the error of the wait. *)
Lemma tryTx_trace (w : World) (call : tx.Call) (opts : tx.TransactOpts)
    (getFailed simFailed line : string) (s : Shared) :
  let '(s', r, gs) := run (tryTx w call opts getFailed simFailed (log line)) s in
  exists evs,
    trace s' = trace s ++ EvSimulate call opts :: evs
    /\ (length (sends evs) <= 1)%nat
    /\ (GetTxInfo (txl w) call opts = (None, None) \/
        exists opts1 e, r = Done (opts1, e) /\ (sends evs = [] -> opts1 = opts))
    /\ forall call' info opts',
         In (EvSend call' info opts') evs ->
         call' = call
         /\ GetTxInfo (txl w) call opts = (Some info, None)
         /\ cleared (txl w) info opts opts'
         /\ r = Done (opts', PrintAndWaitForTransaction (txl w) info opts').
Proof.
  unfold tryTx, txflow.simulate, txflow.checkAndSend. cbn.
  destruct (GetTxInfo (txl w) call opts) as [[info |] [err |]] eqn:Hinfo; cbn.
  1, 3, 4: exists []; (split; [reflexivity |]); (split; [simpl; lia |]);
           (split; [eauto |]); intros ? ? ? [].
  destruct (String.eqb (tx.SimError info) "") eqn:Hsim; cbn.
  2: { exists []. split; [reflexivity |]. split; [simpl; lia |]. split; [eauto |].
       intros ? ? ? []. }
  destruct (PrintAndCheckGasInfo (txl w) (tx.GasInfo_ info) (maxFee (txl w))) eqn:Hgas; cbn.
  2: { exists []. split; [reflexivity |]. split; [simpl; lia |]. split; [eauto |].
       intros ? ? ? []. }
  apply String.eqb_eq in Hsim.
  assert (Hcleared : cleared (txl w) info opts (txflow.withGas (txl w) info opts))
    by (unfold cleared; simpl; auto 10).
  destruct (PrintAndWaitForTransaction (txl w) info (txflow.withGas (txl w) info opts))
    as [e |] eqn:Hwait; cbn.
  - exists [EvSend call info (txflow.withGas (txl w) info opts)].
    split; [rewrite <- !app_assoc; reflexivity |]. split; [simpl; lia |].
    split; [right; eexists _, _; split; [reflexivity | discriminate] |].
    intros call' info' opts' [[= <- <- <-] | []]. rewrite Hwait. auto.
  - exists [EvSend call info (txflow.withGas (txl w) info opts); EvLog line].
    split; [rewrite <- !app_assoc; reflexivity |]. split; [simpl; lia |].
    split; [right; eexists _, _; split; [reflexivity | discriminate] |].
    intros call' info' opts' [[= <- <- <-] | [[=] | []]]. rewrite Hwait. auto.
Qed.

End SendFacts.

(** X11.  [submitRplPrice] sends at most one transaction, the [SubmitPrices]
    call for the block and the price it was given, and only one that
    the simulation returned without an error, with an empty simulation
    error and accepted by the gas check; it is sent with the fee cap,
    the tip and the safe gas limit set, and the result of the function
    is the result of waiting for it.  When the gas check refuses,
    nothing is sent and the function returns nil all the same. *)
Theorem submitRplPrice_sends_checked (w : World) (pw : PriceWorld) (blockNumber rplPrice : Z)
    (s : Shared) :
  let '(s', r, gs) := run (SubmitRplPrice.submitRplPrice w pw blockNumber rplPrice) s in
  exists evs,
    trace s' = trace s ++ evs
    /\ (length (sends evs) <= 1)%nat
    /\ (forall call info opts',
          In (EvSend call info opts') evs ->
          call = tx.SubmitPrices blockNumber rplPrice
          /\ NewNetworkManager pw = None
          /\ r = Done (PrintAndWaitForTransaction (txl w) info opts')
          /\ exists opts,
               GetTransactor (txl w) = Success opts
               /\ GetTxInfo (txl w) call opts = (Some info, None)
               /\ cleared (txl w) info opts opts')
    /\ (forall opts info,
          GetTransactor (txl w) = Success opts ->
          NewNetworkManager pw = None ->
          GetTxInfo (txl w) (tx.SubmitPrices blockNumber rplPrice) opts = (Some info, None) ->
          tx.SimError info = ""%string ->
          PrintAndCheckGasInfo (txl w) (tx.GasInfo_ info) (maxFee (txl w)) = false ->
          r = Done None /\ sends evs = []).
Proof.
  unfold SubmitRplPrice.submitRplPrice, SubmitRplPrice.tryTx, txflow.simulate,
    txflow.checkAndSend.
  destruct (GetTransactor (txl w)) as [opts | err] eqn:Hopts.
  2: { cbn. eexists. split; [reflexivity |]. split; [simpl; lia |].
       split; [intros ? ? ? [[=] | []] | intros ? ? [=]]. }
  destruct (NewNetworkManager pw) as [err |] eqn:Hmanager.
  1: { cbn. eexists. split; [reflexivity |]. split; [simpl; lia |].
       split; [intros ? ? ? [[=] | []] | intros ? ? _ [=]]. }
  cbn.
  destruct (GetTxInfo (txl w) (tx.SubmitPrices blockNumber rplPrice) opts)
    as [[info |] [err |]] eqn:Hinfo; cbn.
  1, 3, 4: eexists; (split; [rewrite <- app_assoc; reflexivity |]); (split; [simpl; lia |]);
           (split; [intros ? ? ? [[=] | [[=] | []]]
                   | intros ? ? [= <-] _ Hinfo'; rewrite Hinfo in Hinfo'; discriminate]).
  destruct (String.eqb (tx.SimError info) "") eqn:Hsim; cbn.
  2: { eexists. split; [rewrite <- app_assoc; reflexivity |]. split; [simpl; lia |].
       split; [intros ? ? ? [[=] | [[=] | []]] |].
       intros ? ? [= <-] _ Hinfo' Hsim'. rewrite Hinfo in Hinfo'. injection Hinfo' as <-.
       apply String.eqb_neq in Hsim. contradiction. }
  apply String.eqb_eq in Hsim.
  destruct (PrintAndCheckGasInfo (txl w) (tx.GasInfo_ info) (maxFee (txl w))) eqn:Hgas; cbn.
  2: { eexists. split; [rewrite <- app_assoc; reflexivity |]. split; [simpl; lia |].
       split; [intros ? ? ? [[=] | [[=] | []]] |].
       intros ? ? _ _ _ _ _. split; reflexivity. }
  assert (Hcleared : cleared (txl w) info opts (txflow.withGas (txl w) info opts))
    by (unfold cleared; simpl; auto 10).
  destruct (PrintAndWaitForTransaction (txl w) info (txflow.withGas (txl w) info opts))
    as [e |] eqn:Hwait; cbn.
  - eexists. split; [rewrite <- !app_assoc; reflexivity |]. split; [simpl; lia |]. split.
    + intros call info' opts' [[=] | [[=] | [[= <- <- <-] | []]]].
      rewrite Hwait. split; [reflexivity |]. split; [reflexivity |]. split; [reflexivity |].
      exists opts. auto.
    + intros ? ? [= <-] _ Hinfo' _ Hgas'. rewrite Hinfo in Hinfo'. injection Hinfo' as <-.
      congruence.
  - eexists. split; [rewrite <- !app_assoc; reflexivity |]. split; [simpl; lia |]. split.
    + intros call info' opts' [[=] | [[=] | [[= <- <- <-] | [[=] | []]]]].
      rewrite Hwait. split; [reflexivity |]. split; [reflexivity |]. split; [reflexivity |].
      exists opts. auto.
    + intros ? ? [= <-] _ Hinfo' _ Hgas'. rewrite Hinfo in Hinfo'. injection Hinfo' as <-.
      congruence.
Qed.

(** X12.  Each of the five update functions sends at most one transaction:
    the call of its own messenger, simulated by the same function
    without an error, with an empty simulation error and accepted by
    the gas check, from the sender of the options it was given; the
    options it returns are the options sent.  An Arbitrum transaction
    carries its maximum submission cost plus its gas limit times its
    maximum fee per gas; a zkSync Era transaction carries its L2 gas
    limit times a gas price that is at least the fair L2 gas price and
    pays 17 units of the maximum fee for each of the 800 gas per pubdata
    byte; the other three carry the value the options already had. *)
Theorem update_sends_checked (w : World) (pw : PriceWorld) (t : Target)
    (opts : tx.TransactOpts) (s : Shared) :
  let '(s', r, gs) := run (SubmitRplPrice.update w pw t opts) s in
  exists evs,
    trace s' = trace s ++ evs
    /\ (length (sends evs) <= 1)%nat
    /\ forall call info opts',
         In (EvSend call info opts') evs ->
         relayOf call = Some t
         /\ (exists simOpts,
               In (EvSimulate call simOpts) evs
               /\ GetTxInfo (txl w) call simOpts = (Some info, None)
               /\ cleared (txl w) info simOpts opts'
               /\ tx.From simOpts = tx.From opts)
         /\ r = Done (opts', PrintAndWaitForTransaction (txl w) info opts')
         /\ match call with
            | tx.ArbitrumSubmitRate maxSubmissionCost gasLimit maxFeePerGas =>
                tx.Value opts' = gasLimit * maxFeePerGas + maxSubmissionCost
            | tx.ZkSyncEraSubmitRate l2GasLimit gasPerPubdataByte =>
                exists gasPrice,
                  tx.Value opts' = l2GasLimit * gasPrice
                  /\ fairL2GasPrice pw <= gasPrice
                  /\ 17 * maxFee (txl w) <= gasPerPubdataByte * gasPrice
            | _ => tx.Value opts' = tx.Value opts
            end.
Proof.
  destruct t; unfold SubmitRplPrice.update, SubmitRplPrice.updateOptimism,
    SubmitRplPrice.updatePolygon, SubmitRplPrice.updateArbitrum,
    SubmitRplPrice.updateZkSyncEra, SubmitRplPrice.updateBase;
    rewrite run_bind;
    cbn -[SubmitRplPrice.tryTx Z.mul Z.add Z.div Z.sub Z.ltb];
    try (destruct (GetMaxFeeWeiForDaemon pw) as [suggestedMaxFee | err];
         [| cbn; eexists; split; [reflexivity |]; split; [simpl; lia |];
            intros ? ? ? [[=] | []]]).
  all: match goal with
       | |- context [run (SubmitRplPrice.tryTx ?w0 ?c ?o ?g ?f (log ?l)) ?s0] =>
           pose proof (SendFacts.tryTx_trace w0 c o g f l s0) as Htry;
           destruct (run (SubmitRplPrice.tryTx w0 c o g f (log l)) s0) as [[s2 r2] gs2]
       end;
       destruct Htry as (evs & Htrace & Hone & _ & Hsent);
       eexists; (split; [rewrite Htrace; cbn; rewrite <- app_assoc; reflexivity |]);
       (split; [exact Hone |]);
       intros call info opts' [[=] | [[=] | Hin]];
       destruct (Hsent call info opts' Hin) as (-> & Hinfo & Hcleared & ->);
       (split; [reflexivity |]);
       (split; [eexists; split; [right; left; reflexivity |];
                split; [exact Hinfo |]; split; [exact Hcleared | reflexivity] |]);
       (split; [reflexivity |]);
       destruct Hcleared as (_ & _ & _ & Hvalue & _); rewrite Hvalue; cbn -[Z.mul Z.add Z.div Z.ltb].
  - reflexivity.
  - reflexivity.
  - lia.
  - set (minL2GasPrice := (17 * maxFee (txl w) + 800 - 1) / 800).
    assert (Hmin : 17 * maxFee (txl w) <= 800 * minL2GasPrice).
    { subst minL2GasPrice. pose proof (Z.mod_pos_bound (17 * maxFee (txl w) + 800 - 1) 800).
      pose proof (Z.div_mod (17 * maxFee (txl w) + 800 - 1) 800). lia. }
    destruct (fairL2GasPrice pw <? minL2GasPrice) eqn:Hfair.
    + exists minL2GasPrice. apply Z.ltb_lt in Hfair. split; [reflexivity |]. lia.
    + exists (fairL2GasPrice pw). apply Z.ltb_ge in Hfair. split; [reflexivity |]. lia.
  - reflexivity.
Qed.

(** X13.  [submitRewardsSnapshot] sends at most one transaction: the
    submission of the index, the two blocks, the hash of the decoded
    Merkle root, the CID and the intervals it was given, with an empty
    simulation error and accepted by the gas check, and its result is
    the result of waiting for it.  The transaction is the one the
    simulation returned without an error, or, when submission after
    consensus is enabled and the simulation failed because the period
    is over, the transaction of the failed simulation with both gas
    limits replaced by the forced gas. *)
Theorem submitRewardsSnapshot_sends_checked (w : World) (index consensusBlock executionBlock : Z)
    (rewardsFileHeader : rprewards.RewardsFileHeader) (cid : string) (intervalsPassed : Z)
    (s : Shared) :
  let '(s', r, gs) :=
    run (SubmitRewardsTree.submitRewardsSnapshot w index consensusBlock executionBlock
           rewardsFileHeader cid intervalsPassed) s in
  exists evs,
    trace s' = trace s ++ evs
    /\ (length (sends evs) <= 1)%nat
    /\ forall call info opts',
         In (EvSend call info opts') evs ->
         exists treeRootBytes opts,
           DecodeMerkleRoot (gen w) (rprewards.MerkleRoot rewardsFileHeader)
             = Success treeRootBytes
           /\ GetTransactor (txl w) = Success opts
           /\ call = tx.SubmitRewardSnapshot
                       {| tx.RewardIndex := index;
                          tx.ExecutionBlock := executionBlock;
                          tx.ConsensusBlock := consensusBlock;
                          tx.MerkleRoot := SubmitRewardsTree.BytesToHash treeRootBytes;
                          tx.MerkleTreeCID := cid;
                          tx.IntervalsPassed := intervalsPassed |}
           /\ cleared (txl w) info opts opts'
           /\ r = Done (PrintAndWaitForTransaction (txl w) info opts')
           /\ (GetTxInfo (txl w) call opts = (Some info, None)
               \/ exists simulated err,
                    GetTxInfo (txl w) call opts = (Some simulated, Some err)
                    /\ enableSubmissionAfterConsensus_RewardsTree w = true
                    /\ IsNextPeriodRevert w err = true
                    /\ tx.SimError info = tx.SimError simulated
                    /\ tx.EstGasLimit (tx.GasInfo_ info) = RewardsSubmissionForcedGas w
                    /\ tx.SafeGasLimit (tx.GasInfo_ info) = RewardsSubmissionForcedGas w).
Proof.
  unfold SubmitRewardsTree.submitRewardsSnapshot, txflow.simulate, txflow.checkAndSend.
  destruct (DecodeMerkleRoot (gen w) (rprewards.MerkleRoot rewardsFileHeader))
    as [treeRootBytes | err] eqn:Hroot.
  2: { cbn. exists []. split; [rewrite app_nil_r; reflexivity |]. split; [simpl; lia |].
       intros ? ? ? []. }
  destruct (GetTransactor (txl w)) as [opts | err] eqn:Hopts.
  2: { cbn. exists []. split; [rewrite app_nil_r; reflexivity |]. split; [simpl; lia |].
       intros ? ? ? []. }
  cbn.
  set (call := tx.SubmitRewardSnapshot _).
  destruct (GetTxInfo (txl w) call opts) as [[simulated |] [err |]] eqn:Hinfo; cbn.
  3: destruct (enableSubmissionAfterConsensus_RewardsTree w && IsNextPeriodRevert w err);
     cbn.
  3-5: eexists; (split; [reflexivity |]); (split; [simpl; lia |]);
       intros ? ? ? [[=] | []].
  - destruct (enableSubmissionAfterConsensus_RewardsTree w) eqn:Henable; cbn.
    2: { eexists. split; [reflexivity |]. split; [simpl; lia |]. intros ? ? ? [[=] | []]. }
    destruct (IsNextPeriodRevert w err) eqn:Hrevert; cbn.
    2: { eexists. split; [reflexivity |]. split; [simpl; lia |]. intros ? ? ? [[=] | []]. }
    destruct (String.eqb (tx.SimError simulated) "") eqn:Hsim; cbn.
    2: { eexists. split; [rewrite <- !app_assoc; reflexivity |]. split; [simpl; lia |].
         intros ? ? ? [[=] | [[=] | []]]. }
    apply String.eqb_eq in Hsim.
    destruct (PrintAndCheckGasInfo (txl w) _ (maxFee (txl w))) eqn:Hgas; cbn.
    2: { eexists. split; [rewrite <- !app_assoc; reflexivity |]. split; [simpl; lia |].
         intros ? ? ? [[=] | [[=] | []]]. }
    match goal with
    | |- context [PrintAndWaitForTransaction (txl w) ?i ?o] =>
        assert (Hcleared : cleared (txl w) i opts o)
          by (unfold cleared; simpl; auto 10);
        destruct (PrintAndWaitForTransaction (txl w) i o) as [e |] eqn:Hwait; cbn
    end.
    all: eexists; (split; [rewrite <- !app_assoc; reflexivity |]); (split; [simpl; lia |]);
         intros call' info' opts' Hin; simpl in Hin;
         destruct Hin as [[=] | [[=] | [[= <- <- <-] | []]]];
         exists treeRootBytes, opts; rewrite Hwait;
         repeat (split; [first [reflexivity | assumption] |]);
         right; exists simulated, err; auto 10.
  - destruct (String.eqb (tx.SimError simulated) "") eqn:Hsim; cbn.
    2: { eexists. split; [reflexivity |]. split; [simpl; lia |].
         intros ? ? ? [[=] | []]. }
    apply String.eqb_eq in Hsim.
    destruct (PrintAndCheckGasInfo (txl w) _ (maxFee (txl w))) eqn:Hgas; cbn.
    2: { eexists. split; [reflexivity |]. split; [simpl; lia |].
         intros ? ? ? [[=] | []]. }
    assert (Hcleared : cleared (txl w) simulated opts (txflow.withGas (txl w) simulated opts))
      by (unfold cleared; simpl; auto 10).
    destruct (PrintAndWaitForTransaction (txl w) simulated _) as [e |] eqn:Hwait; cbn.
    all: eexists; (split; [rewrite <- !app_assoc; reflexivity |]); (split; [simpl; lia |]);
         intros call' info' opts' Hin; simpl in Hin;
         destruct Hin as [[=] | [[= <- <- <-] | []]];
         exists treeRootBytes, opts; rewrite Hwait;
         repeat (split; [first [reflexivity | assumption] |]);
         left; assumption.
Qed.

(** ** What the backward walk returns *)

Module WalkFacts.
Import GoInt.

Lemma u64_pred (targetSlot : Z) (j : nat) :
  u64 (u64 (targetSlot - 1) - Z.of_nat j) = u64 (targetSlot - Z.of_nat (S j)).
Proof.
  unfold u64. rewrite Zminus_mod_idemp_l. f_equal. lia.
Qed.

End WalkFacts.

(** X14.  Whatever the loop "Get the first successful block" returns, it
    returns after some number [k] of missed slots, each logged, at the
    first slot at or before the target, counting down modulo 2^64, that
    is not missed: with the slot and its execution block when a block
    was proposed there, and with zeros and the wrapped error when the
    lookup failed.  Below slot 0 the walk goes on at slot 2^64 - 1. *)
Theorem firstProposedBlock_sound (client : beacon.Client) (fuel : nat) (targetSlot : Z)
    (logs : list Event) (slot elBlock : Z) (err : option error) :
  GoInt.is_u64 targetSlot ->
  SubmitRewardsTree.firstProposedBlock client fuel targetSlot
  = (logs, Done (slot, elBlock, err)) ->
  exists k : nat,
    (k < fuel)%nat
    /\ logs = repeat Stated.missedLine k
    /\ (forall j : nat,
          (j < k)%nat ->
          beacon.GetBeaconBlock client (GoInt.u64 (targetSlot - Z.of_nat j)) = beacon.Missing)
    /\ match beacon.GetBeaconBlock client (GoInt.u64 (targetSlot - Z.of_nat k)) with
       | beacon.Proposed b =>
           slot = GoInt.u64 (targetSlot - Z.of_nat k)
           /\ elBlock = beacon.ExecutionBlockNumber b
           /\ err = None
       | beacon.LookupError e =>
           slot = 0 /\ elBlock = 0
           /\ err = Some (ErrWrap "error getting Beacon block %d" e)
       | beacon.Missing => False
       end.
Proof.
  revert targetSlot logs.
  induction fuel as [| fuel IH]; intros targetSlot logs Hrange; simpl; [discriminate |].
  assert (Hzero : GoInt.u64 (targetSlot - Z.of_nat 0) = targetSlot).
  { simpl. rewrite Z.sub_0_r. apply GoFacts.u64_id. exact Hrange. }
  destruct (beacon.GetBeaconBlock client targetSlot) as [e | | b] eqn:Hlookup.
  - intros [= <- <- <- <-]. exists 0%nat.
    split; [lia |]. split; [reflexivity |]. split; [intros j Hj; lia |].
    rewrite Hzero, Hlookup. auto.
  - destruct (SubmitRewardsTree.firstProposedBlock client fuel (GoInt.u64 (targetSlot - 1)))
      as [logs' r'] eqn:Hrest.
    intros [= <- ->].
    destruct (IH (GoInt.u64 (targetSlot - 1)) logs' (GoFacts.u64_range _) Hrest)
      as (k & Hk & -> & Hmissed & Hstop).
    exists (S k). split; [lia |]. split; [reflexivity |]. split.
    + intros [| j] Hj; [rewrite Hzero; exact Hlookup |].
      rewrite <- WalkFacts.u64_pred. apply Hmissed. lia.
    + rewrite <- WalkFacts.u64_pred. exact Hstop.
  - intros [= <- <- <- <-]. exists 0%nat.
    split; [lia |]. split; [reflexivity |]. split; [intros j Hj; lia |].
    rewrite Hzero, Hlookup. auto.
Qed.

(** The walk from slot 351 of the example network. *)
Lemma firstProposedBlock_sound_witness :
  exists k : nat,
    (k < 3)%nat
    /\ [Stated.missedLine; Stated.missedLine] = repeat Stated.missedLine k
    /\ (forall j : nat,
          (j < k)%nat ->
          beacon.GetBeaconBlock (Example.client 11) (GoInt.u64 (351 - Z.of_nat j))
          = beacon.Missing)
    /\ match beacon.GetBeaconBlock (Example.client 11) (GoInt.u64 (351 - Z.of_nat k)) with
       | beacon.Proposed b =>
           349 = GoInt.u64 (351 - Z.of_nat k)
           /\ 5349 = beacon.ExecutionBlockNumber b
           /\ @None error = None
       | beacon.LookupError e =>
           349 = 0 /\ 5349 = 0
           /\ None = Some (ErrWrap "error getting Beacon block %d" e)
       | beacon.Missing => False
       end.
Proof.
  apply (firstProposedBlock_sound (Example.client 11) 3 351
           [Stated.missedLine; Stated.missedLine] 349 5349 None).
  - unfold GoInt.is_u64. vm_compute. split; [discriminate | reflexivity].
  - vm_compute. reflexivity.
Defined.

(** ** The price arithmetic *)

Module TwapFacts.
Import Twap.

Lemma Div_pos (x y : Z) : 0 < y -> Div x y = Done (x / y).
Proof.
  intros Hy. unfold Div. destruct (Z.eqb_spec y 0) as [E | _]; [lia |].
  rewrite Z.sgn_pos, Z.abs_eq by lia. f_equal. lia.
Qed.

(** The tick of a pair of cumulatives. *)
Lemma tick_nonpositive (c0 c1 : Z) :
  (c1 - c0) / twapNumberOfSeconds <= 0 <-> c1 - c0 < twapNumberOfSeconds.
Proof.
  unfold twapNumberOfSeconds. change (60 * 60 * 12) with 43200.
  pose proof (Z.div_mod (c1 - c0) 43200). pose proof (Z.mod_pos_bound (c1 - c0) 43200). lia.
Qed.

(** The quotient the price is divided by, for a positive tick. *)
Lemma ratio_lower (base one tick : Z) :
  0 < one <= base -> 0 < tick -> one <= base ^ tick * one / one ^ tick.
Proof.
  intros Hone Htick.
  assert (0 < one ^ tick) by (apply Z.pow_pos_nonneg; lia).
  apply Z.div_le_lower_bound; [assumption |].
  apply Z.mul_le_mono_nonneg_r; [lia |].
  apply Z.pow_le_mono_l. lia.
Qed.

(** Floors of fractions compare as the fractions do. *)
Lemma div_le_cross (a1 b1 a2 b2 : Z) :
  0 < b1 -> 0 < b2 -> a1 * b2 <= a2 * b1 -> a1 / b1 <= a2 / b2.
Proof.
  intros H1 H2 Hcross. apply Z.div_le_lower_bound; [assumption |].
  pose proof (Z.mul_div_le a1 b1 H1) as Hfloor.
  assert (b1 * (b2 * (a1 / b1)) <= b1 * a2) by nia.
  apply Z.mul_le_mono_pos_l with (p := b1); assumption.
Qed.

Lemma ratio_mono (base one t1 t2 : Z) :
  0 < one <= base -> 0 < t1 <= t2 ->
  base ^ t1 * one / one ^ t1 <= base ^ t2 * one / one ^ t2.
Proof.
  intros Hone Ht.
  assert (0 < one ^ t1) by (apply Z.pow_pos_nonneg; lia).
  assert (0 < one ^ t2) by (apply Z.pow_pos_nonneg; lia).
  apply div_le_cross; [assumption | assumption |].
  replace t2 with (t1 + (t2 - t1)) by lia.
  rewrite !Z.pow_add_r by lia.
  assert (Hd : one ^ (t2 - t1) <= base ^ (t2 - t1)) by (apply Z.pow_le_mono_l; lia).
  assert (0 <= base ^ t1) by (apply Z.pow_nonneg; lia).
  assert (0 <= base ^ t1 * one * one ^ t1) by nia.
  replace (base ^ t1 * one * (one ^ t1 * one ^ (t2 - t1)))
    with (base ^ t1 * one * one ^ t1 * one ^ (t2 - t1)) by ring.
  replace (base ^ t1 * base ^ (t2 - t1) * one * one ^ t1)
    with (base ^ t1 * one * one ^ t1 * base ^ (t2 - t1)) by ring.
  apply Z.mul_le_mono_nonneg_l; assumption.
Qed.

(** The price as a function of the tick. *)
Lemma rplPrice_of_tick (base one c0 c1 : Z) (rest : list Z) :
  0 < one <= base ->
  let tick := (c1 - c0) / twapNumberOfSeconds in
  rplPrice base one (c0 :: c1 :: rest)
  = Done (if tick <=? 0 then one else one * one / (base ^ tick * one / one ^ tick)).
Proof.
  intros Hone tick. unfold rplPrice. simpl lookup. cbv iota.
  rewrite Div_pos by reflexivity. fold tick. unfold Exp.
  destruct (Z.leb_spec tick 0) as [Hle | Hgt].
  - rewrite Z.mul_1_l, Div_pos by lia. rewrite Z.div_1_r.
    rewrite Div_pos by lia. f_equal. apply Z.div_mul. lia.
  - assert (0 < one ^ tick) by (apply Z.pow_pos_nonneg; lia).
    rewrite Div_pos by assumption.
    pose proof (ratio_lower base one tick Hone Hgt).
    rewrite Div_pos by lia. reflexivity.
Qed.

End TwapFacts.

(** X15.  With [one] positive and [base] at least [one], and with the two
    cumulatives [observe] returns, the arithmetic of [getRplTwap]
    never divides by zero, and the price lies between 0 and [one].
    When the later cumulative exceeds the earlier one by less than the
    [twapNumberOfSeconds] of the window (a tick of zero or below), the
    price is exactly [one]: [Exp] with an exponent that is not positive
    gives 1. *)
Theorem rplPrice_bounds (base one c0 c1 : Z) (rest : list Z) :
  0 < one <= base ->
  exists price,
    Twap.rplPrice base one (c0 :: c1 :: rest) = Done price
    /\ 0 <= price <= one
    /\ (c1 - c0 < Twap.twapNumberOfSeconds -> price = one).
Proof.
  intros Hone. eexists. split; [apply TwapFacts.rplPrice_of_tick; exact Hone |].
  pose proof (TwapFacts.tick_nonpositive c0 c1) as Htick.
  destruct (Z.leb_spec ((c1 - c0) / Twap.twapNumberOfSeconds) 0) as [Hle | Hgt].
  - split; [lia | reflexivity].
  - pose proof (TwapFacts.ratio_lower base one _ Hone Hgt) as Hratio.
    split; [| lia]. split.
    + apply Z.div_pos; nia.
    + apply Z.div_le_upper_bound; [lia |]. nia.
Qed.

(** A tick of 100 with 18 decimals. *)
Lemma rplPrice_bounds_witness :
  exists price,
    Twap.rplPrice 1000100000000000000 1000000000000000000 [0; 4320000] = Done price
    /\ 0 <= price <= 1000000000000000000
    /\ (4320000 - 0 < Twap.twapNumberOfSeconds -> price = 1000000000000000000).
Proof.
  apply (rplPrice_bounds 1000100000000000000 1000000000000000000 0 4320000 []). lia.
Defined.

(** X16.  The price does not grow with the tick: of two observations, the
    one whose cumulatives are further apart gives a price that is at
    most the other's. *)
Theorem rplPrice_antitone (base one c0 c1 d0 d1 : Z) (rest rest' : list Z) (p q : Z) :
  0 < one <= base ->
  c1 - c0 <= d1 - d0 ->
  Twap.rplPrice base one (c0 :: c1 :: rest) = Done p ->
  Twap.rplPrice base one (d0 :: d1 :: rest') = Done q ->
  q <= p.
Proof.
  intros Hone Hle.
  rewrite !TwapFacts.rplPrice_of_tick by exact Hone.
  intros [= <-] [= <-].
  assert (Hticks : (c1 - c0) / Twap.twapNumberOfSeconds <= (d1 - d0) / Twap.twapNumberOfSeconds)
    by (apply Z.div_le_mono; [reflexivity | exact Hle]).
  destruct (Z.leb_spec ((c1 - c0) / Twap.twapNumberOfSeconds) 0) as [Hc | Hc];
    destruct (Z.leb_spec ((d1 - d0) / Twap.twapNumberOfSeconds) 0) as [Hd | Hd]; try lia.
  - pose proof (TwapFacts.ratio_lower base one _ Hone Hd).
    apply Z.div_le_upper_bound; [lia |]. nia.
  - pose proof (TwapFacts.ratio_lower base one _ Hone Hc).
    pose proof (TwapFacts.ratio_mono base one _ _ Hone (conj Hc Hticks)).
    apply Z.div_le_compat_l; [nia | lia].
Qed.

(** Ticks 100 and 200 with 18 decimals. *)
Lemma rplPrice_antitone_witness : 980199653440576966 <= 990050328741209482.
Proof.
  apply (rplPrice_antitone 1000100000000000000 1000000000000000000 0 4320000 0 8640000 [] []
           990050328741209482 980199653440576966).
  - lia.
  - lia.
  - vm_compute. reflexivity.
  - vm_compute. reflexivity.
Defined.

(** ** The per-network arrays *)

Module NetworkRewardsFacts.
Import GoInt NetworkRewards.

(** A map that holds the keys [0 .. n-1] has at least [n] entries. *)
Lemma present_le_size (rewards : gmap Z NetworkRewardsInfo) (n : nat) :
  (forall i : nat, (i < n)%nat -> is_Some (rewards !! Z.of_nat i)) ->
  (n <= size rewards)%nat.
Proof.
  intros Hpresent.
  set (l := Z.of_nat <$> seq 0 n).
  assert (Hnodup : NoDup l).
  { apply NoDup_fmap_2; [intros a b; apply Nat2Z.inj | apply NoDup_seq]. }
  assert (Hsub : (list_to_set l : gset Z) ⊆ dom rewards).
  { intros x Hx. apply elem_of_list_to_set in Hx. apply list_elem_of_fmap in Hx.
    destruct Hx as (i & -> & Hi). apply elem_of_seq in Hi.
    apply elem_of_dom. apply Hpresent. lia. }
  apply subseteq_size in Hsub.
  rewrite size_list_to_set in Hsub by exact Hnodup.
  rewrite size_dom in Hsub. subst l. rewrite length_fmap, length_seq in Hsub. exact Hsub.
Qed.

Lemma arraysUpTo_S (rewards : gmap Z NetworkRewardsInfo) (n : nat)
    (networkRewards : NetworkRewardsInfo) :
  rewards !! Z.of_nat n = Some networkRewards ->
  arraysUpTo rewards (S n) = append (arraysUpTo rewards n) networkRewards.
Proof.
  intros Hn. unfold arraysUpTo, append. cbv zeta.
  rewrite seq_S, omap_app. simpl. rewrite Hn. simpl.
  rewrite !map_app. reflexivity.
Qed.

Lemma collectFrom_contiguous (rewards : gmap Z NetworkRewardsInfo) :
  Z.of_nat (size rewards) < two64 ->
  forall (fuel n : nat),
    (forall i : nat, (i < n)%nat -> is_Some (rewards !! Z.of_nat i)) ->
    (size rewards - n < fuel)%nat ->
    exists k : nat,
      (n <= k <= size rewards)%nat
      /\ rewards !! Z.of_nat k = None
      /\ (forall i : nat, (i < k)%nat -> is_Some (rewards !! Z.of_nat i))
      /\ collectFrom rewards fuel (Z.of_nat n) (arraysUpTo rewards n)
         = Done (arraysUpTo rewards k).
Proof.
  intros Hsize. induction fuel as [| fuel IH]; intros n Hpresent Hfuel; [lia |].
  pose proof (present_le_size rewards n Hpresent) as Hn.
  simpl. destruct (rewards !! Z.of_nat n) as [networkRewards |] eqn:Hlookup.
  - assert (Hnext : forall i : nat, (i < S n)%nat -> is_Some (rewards !! Z.of_nat i)).
    { intros i Hi. destruct (Nat.eq_dec i n) as [-> | Hne].
      - rewrite Hlookup. eauto.
      - apply Hpresent. lia. }
    pose proof (present_le_size rewards (S n) Hnext) as HSn.
    replace (u64 (Z.of_nat n + 1)) with (Z.of_nat (S n))
      by (rewrite GoFacts.u64_id; [lia | unfold is_u64; lia]).
    rewrite <- (arraysUpTo_S rewards n networkRewards Hlookup).
    destruct (IH (S n) Hnext) as (k & Hk & Hnone & Hall & Hrun); [lia |].
    exists k. split; [lia |]. auto.
  - exists n. split; [lia |]. auto.
Qed.

End NetworkRewardsFacts.

(** X17.  The loop that builds the per-network arrays of a submission ends
    for every rewards map (it cannot hold all 2^64 networks), after at
    most one iteration more than the map has entries, at the first
    network [k] counted from 0 that the map does not hold; each of the
    three arrays then has the [k] amounts of the networks [0 .. k-1] in
    order.  The rewards of a network after a gap are left out. *)
Theorem collect_contiguous (rewards : gmap Z NetworkRewards.NetworkRewardsInfo) (fuel : nat) :
  Z.of_nat (size rewards) < GoInt.two64 ->
  (size rewards < fuel)%nat ->
  exists k : nat,
    (k <= size rewards)%nat
    /\ rewards !! Z.of_nat k = None
    /\ (forall i : nat, (i < k)%nat -> is_Some (rewards !! Z.of_nat i))
    /\ NetworkRewards.collect rewards fuel = Done (NetworkRewards.arraysUpTo rewards k)
    /\ length (NetworkRewards.collateralRplRewards (NetworkRewards.arraysUpTo rewards k)) = k
    /\ length (NetworkRewards.oDaoRplRewards (NetworkRewards.arraysUpTo rewards k)) = k
    /\ length (NetworkRewards.smoothingPoolEthRewards (NetworkRewards.arraysUpTo rewards k)) = k.
Proof.
  intros Hsize Hfuel.
  destruct (NetworkRewardsFacts.collectFrom_contiguous rewards Hsize fuel 0)
    as (k & Hk & Hnone & Hall & Hrun); [intros i Hi; lia | lia |].
  exists k. split; [lia |]. split; [exact Hnone |]. split; [exact Hall |].
  split; [exact Hrun |].
  assert (Hlen : length (omap (fun i : nat => rewards !! Z.of_nat i) (seq 0 k)) = k).
  { assert (Hseq : forall i, In i (seq 0 k) -> (i < k)%nat)
      by (intros i Hi; apply in_seq in Hi; lia).
    transitivity (length (seq 0 k)); [| apply length_seq].
    induction (seq 0 k) as [| i l IHl]; [reflexivity |].
    simpl. destruct (Hall i) as [r ->]; [apply Hseq; left; reflexivity |].
    simpl. f_equal. apply IHl. intros j Hj. apply Hseq. right. exact Hj. }
  unfold NetworkRewards.arraysUpTo. simpl. rewrite !length_map. auto.
Qed.

(** Rewards for networks 0, 1 and 3: the arrays hold networks 0 and 1. *)
Lemma collect_contiguous_witness :
  exists k : nat,
    (k <= size Sample.rewardsWithGap)%nat
    /\ Sample.rewardsWithGap !! Z.of_nat k = None
    /\ (forall i : nat, (i < k)%nat -> is_Some (Sample.rewardsWithGap !! Z.of_nat i))
    /\ NetworkRewards.collect Sample.rewardsWithGap 4
       = Done (NetworkRewards.arraysUpTo Sample.rewardsWithGap k)
    /\ length (NetworkRewards.collateralRplRewards
                 (NetworkRewards.arraysUpTo Sample.rewardsWithGap k)) = k
    /\ length (NetworkRewards.oDaoRplRewards
                 (NetworkRewards.arraysUpTo Sample.rewardsWithGap k)) = k
    /\ length (NetworkRewards.smoothingPoolEthRewards
                 (NetworkRewards.arraysUpTo Sample.rewardsWithGap k)) = k.
Proof.
  apply (collect_contiguous Sample.rewardsWithGap 4).
  - vm_compute. reflexivity.
  - vm_compute. lia.
Defined.

(** The arrays of the sample: network 3, after the gap, is left out. *)
Lemma collect_gap_example :
  NetworkRewards.collect Sample.rewardsWithGap 4
  = Done {| NetworkRewards.collateralRplRewards := [700; 70];
            NetworkRewards.oDaoRplRewards := [150; 15];
            NetworkRewards.smoothingPoolEthRewards := [9; 1] |}.
Proof. vm_compute. reflexivity. Qed.

(** ** The end of the elapsed intervals *)

(** X18.  With a positive interval duration and a state at or after the
    interval start (at a distance that fits a [Duration]), the end time
    [Run] computes, [startTime.Add(intervalTime * intervalsPassed)], is
    the last interval boundary at or before the state's time: a whole
    number of intervals after the start, not after the state's time, and
    less than one interval before it.  The multiplication does not
    overflow. *)
Theorem endTime_is_last_boundary (now start : GoTime.Time) (duration : GoTime.Duration) :
  0 < duration ->
  start <= now ->
  now - start <= GoTime.maxDuration ->
  exists n,
    SubmitRewardsTree.intervalsPassed now start duration = Some n
    /\ 0 <= n
    /\ GoTime.mul duration n = duration * n
    /\ let endTime := GoTime.Add start (GoTime.mul duration n) in
       endTime <= now < endTime + duration
       /\ (endTime - start) mod duration = 0.
Proof.
  intros Hd Hle Hfit.
  exists (Z.quot (GoTime.Sub now start) duration).
  split; [apply IntervalFacts.intervalsPassed_value; exact Hd |].
  assert (Hsub : GoTime.Sub now start = now - start).
  { apply GoFacts.Sub_exact.
    unfold GoInt.is_i64, GoTime.maxDuration, GoInt.minInt64, GoInt.maxInt64, GoInt.two63 in *.
    lia. }
  rewrite Hsub, Z.quot_div_nonneg by lia.
  pose proof (Z.div_pos (now - start) duration ltac:(lia) Hd) as Hn.
  pose proof (Z.mul_div_le (now - start) duration Hd) as Hfloor.
  pose proof (Z.mod_pos_bound (now - start) duration Hd) as Hmod.
  pose proof (Z.div_mod (now - start) duration ltac:(lia)) as Hdiv.
  assert (Hmul : GoTime.mul duration ((now - start) / duration)
                 = duration * ((now - start) / duration)).
  { unfold GoTime.mul. apply GoFacts.i64_id.
    unfold GoInt.is_i64, GoTime.maxDuration, GoInt.minInt64, GoInt.maxInt64, GoInt.two63 in *.
    lia. }
  split; [exact Hn |]. split; [exact Hmul |].
  cbv zeta. unfold GoTime.Add. rewrite Hmul. split; [lia |].
  replace (start + duration * ((now - start) / duration) - start)
    with (((now - start) / duration) * duration) by ring.
  apply Z.mod_mul. lia.
Qed.

(** One day and a quarter hour after the start of a one-day interval:
    the end time is one day after the start. *)
Lemma endTime_is_last_boundary_witness :
  exists n,
    SubmitRewardsTree.intervalsPassed (GoTime.Unix 1713507300) (GoTime.Unix 1713420000)
      (86400 * GoTime.Second) = Some n
    /\ 0 <= n
    /\ GoTime.mul (86400 * GoTime.Second) n = 86400 * GoTime.Second * n
    /\ let endTime := GoTime.Add (GoTime.Unix 1713420000) (GoTime.mul (86400 * GoTime.Second) n) in
       endTime <= GoTime.Unix 1713507300 < endTime + 86400 * GoTime.Second
       /\ (endTime - GoTime.Unix 1713420000) mod (86400 * GoTime.Second) = 0.
Proof.
  apply (endTime_is_last_boundary (GoTime.Unix 1713507300) (GoTime.Unix 1713420000)
           (86400 * GoTime.Second)).
  - reflexivity.
  - vm_compute. discriminate.
  - vm_compute. discriminate.
Defined.

(** ** The slot the walk starts from *)

(** X19.  Unless the multiplication wraps, the slot [getSnapshotConsensusBlock]
    starts from is the last slot of the epoch that holds the slot of the
    end time: it is at or after that slot and less than an epoch later,
    the slot after it begins an epoch, and the epoch whose finality is
    required is the one after its own. *)
Theorem targetSlot_is_last_of_epoch (w : World) (endTime : GoTime.Time)
    (st : state.NetworkState) :
  let slotsPerEpoch := beacon.SlotsPerEpoch (state.BeaconConfig st) in
  let target := SubmitRewardsTree.targetSlot w endTime st in
  0 < slotsPerEpoch ->
  SubmitRewardsTree.targetSlotEpoch w endTime st * slotsPerEpoch + (slotsPerEpoch - 1)
    < GoInt.two64 ->
  SubmitRewardsTree.rawTargetSlot w endTime st <= target
    < SubmitRewardsTree.rawTargetSlot w endTime st + slotsPerEpoch
  /\ (target + 1) mod slotsPerEpoch = 0
  /\ target / slotsPerEpoch = SubmitRewardsTree.rawTargetSlot w endTime st / slotsPerEpoch
  /\ SubmitRewardsTree.requiredEpoch w endTime st = GoInt.u64 (target / slotsPerEpoch + 1).
Proof.
  intros slotsPerEpoch target Hspe Hmax.
  pose proof (ResolverFacts.rawTargetSlot_nonneg w endTime st) as Hraw.
  set (raw := SubmitRewardsTree.rawTargetSlot w endTime st) in *.
  assert (Hepoch : SubmitRewardsTree.targetSlotEpoch w endTime st = raw / slotsPerEpoch)
    by reflexivity.
  pose proof (Z.div_pos raw slotsPerEpoch Hraw Hspe) as Hq.
  pose proof (Z.div_mod raw slotsPerEpoch ltac:(lia)) as Hdiv.
  pose proof (Z.mod_pos_bound raw slotsPerEpoch Hspe) as Hmod.
  assert (Htarget : target = raw / slotsPerEpoch * slotsPerEpoch + (slotsPerEpoch - 1)).
  { subst target. unfold SubmitRewardsTree.targetSlot. fold slotsPerEpoch. rewrite Hepoch.
    apply GoFacts.u64_id. unfold GoInt.is_u64. rewrite Hepoch in Hmax. split; [nia | exact Hmax]. }
  assert (Hsame : target / slotsPerEpoch = raw / slotsPerEpoch).
  { rewrite Htarget. rewrite Z.div_add_l by lia. rewrite (Z.div_small (slotsPerEpoch - 1)) by lia. apply Z.add_0_r. }
  split; [rewrite Htarget; nia |]. split; [| split].
  - rewrite Htarget.
    replace (raw / slotsPerEpoch * slotsPerEpoch + (slotsPerEpoch - 1) + 1)
      with ((raw / slotsPerEpoch + 1) * slotsPerEpoch) by ring.
    apply Z.mod_mul. lia.
  - exact Hsame.
  - rewrite Hsame. reflexivity.
Qed.

(** The interval of the example network ends in slot 320; the walk
    starts from slot 351. *)
Lemma targetSlot_is_last_of_epoch_witness :
  let slotsPerEpoch := beacon.SlotsPerEpoch (state.BeaconConfig Example.oneIntervalElapsed) in
  let raw :=
    SubmitRewardsTree.rawTargetSlot (Example.worldAt 11) (GoTime.Unix 4840)
      Example.oneIntervalElapsed in
  let target :=
    SubmitRewardsTree.targetSlot (Example.worldAt 11) (GoTime.Unix 4840)
      Example.oneIntervalElapsed in
  raw <= target < raw + slotsPerEpoch
  /\ (target + 1) mod slotsPerEpoch = 0
  /\ target / slotsPerEpoch = raw / slotsPerEpoch
  /\ SubmitRewardsTree.requiredEpoch (Example.worldAt 11) (GoTime.Unix 4840)
       Example.oneIntervalElapsed = GoInt.u64 (target / slotsPerEpoch + 1).
Proof.
  apply (targetSlot_is_last_of_epoch (Example.worldAt 11) (GoTime.Unix 4840)
           Example.oneIntervalElapsed).
  - reflexivity.
  - vm_compute. reflexivity.
Defined.

(** ** A call while a generation is running *)

Module BusyFacts.
Import GoInt GoTime SubmitRewardsTree.

Lemma failures_lines (es : list Event) :
  Forall (fun e => exists line, e = EvLog line) es -> failures es = [].
Proof.
  induction 1 as [| e es [line ->] _ IH]; [reflexivity |].
  unfold failures in *. simpl. exact IH.
Qed.

Ltac unchanged :=
  cbn; rewrite ?PriceFacts.submissions_app, ?PriceFacts.failures_app, ?StepsFacts.uploads_app;
  cbn; rewrite ?app_nil_r; auto 10.

Lemma Run_checkpoint_untouched (w : World) (fuel : nat) (nodeTrusted : bool)
    (st : state.NetworkState) (s : Shared) :
  isRunning s = true ->
  let '(s', r, gs) := run (Run_checkpoint w fuel nodeTrusted st) s in
  gs = [] /\ files s' = files s /\ isRunning s' = true
  /\ submissions (trace s') = submissions (trace s)
  /\ uploads (trace s') = uploads (trace s)
  /\ failures (trace s') = failures (trace s).
Proof.
  intros Hbusy. unfold Run_checkpoint.
  destruct (intervalsPassed _ _ _) as [n |]; [| unchanged].
  destruct (n =? 0); [unchanged |].
  pose proof (ObserverFacts.getSnapshotConsensusBlock_lines w fuel
                (Add (state.IntervalStart (state.NetworkDetails st))
                   (mul (state.IntervalDuration (state.NetworkDetails st)) n)) st) as Hlines.
  destruct (getSnapshotConsensusBlock w fuel _ st) as [logs resolved].
  simpl in Hlines.
  destruct (ObserverFacts.lines_only logs Hlines) as [Hsub Hup].
  pose proof (failures_lines logs Hlines) as Hfail.
  destruct resolved as [[[slot block] [err |]] | msg |];
    try (cbn; rewrite ?PriceFacts.submissions_app, ?PriceFacts.failures_app,
           ?StepsFacts.uploads_app, ?Hsub, ?Hup, ?Hfail; cbn; rewrite ?app_nil_r; auto 10; fail).
  destruct (HeaderByNumber w (i64 block)) as [hdr | err] eqn:Hhdr.
  2: { cbn. rewrite Hhdr. cbn.
       rewrite ?PriceFacts.submissions_app, ?PriceFacts.failures_app,
         ?StepsFacts.uploads_app, ?Hsub, ?Hup, ?Hfail; cbn; rewrite ?app_nil_r; auto 10. }
  cbn -[Run_work]. rewrite Hhdr. cbn -[Run_work]. rewrite Hbusy.
  cbn. rewrite ?PriceFacts.submissions_app, ?PriceFacts.failures_app,
         ?StepsFacts.uploads_app, ?Hsub, ?Hup, ?Hfail; cbn; rewrite ?app_nil_r; auto 10.
Qed.

End BusyFacts.

(** X20.  A call of the rewards task's [Run] that finds [isRunning] set, on
    an oracle node or not, returns without starting a goroutine: the
    flag stays set, no file changes, no transaction is built or sent,
    nothing is uploaded and no failure is reported, whatever the call
    returns. *)
Theorem busy_call_starts_nothing (w : World) (fuel : nat) (nodeTrusted : bool)
    (st : state.NetworkState) (beaconSlot : Z) (s : Shared) :
  isRunning s = true ->
  let '(s', r, gs) := run (SubmitRewardsTree.Run w fuel nodeTrusted st beaconSlot) s in
  gs = [] /\ files s' = files s /\ isRunning s' = true
  /\ submissions (trace s') = submissions (trace s)
  /\ uploads (trace s') = uploads (trace s)
  /\ failures (trace s') = failures (trace s).
Proof.
  intros Hbusy. unfold SubmitRewardsTree.Run.
  destruct nodeTrusted; simpl negb; cbv iota.
  - apply BusyFacts.Run_checkpoint_untouched. exact Hbusy.
  - destruct (RewardsTreeMode w); try (cbn; auto 10; fail).
    destruct (GetStateForSlot w beaconSlot) as [st' | err]; [| cbn; auto 10].
    apply BusyFacts.Run_checkpoint_untouched. exact Hbusy.
Qed.

(** An oracle node of the example network, one interval elapsed, while
    a generation is running. *)
Lemma busy_call_starts_nothing_witness :
  let '(s', r, gs) :=
    run (SubmitRewardsTree.Run (Example.worldAt 11) 3 true Example.oneIntervalElapsed 400)
      (setRunning true Example.fresh) in
  gs = [] /\ files s' = files (setRunning true Example.fresh) /\ isRunning s' = true
  /\ submissions (trace s') = submissions (trace (setRunning true Example.fresh))
  /\ uploads (trace s') = uploads (trace (setRunning true Example.fresh))
  /\ failures (trace s') = failures (trace (setRunning true Example.fresh)).
Proof.
  apply (busy_call_starts_nothing (Example.worldAt 11) 3 true Example.oneIntervalElapsed 400
           (setRunning true Example.fresh)).
  reflexivity.
Defined.

(** ** From generation to submission *)

Module PipelineFacts.
Import GoInt GoTime SubmitRewardsTree.

(** A sequence that returns: its first part returned, and the rest
    returned from the state the first part left. *)
Lemma run_bind_inv {A B : Type} (p : Prog A) (f : A -> Prog B) (s s' : Shared) (b : B)
    (gs : list (Prog unit)) :
  run (p ≫= f) s = (s', Done b, gs) ->
  exists s1 a gs1 gs2,
    run p s = (s1, Done a, gs1) /\ run (f a) s1 = (s', Done b, gs2) /\ gs = gs1 ++ gs2.
Proof.
  rewrite run_bind. destruct (run p s) as [[s1 r] gs1].
  destruct r as [a | msg |]; try discriminate.
  destruct (run (f a) s1) as [[s2 r2] gs2] eqn:Hf.
  intros [= -> -> <-]. exists s1, a, gs1, gs2. auto.
Qed.

Lemma run_log_inv (line : string) (s s' : Shared) (r : Outcome unit) (gs : list (Prog unit)) :
  run (log line) s = (s', r, gs) -> s' = emit (EvLog line) s /\ gs = [].
Proof. simpl. intros [= <- _ <-]. auto. Qed.

Lemma WriteFile_inv (w : World) (path : string) (data : bytes) (s s' : Shared)
    (gs : list (Prog unit)) :
  run (WriteFile w path data) s = (s', Done None, gs) ->
  s' = setFile path (Some (Readable data)) s /\ gs = [].
Proof.
  unfold WriteFile. destruct (WriteFileFault (faults w) path) as [[err remains] |]; simpl.
  - discriminate.
  - intros [= <- <-]. auto.
Qed.

Lemma upload_inv (w : World) (wrapperBytes : bytes) (compressedPath description : string)
    (s s' : Shared) (cid : string) (gs : list (Prog unit)) :
  run (uploadFileToWeb3Storage w wrapperBytes compressedPath description) s
  = (s', Done (cid, None), gs) ->
  gs = []
  /\ Put (w3s w) (EncodeAll (w3s w) wrapperBytes) = Success cid
  /\ s' = emit (EvUpload compressedPath (EncodeAll (w3s w) wrapperBytes))
            (setFile compressedPath (Some (Readable (EncodeAll (w3s w) wrapperBytes)))
               (setFile compressedPath (Some (Readable [])) s)).
Proof.
  unfold uploadFileToWeb3Storage.
  destruct (String.eqb _ _); [simpl; discriminate |].
  destruct (NewClient (w3s w)); [simpl; discriminate |].
  destruct (CreateFault (faults w) compressedPath); [simpl; discriminate |].
  destruct (WriteFault (faults w) compressedPath) as [[err remains] |]; [cbn; discriminate |].
  cbn. destruct (Put (w3s w) (EncodeAll (w3s w) wrapperBytes)) as [c | err]; cbn.
  - intros [= <- <- <-]. auto.
  - discriminate.
Qed.

(** A submission that returns nil has simulated its transaction. *)
Lemma submit_inv (w : World) (index consensusBlock executionBlock : Z)
    (header : rprewards.RewardsFileHeader) (cid : string) (n : Z) (s s' : Shared)
    (gs : list (Prog unit)) :
  run (submitRewardsSnapshot w index consensusBlock executionBlock header cid n) s
  = (s', Done None, gs) ->
  gs = [] /\ files s' = files s /\ isRunning s' = isRunning s
  /\ exists root opts evs,
       DecodeMerkleRoot (gen w) (rprewards.MerkleRoot header) = Success root
       /\ GetTransactor (txl w) = Success opts
       /\ trace s'
          = trace s
            ++ EvSimulate (tx.SubmitRewardSnapshot
                             {| tx.RewardIndex := index;
                                tx.ExecutionBlock := executionBlock;
                                tx.ConsensusBlock := consensusBlock;
                                tx.MerkleRoot := BytesToHash root;
                                tx.MerkleTreeCID := cid;
                                tx.IntervalsPassed := n |}) opts :: evs
       /\ uploads evs = [].
Proof.
  unfold submitRewardsSnapshot, txflow.simulate, txflow.checkAndSend.
  destruct (DecodeMerkleRoot (gen w) (rprewards.MerkleRoot header)) as [root | err];
    [| simpl; discriminate].
  destruct (GetTransactor (txl w)) as [opts | err]; [| simpl; discriminate].
  cbn.
  destruct (GetTxInfo (txl w) _ opts) as [[simulated |] [err |]]; cbn; try discriminate.
  3: destruct (_ && _); cbn; discriminate.
  - destruct (_ && _); cbn; [| discriminate].
    destruct (negb (String.eqb (tx.SimError simulated) "")); cbn; [discriminate |].
    destruct (negb (PrintAndCheckGasInfo (txl w) _ (maxFee (txl w)))); cbn.
    + intros [= <- <-]. cbn. split; [reflexivity |]. split; [reflexivity |].
      split; [reflexivity |]. eexists root, opts, _.
      split; [reflexivity |]. split; [reflexivity |].
      split; [rewrite <- !app_assoc; reflexivity | reflexivity].
    + destruct (PrintAndWaitForTransaction (txl w) _ _); cbn; [discriminate |].
      intros [= <- <-]. cbn. split; [reflexivity |]. split; [reflexivity |].
      split; [reflexivity |]. eexists root, opts, _.
      split; [reflexivity |]. split; [reflexivity |].
      split; [rewrite <- !app_assoc; reflexivity | reflexivity].
  - destruct (negb (String.eqb (tx.SimError simulated) "")); cbn; [discriminate |].
    destruct (negb (PrintAndCheckGasInfo (txl w) _ (maxFee (txl w)))); cbn.
    + intros [= <- <-]. cbn. split; [reflexivity |]. split; [reflexivity |].
      split; [reflexivity |]. eexists root, opts, _.
      split; [reflexivity |]. split; [reflexivity |].
      split; [rewrite <- ?app_assoc; reflexivity | reflexivity].
    + destruct (PrintAndWaitForTransaction (txl w) _ _); cbn; [discriminate |].
      intros [= <- <-]. cbn. split; [reflexivity |]. split; [reflexivity |].
      split; [reflexivity |]. eexists root, opts, _.
      split; [reflexivity |]. split; [reflexivity |].
      split; [rewrite <- ?app_assoc; reflexivity | reflexivity].
Qed.

Lemma map_lines {T : Type} (line : string) (l : list T) :
  uploads (map (fun _ => EvLog line) l) = []
  /\ submissions (map (fun _ => EvLog line) l) = [].
Proof. induction l as [| x l IH]; [split; reflexivity | exact IH]. Qed.

End PipelineFacts.

(** X21.  When [generateTreeImpl] returns nil on an oracle node, every stage
    has succeeded and each has consumed what the stage before produced:
    the generated file was serialized for the minipool performance
    file, whose compressed form was uploaded first; the rewards file
    that was serialized, saved and uploaded second carries the CID of
    that first upload; and the transaction simulated afterwards names
    the CID of the second upload, the Merkle root of the generated
    file, the interval index and the number of intervals passed.  No
    goroutine is started, and the compressed rewards tree is on disk. *)
Theorem generateTreeImpl_success (w : World) (n : GoTime.Duration)
    (index snapshotBeaconBlock elBlockIndex : Z) (startTime endTime : GoTime.Time)
    (header : Header)
    (rewardsTreePath compressedRewardsTreePath
     minipoolPerformancePath compressedMinipoolPerformancePath : string) (s : Shared) :
  let ended :=
    run (SubmitRewardsTree.generateTreeImpl w n true index snapshotBeaconBlock elBlockIndex
           startTime endTime header rewardsTreePath compressedRewardsTreePath
           minipoolPerformancePath compressedMinipoolPerformancePath) s in
  snd (fst ended) = Done None ->
  exists file performanceBytes performanceCid wrapperBytes cid root opts rest,
    GenerateTree (gen w)
      {| reqIndex := index;
         reqStartTime := startTime;
         reqEndTime := endTime;
         reqSnapshotBeaconBlock := snapshotBeaconBlock;
         reqElBlockNumber := Number header;
         reqIntervalsPassed := GoInt.u64 n |} = Success file
    /\ SerializeMinipoolPerformance (gen w) file = Success performanceBytes
    /\ Put (w3s w) (EncodeAll (w3s w) performanceBytes) = Success performanceCid
    /\ Serialize (gen w) (rprewards.SetMinipoolPerformanceFileCID file performanceCid)
       = Success wrapperBytes
    /\ Put (w3s w) (EncodeAll (w3s w) wrapperBytes) = Success cid
    /\ DecodeMerkleRoot (gen w) (rprewards.MerkleRoot (rprewards.GetHeader file)) = Success root
    /\ GetTransactor (txl w) = Success opts
    /\ snd ended = []
    /\ uploads (trace (fst (fst ended)))
       = uploads (trace s)
         ++ [EvUpload compressedMinipoolPerformancePath (EncodeAll (w3s w) performanceBytes);
             EvUpload compressedRewardsTreePath (EncodeAll (w3s w) wrapperBytes)]
    /\ submissions (trace (fst (fst ended)))
       = submissions (trace s)
         ++ EvSimulate (tx.SubmitRewardSnapshot
                          {| tx.RewardIndex := GoInt.i64 index;
                             tx.ExecutionBlock := elBlockIndex;
                             tx.ConsensusBlock := snapshotBeaconBlock;
                             tx.MerkleRoot := SubmitRewardsTree.BytesToHash root;
                             tx.MerkleTreeCID := cid;
                             tx.IntervalsPassed := n |}) opts :: rest
    /\ files (fst (fst ended)) !! compressedRewardsTreePath
       = Some (Readable (EncodeAll (w3s w) wrapperBytes)).
Proof.
  intros ended. subst ended.
  destruct (run _ s) as [[s' r] gs] eqn:Hrun. simpl. intros ->.
  unfold SubmitRewardsTree.generateTreeImpl in Hrun.
  apply PipelineFacts.run_bind_inv in Hrun as (s1 & [] & ga1 & gs2 & H1 & Hrun & ->).
  assert (Hs1 : ga1 = [] /\ files s1 = files s /\ uploads (trace s1) = uploads (trace s)
                /\ submissions (trace s1) = submissions (trace s)).
  { destruct (1 <? GoInt.u64 n); simpl in H1; injection H1 as <- <-; simpl;
      rewrite ?StepsFacts.uploads_app, ?PriceFacts.submissions_app, ?app_nil_r; auto. }
  destruct Hs1 as (-> & Hfiles1 & Hup1 & Hsub1). clear H1.
  apply PipelineFacts.run_bind_inv in Hrun as (s2 & [] & ga2 & gs3 & H2 & Hrun & ->).
  simpl in H2. injection H2 as <- <-.
  destruct (NewNetworkStateManager (gen w)); [simpl in Hrun; discriminate |].
  destruct (GetStateForSlotAtSnapshot (gen w) snapshotBeaconBlock);
    [simpl in Hrun; discriminate |].
  destruct (NewTreeGenerator (gen w) _); [simpl in Hrun; discriminate |].
  destruct (GenerateTree (gen w) _) as [file | err] eqn:Hfile; [| simpl in Hrun; discriminate].
  apply PipelineFacts.run_bind_inv in Hrun as (s3 & [] & ga3 & gs4 & H3 & Hrun & ->).
  simpl in H3. injection H3 as <- <-.
  destruct (SerializeMinipoolPerformance (gen w) file) as [performanceBytes | err] eqn:Hperf;
    [| simpl in Hrun; discriminate].
  apply PipelineFacts.run_bind_inv in Hrun as (s4 & werr & ga4 & gs5 & H4 & Hrun & ->).
  destruct werr as [err |]; [simpl in Hrun; discriminate |].
  apply PipelineFacts.WriteFile_inv in H4 as (-> & ->).
  apply PipelineFacts.run_bind_inv in Hrun as (s5 & uploaded & ga5 & gs6 & H5 & Hrun & ->).
  apply PipelineFacts.run_bind_inv in H5 as (s6 & [] & ga6 & gs7 & H6 & H5 & ->).
  simpl in H6. injection H6 as <- <-.
  apply PipelineFacts.run_bind_inv in H5 as (s7 & up1 & ga7 & gs8 & H7 & H5 & ->).
  destruct up1 as [performanceCid [err |]].
  { simpl in H5. injection H5 as <- <- <-. simpl in Hrun. discriminate. }
  apply PipelineFacts.upload_inv in H7 as (-> & Hput1 & ->).
  simpl in H5. injection H5 as <- <- <-.
  cbv beta iota in Hrun.
  destruct (Serialize (gen w) _) as [wrapperBytes | err] eqn:Hwrapper;
    [| simpl in Hrun; discriminate].
  apply PipelineFacts.run_bind_inv in Hrun as (s8 & [] & ga8 & gs9 & H8 & Hrun & ->).
  simpl in H8. injection H8 as <- <-.
  apply PipelineFacts.run_bind_inv in Hrun as (s9 & werr & ga9 & ga90 & H9 & Hrun & ->).
  destruct werr as [err |]; [simpl in Hrun; discriminate |].
  apply PipelineFacts.WriteFile_inv in H9 as (-> & ->).
  apply PipelineFacts.run_bind_inv in Hrun as (s10 & [] & ga10 & ga101 & H10 & Hrun & ->).
  simpl in H10. injection H10 as <- <-.
  apply PipelineFacts.run_bind_inv in Hrun as (s11 & up2 & ga11 & ga112 & H11 & Hrun & ->).
  destruct up2 as [cid [err |]]; [simpl in Hrun; discriminate |].
  apply PipelineFacts.upload_inv in H11 as (-> & Hput2 & ->).
  apply PipelineFacts.run_bind_inv in Hrun as (s12 & [] & ga12 & ga123 & H12 & Hrun & ->).
  simpl in H12. injection H12 as <- <-.
  apply PipelineFacts.run_bind_inv in Hrun as (s13 & serr & ga13 & ga134 & H13 & Hrun & ->).
  destruct serr as [err |]; [simpl in Hrun; discriminate |].
  apply PipelineFacts.submit_inv in H13
    as (-> & Hfiles13 & _ & root & opts & evs & Hroot & Hopts & Htrace13 & Hevs).
  simpl in Hrun. injection Hrun as <- <-.
  exists file, performanceBytes, performanceCid, wrapperBytes, cid, root, opts,
    (submissions evs).
  simpl in Hroot.
  repeat (split; [first [assumption | reflexivity] |]).
  simpl. rewrite Htrace13, Hfiles13. simpl.
  split; [| split].
  - rewrite !StepsFacts.uploads_app. simpl. rewrite Hup1, Hevs.
    rewrite (proj1 (PipelineFacts.map_lines _ _)).
    rewrite ?app_nil_r, <- ?app_assoc. reflexivity.
  - rewrite !PriceFacts.submissions_app. simpl. rewrite Hsub1.
    rewrite (proj2 (PipelineFacts.map_lines _ _)).
    rewrite ?app_nil_r, <- ?app_assoc. reflexivity.
  - apply lookup_insert_eq.
Qed.

(** The generation of the example network on oracle member 11. *)
Lemma generateTreeImpl_success_witness :
  let ended :=
    run (SubmitRewardsTree.generateTreeImpl (Example.worldAt 11) 1 true 7 349 5349
           (GoTime.Unix 1000) (GoTime.Unix 4840) {| Number := 5349; Time_ := 5224 |}
           "rewards-tree.json" "rewards-tree.json.zst"
           "minipool-performance.json" "minipool-performance.json.zst") Example.fresh in
  exists file performanceBytes performanceCid wrapperBytes cid root opts rest,
    GenerateTree (gen (Example.worldAt 11))
      {| reqIndex := 7;
         reqStartTime := GoTime.Unix 1000;
         reqEndTime := GoTime.Unix 4840;
         reqSnapshotBeaconBlock := 349;
         reqElBlockNumber := 5349;
         reqIntervalsPassed := GoInt.u64 1 |} = Success file
    /\ SerializeMinipoolPerformance (gen (Example.worldAt 11)) file = Success performanceBytes
    /\ Put (w3s (Example.worldAt 11)) (EncodeAll (w3s (Example.worldAt 11)) performanceBytes)
       = Success performanceCid
    /\ Serialize (gen (Example.worldAt 11))
         (rprewards.SetMinipoolPerformanceFileCID file performanceCid) = Success wrapperBytes
    /\ Put (w3s (Example.worldAt 11)) (EncodeAll (w3s (Example.worldAt 11)) wrapperBytes)
       = Success cid
    /\ DecodeMerkleRoot (gen (Example.worldAt 11))
         (rprewards.MerkleRoot (rprewards.GetHeader file)) = Success root
    /\ GetTransactor (txl (Example.worldAt 11)) = Success opts
    /\ snd ended = []
    /\ uploads (trace (fst (fst ended)))
       = uploads (trace Example.fresh)
         ++ [EvUpload "minipool-performance.json.zst"
               (EncodeAll (w3s (Example.worldAt 11)) performanceBytes);
             EvUpload "rewards-tree.json.zst"
               (EncodeAll (w3s (Example.worldAt 11)) wrapperBytes)]
    /\ submissions (trace (fst (fst ended)))
       = submissions (trace Example.fresh)
         ++ EvSimulate (tx.SubmitRewardSnapshot
                          {| tx.RewardIndex := GoInt.i64 7;
                             tx.ExecutionBlock := 5349;
                             tx.ConsensusBlock := 349;
                             tx.MerkleRoot := SubmitRewardsTree.BytesToHash root;
                             tx.MerkleTreeCID := cid;
                             tx.IntervalsPassed := 1 |}) opts :: rest
    /\ files (fst (fst ended)) !! "rewards-tree.json.zst"%string
       = Some (Readable (EncodeAll (w3s (Example.worldAt 11)) wrapperBytes)).
Proof.
  apply (generateTreeImpl_success (Example.worldAt 11) 1 7 349 5349
           (GoTime.Unix 1000) (GoTime.Unix 4840) {| Number := 5349; Time_ := 5224 |}
           "rewards-tree.json" "rewards-tree.json.zst"
           "minipool-performance.json" "minipool-performance.json.zst" Example.fresh).
  vm_compute. reflexivity.
Defined.

(** ** Resubmitting a cached tree *)

Module ResubmitFacts.


End ResubmitFacts.



(** ** Flags of different nodes and of the two tasks *)

(** X23.  For addresses of 20 bytes, interval indices in uint64 and blocks
    below 2^63, the flag of a rewards submission is read at the hash of
    a preimage that determines the node and the interval, and that is
    never the preimage of a prices flag of any node, block or price;
    the generic prices preimage determines the node as well as the
    block. *)
Theorem submission_keys_separate (a1 a2 : state.Address) (i1 i2 b1 b2 : Z) :
  0 <= a1 < 2 ^ 160 -> 0 <= a2 < 2 ^ 160 ->
  GoInt.is_u64 i1 -> GoInt.is_u64 i2 ->
  0 <= b1 < GoInt.two63 -> 0 <= b2 < GoInt.two63 ->
  (forall st,
     SubmitRewardsTree.hasSubmittedTree st a1 i1
     = Done (GetBool st (Keccak256Hash st (treePreimage a1 (bigint.be_bytes 32 i1)))))
  /\ (treePreimage a1 (bigint.be_bytes 32 i1) = treePreimage a2 (bigint.be_bytes 32 i2) ->
      a1 = a2 /\ i1 = i2)
  /\ (forall buf, treePreimage a1 (bigint.be_bytes 32 i1) <> Encoding.genericPreimage a2 buf)
  /\ (forall buf buf',
        treePreimage a1 (bigint.be_bytes 32 i1) <> Encoding.specificPreimage a2 buf buf')
  /\ (Encoding.genericPreimage a1 (bigint.be_bytes 32 b1)
      = Encoding.genericPreimage a2 (bigint.be_bytes 32 b2) ->
      a1 = a2 /\ b1 = b2).
Proof.
  intros Ha1 Ha2 Hi1 Hi2 Hb1 Hb2.
  assert (H160 : 2 ^ 160 = 256 ^ Z.of_nat 20) by reflexivity.
  assert (H64 : GoInt.two64 < 256 ^ Z.of_nat 32).
  { change (256 ^ Z.of_nat 32) with (2 ^ 256). unfold GoInt.two64.
    apply Z.pow_lt_mono_r; lia. }
  assert (H63 : GoInt.two63 < 256 ^ Z.of_nat 32).
  { change (256 ^ Z.of_nat 32) with (2 ^ 256). unfold GoInt.two63.
    apply Z.pow_lt_mono_r; lia. }
  unfold GoInt.is_u64 in Hi1, Hi2. rewrite H160 in Ha1, Ha2.
  split; [| split; [| split; [| split]]].
  - intros st. unfold SubmitRewardsTree.hasSubmittedTree.
    rewrite EncodingFacts.FillBytes_fits by (rewrite Z.abs_eq; lia).
    rewrite Z.abs_eq by lia. reflexivity.
  - unfold treePreimage, SubmitRewardsTree.AddressBytes. intros E.
    apply app_inv_head in E.
    apply app_inj_1 in E; [| rewrite !EncodingFacts.be_bytes_length; reflexivity].
    destruct E as [Ea Ei]. split.
    + apply (EncodingFacts.be_bytes_inj 20); [lia | lia | exact Ea].
    + apply (EncodingFacts.be_bytes_inj 32); [lia | lia | exact Ei].
  - intros buf E. unfold treePreimage, Encoding.genericPreimage in E.
    simpl in E. discriminate E.
  - intros buf buf' E. unfold treePreimage, Encoding.specificPreimage in E.
    simpl in E. discriminate E.
  - unfold Encoding.genericPreimage, SubmitRplPrice.AddressBytes. intros E.
    apply app_inv_head in E.
    apply app_inj_1 in E; [| rewrite !EncodingFacts.be_bytes_length; reflexivity].
    destruct E as [Ea Eb]. split.
    + apply (EncodingFacts.be_bytes_inj 20); [lia | lia | exact Ea].
    + apply (EncodingFacts.be_bytes_inj 32); [lia | lia | exact Eb].
Qed.

(** Members 11 and 22, intervals 7 and 8, blocks 9000 and 9001. *)
Lemma submission_keys_separate_witness :
  treePreimage 11 (bigint.be_bytes 32 7)
  <> Encoding.genericPreimage 22 (bigint.be_bytes 32 9001).
Proof.
  destruct (submission_keys_separate 11 22 7 8 9000 9001) as (_ & _ & Hsep & _).
  - vm_compute. split; [discriminate | reflexivity].
  - vm_compute. split; [discriminate | reflexivity].
  - unfold GoInt.is_u64. vm_compute. split; [discriminate | reflexivity].
  - unfold GoInt.is_u64. vm_compute. split; [discriminate | reflexivity].
  - vm_compute. split; [discriminate | reflexivity].
  - vm_compute. split; [discriminate | reflexivity].
  - apply Hsep.
Defined.

(** ** What a node outside the oracle DAO keeps *)

(** X24.  When [generateTreeImpl] returns nil on a node outside the oracle
    DAO, the rewards tree file holds the serialization of the generated
    file with ["---"] in place of the CID of the minipool performance
    file, the minipool performance file holds its own serialization
    (unless the two paths are the same), and no other file has changed:
    the compressed files are not written. *)
Theorem observer_generation_saves_tree (w : World) (n : GoTime.Duration)
    (index snapshotBeaconBlock elBlockIndex : Z) (startTime endTime : GoTime.Time)
    (header : Header)
    (rewardsTreePath compressedRewardsTreePath
     minipoolPerformancePath compressedMinipoolPerformancePath : string) (s : Shared) :
  let ended :=
    run (SubmitRewardsTree.generateTreeImpl w n false index snapshotBeaconBlock elBlockIndex
           startTime endTime header rewardsTreePath compressedRewardsTreePath
           minipoolPerformancePath compressedMinipoolPerformancePath) s in
  snd (fst ended) = Done None ->
  exists file performanceBytes wrapperBytes,
    GenerateTree (gen w)
      {| reqIndex := index;
         reqStartTime := startTime;
         reqEndTime := endTime;
         reqSnapshotBeaconBlock := snapshotBeaconBlock;
         reqElBlockNumber := Number header;
         reqIntervalsPassed := GoInt.u64 n |} = Success file
    /\ SerializeMinipoolPerformance (gen w) file = Success performanceBytes
    /\ Serialize (gen w) (rprewards.SetMinipoolPerformanceFileCID file "---")
       = Success wrapperBytes
    /\ files (fst (fst ended)) !! rewardsTreePath = Some (Readable wrapperBytes)
    /\ (minipoolPerformancePath <> rewardsTreePath ->
        files (fst (fst ended)) !! minipoolPerformancePath = Some (Readable performanceBytes))
    /\ forall path,
         path <> rewardsTreePath -> path <> minipoolPerformancePath ->
         files (fst (fst ended)) !! path = files s !! path.
Proof.
  intros ended. subst ended.
  destruct (run _ s) as [[s' r] gs] eqn:Hrun. simpl. intros ->.
  unfold SubmitRewardsTree.generateTreeImpl in Hrun.
  apply PipelineFacts.run_bind_inv in Hrun as (s1 & [] & ga1 & gb1 & H1 & Hrun & ->).
  assert (Hfiles1 : files s1 = files s).
  { destruct (1 <? GoInt.u64 n); simpl in H1; injection H1 as <- <-; reflexivity. }
  clear H1.
  apply PipelineFacts.run_bind_inv in Hrun as (s2 & [] & ga2 & gb2 & H2 & Hrun & ->).
  simpl in H2. injection H2 as <- <-.
  destruct (NewNetworkStateManager (gen w)); [simpl in Hrun; discriminate |].
  destruct (GetStateForSlotAtSnapshot (gen w) snapshotBeaconBlock);
    [simpl in Hrun; discriminate |].
  destruct (NewTreeGenerator (gen w) _); [simpl in Hrun; discriminate |].
  destruct (GenerateTree (gen w) _) as [file | err] eqn:Hfile; [| simpl in Hrun; discriminate].
  apply PipelineFacts.run_bind_inv in Hrun as (s3 & [] & ga3 & gb3 & H3 & Hrun & ->).
  simpl in H3. injection H3 as <- <-.
  destruct (SerializeMinipoolPerformance (gen w) file) as [performanceBytes | err] eqn:Hperf;
    [| simpl in Hrun; discriminate].
  apply PipelineFacts.run_bind_inv in Hrun as (s4 & werr & ga4 & gb4 & H4 & Hrun & ->).
  destruct werr as [err |]; [simpl in Hrun; discriminate |].
  apply PipelineFacts.WriteFile_inv in H4 as (-> & ->).
  apply PipelineFacts.run_bind_inv in Hrun as (s5 & saved & ga5 & gb5 & H5 & Hrun & ->).
  simpl in H5. injection H5 as <- <- <-.
  cbv beta iota in Hrun.
  destruct (Serialize (gen w) _) as [wrapperBytes | err] eqn:Hwrapper;
    [| simpl in Hrun; discriminate].
  apply PipelineFacts.run_bind_inv in Hrun as (s6 & [] & ga6 & gb6 & H6 & Hrun & ->).
  simpl in H6. injection H6 as <- <-.
  apply PipelineFacts.run_bind_inv in Hrun as (s7 & werr & ga7 & gb7 & H7 & Hrun & ->).
  destruct werr as [err |]; [simpl in Hrun; discriminate |].
  apply PipelineFacts.WriteFile_inv in H7 as (-> & ->).
  simpl in Hrun. injection Hrun as <- <-.
  exists file, performanceBytes, wrapperBytes.
  do 3 (split; [first [assumption | reflexivity] |]).
  simpl. split; [apply lookup_insert_eq |]. split.
  - intros Hne. rewrite lookup_insert_ne by congruence. apply lookup_insert_eq.
  - intros path Htree Hperformance. rewrite !lookup_insert_ne by congruence.
    rewrite Hfiles1. reflexivity.
Qed.

(** The generation of the example network on a node that is no oracle
    member. *)
Lemma observer_generation_saves_tree_witness :
  let w := Example.worldAt 11 in
  let ended :=
    run (SubmitRewardsTree.generateTreeImpl w 1 false 7 349 5349
           (GoTime.Unix 1000) (GoTime.Unix 4840) {| Number := 5349; Time_ := 5224 |}
           "rewards-tree.json" "rewards-tree.json.zst"
           "minipool-performance.json" "minipool-performance.json.zst") Example.fresh in
  exists file performanceBytes wrapperBytes,
    GenerateTree (gen w)
      {| reqIndex := 7;
         reqStartTime := GoTime.Unix 1000;
         reqEndTime := GoTime.Unix 4840;
         reqSnapshotBeaconBlock := 349;
         reqElBlockNumber := 5349;
         reqIntervalsPassed := GoInt.u64 1 |} = Success file
    /\ SerializeMinipoolPerformance (gen w) file = Success performanceBytes
    /\ Serialize (gen w) (rprewards.SetMinipoolPerformanceFileCID file "---")
       = Success wrapperBytes
    /\ files (fst (fst ended)) !! "rewards-tree.json"%string = Some (Readable wrapperBytes)
    /\ ("minipool-performance.json"%string <> "rewards-tree.json"%string ->
        files (fst (fst ended)) !! "minipool-performance.json"%string
        = Some (Readable performanceBytes))
    /\ forall path,
         path <> "rewards-tree.json"%string -> path <> "minipool-performance.json"%string ->
         files (fst (fst ended)) !! path = files Example.fresh !! path.
Proof.
  intros w ended.
  apply (observer_generation_saves_tree (Example.worldAt 11) 1 7 349 5349
           (GoTime.Unix 1000) (GoTime.Unix 4840) {| Number := 5349; Time_ := 5224 |}
           "rewards-tree.json" "rewards-tree.json.zst"
           "minipool-performance.json" "minipool-performance.json.zst" Example.fresh).
  vm_compute. reflexivity.
Defined.

(** ** The files both tasks write *)

Module FilesFacts.
Import GoInt GoTime SubmitRewardsTree StepsFacts.

Lemma Within_refl (touch : string -> Prop) (s : Shared) : Within touch s s.
Proof. intros path _. reflexivity. Qed.

Lemma Within_trans (touch : string -> Prop) (s1 s2 s3 : Shared) :
  Within touch s1 s2 -> Within touch s2 s3 -> Within touch s1 s3.
Proof. intros H1 H2 path Hp. rewrite (H2 path Hp). apply H1. exact Hp. Qed.

Lemma Within_same (touch : string -> Prop) (s s' : Shared) :
  files s' = files s -> Within touch s s'.
Proof. intros H path _. rewrite H. reflexivity. Qed.

Lemma Within_setFile (touch : string -> Prop) (path : string) (node : option FileNode)
    (s : Shared) :
  touch path -> Within touch s (setFile path node s).
Proof.
  intros Hpath other Hother. simpl.
  assert (path <> other) by (intros ->; contradiction).
  destruct node; [apply lookup_insert_ne | apply lookup_delete_ne]; assumption.
Qed.

Lemma Steps_weaken (R R' : Shared -> Shared -> Prop) {A : Type} (p : Prog A) :
  (forall s s', R s s' -> R' s s') -> Steps R p -> Steps R' p.
Proof.
  intros Himpl Hp.
  induction Hp as [A a | A msg | A | A X step k Hstep Hk IH | A g k Hg IHg Hk IHk];
    constructor; auto.
Qed.

Ltac within_step :=
  simpl;
  first [ apply Within_same; reflexivity
        | apply Within_setFile; assumption ].

Ltac steps :=
  repeat match goal with
         | |- Steps _ (Ret _) => apply Steps_ret
         | |- Steps _ (Crash _) => apply Steps_crash
         | |- Steps _ Exhausted => apply Steps_exhausted
         | |- Steps _ (_ ≫= _) => apply Steps_bind; [| intros ?]
         | |- Steps _ (Go _ _) => apply Steps_go
         | |- Steps _ (lift _) => apply Steps_lift
         | |- Steps _ (modify _) => apply Steps_modify; intros ?; within_step
         | |- Steps _ (log _) => apply Steps_modify; intros ?; within_step
         | |- Steps _ (printMessage _) => apply Steps_modify; intros ?; within_step
         | |- Steps _ (act _) => apply Steps_act; [intros ?; within_step | intros ?]
         | |- Steps _ (Act _ _) => apply Steps_act; [intros ?; within_step | intros ?]
         | |- Steps _ (match ?x with _ => _ end) => destruct x
         end.

Section Paths.
Variable w : World.
Variable touch : string -> Prop.

Lemma WriteFile_within (path : string) (data : bytes) :
  touch path -> Steps (Within touch) (WriteFile w path data).
Proof. intros Hpath. unfold WriteFile. steps. Qed.

Lemma upload_within (wrapperBytes : bytes) (compressedPath description : string) :
  touch compressedPath ->
  Steps (Within touch) (uploadFileToWeb3Storage w wrapperBytes compressedPath description).
Proof. intros Hpath. unfold uploadFileToWeb3Storage. steps. Qed.

Lemma submit_within (index consensusBlock executionBlock : Z)
    (header : rprewards.RewardsFileHeader) (cid : string) (n : Z) :
  Steps (Within touch)
    (submitRewardsSnapshot w index consensusBlock executionBlock header cid n).
Proof.
  unfold submitRewardsSnapshot, txflow.simulate, txflow.checkAndSend. steps.
Qed.

Lemma generateTreeImpl_within (n : Duration) (nodeTrusted : bool)
    (index beaconBlock elBlock : Z) (startTime endTime : Time) (header : Header)
    (p1 p2 p3 p4 : string) :
  touch p1 -> touch p2 -> touch p3 -> touch p4 ->
  Steps (Within touch)
    (generateTreeImpl w n nodeTrusted index beaconBlock elBlock startTime endTime header
       p1 p2 p3 p4).
Proof.
  intros H1 H2 H3 H4. unfold generateTreeImpl.
  apply Steps_bind; [steps | intros _].
  apply Steps_bind; [steps | intros _].
  destruct (NewNetworkStateManager (gen w)); [steps |].
  destruct (GetStateForSlotAtSnapshot (gen w) beaconBlock); [steps |].
  destruct (NewTreeGenerator (gen w) _); [steps |].
  destruct (GenerateTree (gen w) _) as [rewardsFile | err]; [| steps].
  apply Steps_bind; [steps | intros _].
  destruct (SerializeMinipoolPerformance (gen w) rewardsFile) as [perfBytes | err]; [| steps].
  apply Steps_bind; [apply WriteFile_within; exact H3 | intros [err |]]; [steps |].
  apply Steps_bind.
  { destruct nodeTrusted; [| steps].
    apply Steps_bind; [steps | intros _].
    apply Steps_bind; [apply upload_within; exact H4 | intros [cid [err |]]]; steps. }
  intros [file | err]; [| steps].
  destruct (Serialize (gen w) file) as [wrapperBytes | err]; [| steps].
  apply Steps_bind; [steps | intros _].
  apply Steps_bind; [apply WriteFile_within; exact H1 | intros [err |]]; [steps |].
  destruct nodeTrusted; [| steps].
  apply Steps_bind; [steps | intros _].
  apply Steps_bind; [apply upload_within; exact H2 | intros [cid [err |]]]; [steps |].
  apply Steps_bind; [steps | intros _].
  apply Steps_bind; [apply submit_within | intros [err |]]; steps.
Qed.

End Paths.

Lemma Run_work_within (w : World) (nodeTrusted : bool) (st : state.NetworkState) (n : Duration)
    (startTime endTime : Time) (beaconBlock elBlock : Z) (header : Header) :
  Steps (Within (artifactPath w))
    (Run_work w nodeTrusted st n startTime endTime beaconBlock elBlock header).
Proof.
  unfold Run_work, handleError.
  set (index := state.RewardIndex (state.NetworkDetails st)).
  assert (H1 : artifactPath w (GetRewardsTreePath w index)) by (exists index; auto).
  assert (H2 : artifactPath w (GetRewardsTreePath w index ++ RewardsTreeIpfsExtension w))
    by (exists index; auto).
  assert (H3 : artifactPath w (GetMinipoolPerformancePath w index)) by (exists index; auto).
  assert (H4 : artifactPath w (GetMinipoolPerformancePath w index ++ RewardsTreeIpfsExtension w))
    by (exists index; auto 6).
  destruct (NewRewardsPool w); [steps |].
  apply Steps_bind.
  { constructor; [| intros x; constructor]. intros s.
    destruct (isExistingFileValid _ _ _ _) as [ok logs]. within_step. }
  intros [|].
  - destruct nodeTrusted; simpl negb; cbv iota; [| steps].
    apply Steps_bind; [steps | intros [[|] [err |]]]; try solve [steps].
    apply Steps_bind; [steps | intros _].
    apply Steps_bind.
    { unfold ReadFile. apply Steps_act; [intros s; within_step | intros x; constructor]. }
    intros [wrapperBytes | err]; [| steps].
    destruct (DeserializeRewardsFile (gen w) wrapperBytes) as [proofWrapper | err]; [| steps].
    apply Steps_bind; [apply upload_within; exact H2 | intros [cid [err |]]]; [steps |].
    apply Steps_bind; [steps | intros _].
    apply Steps_bind; [apply submit_within | intros [err |]]; steps.
  - apply Steps_bind; [| intros _; steps].
    unfold generateTree. apply Steps_go; [| steps].
    unfold generateTreeRoutine, handleError.
    apply Steps_bind; [steps | intros _].
    destruct (GetBestApiClient (gen w) (Number header)); [steps |].
    apply Steps_bind; [apply generateTreeImpl_within; assumption | intros [err |]]; steps.
Qed.

Lemma rewards_Run_within (w : World) (fuel : nat) (nodeTrusted : bool)
    (st : state.NetworkState) (beaconSlot : Z) :
  Steps (Within (artifactPath w)) (Run w fuel nodeTrusted st beaconSlot).
Proof.
  assert (Hcheckpoint : forall st', Steps (Within (artifactPath w))
                                      (Run_checkpoint w fuel nodeTrusted st')).
  { intros st'. unfold Run_checkpoint.
    apply Steps_bind; [steps | intros _].
    destruct (intervalsPassed _ _ _) as [n |]; [| steps].
    destruct (n =? 0); [steps |].
    destruct (getSnapshotConsensusBlock w fuel _ st') as [logs resolved].
    apply Steps_bind; [steps | intros _].
    apply Steps_bind; [steps | intros [[beaconBlock elBlock] [err |]]]; [steps |].
    destruct (HeaderByNumber w (i64 elBlock)) as [header | err]; [| steps].
    apply Steps_bind.
    { constructor; [| intros x; constructor]. intros s. destruct (isRunning s); within_step. }
    intros [|]; [steps |]. apply Run_work_within. }
  unfold Run. destruct (negb nodeTrusted); [| apply Hcheckpoint].
  destruct (RewardsTreeMode w); try apply Steps_ret.
  destruct (GetStateForSlot w beaconSlot); [apply Hcheckpoint | apply Steps_ret].
Qed.

Lemma price_Run_within (w : World) (pw : PriceWorld) (st : state.NetworkState) :
  Steps (Within (artifactPath w)) (SubmitRplPrice.Run w pw st).
Proof.
  apply (Steps_weaken Offline); [| apply OfflineFacts.Run_offline].
  intros s s' [Hfiles _]. apply Within_same. exact Hfiles.
Qed.

End FilesFacts.

(** X25.  Whatever calls of the two tasks, on oracle nodes or not, and their
    goroutines are interleaved in one process, the only files created,
    changed or removed are rewards tree files and minipool performance
    files of some interval and their compressed forms. *)
Theorem watchtower_writes_artifacts_only (w : World) (pw : PriceWorld) (fuel : nat)
    (rewards : list (bool * state.NetworkState * Z)) (prices : list state.NetworkState)
    (schedule : list nat) (s : Shared) :
  match Sched.exec schedule (watchtowerCalls w pw fuel rewards prices s) with
  | Some sys =>
      forall path, ~ artifactPath w path -> files (Sched.shared sys) !! path = files s !! path
  | None => True
  end.
Proof.
  destruct (Sched.exec schedule (watchtowerCalls w pw fuel rewards prices s)) as [sys |]
    eqn:Hexec; [| exact I].
  destruct (StepsFacts.exec_Steps (Within (artifactPath w))
              (FilesFacts.Within_refl _) (FilesFacts.Within_trans _)
              schedule (watchtowerCalls w pw fuel rewards prices s) sys) as (Hwithin & _);
    [| exact Hexec | exact Hwithin].
  simpl. apply Forall_app. split.
  - apply Forall_fmap, Forall_forall. intros c _. simpl. apply FilesFacts.rewards_Run_within.
  - apply Forall_fmap, Forall_forall. intros st _. simpl. apply FilesFacts.price_Run_within.
Qed.

(** ** The gates before the relays *)

(** X26.  [updateL2Prices] does nothing observable unless every messenger
    binding was created, some messenger is configured, the transactor
    and the stale query are available, some target is stale and the
    node's index is the selected one.  One failed binding stops it
    before any relay, with the joined error; and with a stale target
    but no oracle member in the state it panics on the division by the
    member count. *)
Theorem updateL2Prices_gates (w : World) (pw : PriceWorld) (st : state.NetworkState)
    (s : Shared) :
  let members := state.OracleDaoMemberDetails st in
  let bindings :=
    errors.Join (map (NewMessenger pw)
                   (List.filter (SubmitRplPrice.configured pw) SubmitRplPrice.targets)) in
  let ended := run (SubmitRplPrice.updateL2Prices w pw st) s in
  (fst (fst ended) <> s ->
   bindings = None
   /\ StaleQuery pw = None
   /\ existsb (SubmitRplPrice.stale pw) SubmitRplPrice.targets = true
   /\ members <> []
   /\ exists opts,
        GetTransactor (txl w) = Success opts
        /\ SubmitRplPrice.findIndex members (tx.From opts) 0
           = SubmitRplPrice.indexToSubmit (state.ElBlockNumber st) (Z.of_nat (length members)))
  /\ (forall err, bindings = Some err -> ended = (s, Done (Some err), []))
  /\ (forall opts,
        bindings = None ->
        GetTransactor (txl w) = Success opts ->
        StaleQuery pw = None ->
        existsb (SubmitRplPrice.stale pw) SubmitRplPrice.targets = true ->
        members = [] ->
        ended = (s, Panic "runtime error: integer divide by zero", [])).
Proof.
  intros members bindings ended. subst members bindings ended.
  unfold SubmitRplPrice.updateL2Prices.
  destruct (errors.Join _) as [err |] eqn:Hbind.
  { simpl. split; [congruence |]. split; [intros ? [= <-]; reflexivity | discriminate]. }
  destruct (forallb _ SubmitRplPrice.targets) eqn:Hnone.
  { simpl. split; [congruence |]. split; [discriminate |].
    intros opts _ _ _ Hstale _.
    rewrite (RelayFacts.some_stale_some_configured pw Hstale) in Hnone. discriminate. }
  destruct (GetTransactor (txl w)) as [opts | err] eqn:Hopts.
  2: { simpl. split; [congruence |]. split; discriminate. }
  destruct (StaleQuery pw) as [err |] eqn:Hquery.
  { simpl. split; [congruence |]. split; discriminate. }
  destruct (existsb (SubmitRplPrice.stale pw) SubmitRplPrice.targets) eqn:Hstale; simpl negb;
    cbv iota.
  2: { simpl. split; [congruence |]. split; discriminate. }
  destruct (Z.eqb_spec (Z.of_nat (length (state.OracleDaoMemberDetails st))) 0) as [E | Hcount].
  { simpl. split; [congruence |]. split; [discriminate |]. intros; reflexivity. }
  assert (Hmembers : state.OracleDaoMemberDetails st <> [])
    by (intros E; rewrite E in Hcount; apply Hcount; reflexivity).
  destruct (Z.eqb_spec
              (SubmitRplPrice.findIndex (state.OracleDaoMemberDetails st) (tx.From opts) 0)
              (SubmitRplPrice.indexToSubmit (state.ElBlockNumber st)
                 (Z.of_nat (length (state.OracleDaoMemberDetails st))))) as [Hleader | Hother].
  - split; [| split; [discriminate |]].
    + intros _. repeat (split; [first [reflexivity | assumption] |]).
      exists opts. split; [reflexivity | exact Hleader].
    + intros ? _ _ _ _ Hempty. contradiction.
  - simpl. split; [congruence |]. split; [discriminate |].
    intros ? _ _ _ _ Hempty. contradiction.
Qed.

(** The example network without oracle members: the call panics before
    anything is done. *)
Lemma updateL2Prices_gates_witness :
  fst (fst (run (SubmitRplPrice.updateL2Prices (Example.worldAt 11)
                   (Example.priceWorld Example.allStale)
                   {| state.ElBlockNumber := 75;
                      state.BeaconSlotNumber := 400;
                      state.BeaconConfig := Example.eth2Config;
                      state.NetworkDetails := Example.details (3840 * GoTime.Second);
                      state.OracleDaoMemberDetails := [] |}) Example.fresh))
  = Example.fresh.
Proof.
  destruct (updateL2Prices_gates (Example.worldAt 11) (Example.priceWorld Example.allStale)
              {| state.ElBlockNumber := 75;
                 state.BeaconSlotNumber := 400;
                 state.BeaconConfig := Example.eth2Config;
                 state.NetworkDetails := Example.details (3840 * GoTime.Second);
                 state.OracleDaoMemberDetails := [] |} Example.fresh) as (_ & _ & Hpanic).
  cbv zeta in Hpanic.
  rewrite (Hpanic (Example.opts0 11)); reflexivity.
Defined.

(** ** Schedules of the example network *)

(** One call on a generating node outside the oracle DAO, and then its
    goroutine to the end: both files are written, nothing is sent or
    uploaded, and the flag is clear again. *)
Lemma observer_schedule_example :
  Sample.seen (repeat 0%nat 5 ++ repeat 1%nat 9)
    (rewardsCalls Sample.generatorWorld 3 false [(Example.oneIntervalElapsed, 400)]
       Example.fresh)
  = Some (["minipool-performance.json"%string; "rewards-tree.json"%string], [], 0%nat,
          0%nat, false).
Proof. vm_compute. reflexivity. Qed.

(** One call of each task on oracle member 11, the selected member at
    block 0, and then the two goroutines taking turns: the four
    artifacts are on disk, the five relays, the price and the rewards
    snapshot have been sent, and two uploads were made. *)
Lemma watchtower_schedule_example :
  exists submission,
    Sample.seen (repeat 0%nat 5 ++ repeat 1%nat 23 ++ Sample.alternate 11 ++ repeat 2%nat 9)
      (watchtowerCalls (Example.worldAt 11) (Example.priceWorld Example.allStale) 3
         [(true, Example.oneIntervalElapsed, 400)] [Example.relayState 0] Example.fresh)
    = Some (["minipool-performance.json.zst"%string; "minipool-performance.json"%string;
             "rewards-tree.json.zst"%string; "rewards-tree.json"%string],
            [tx.OptimismSubmitRate; tx.PolygonSubmitRate;
             tx.ArbitrumSubmitRate 323200000000000 40000 100000000;
             tx.ZkSyncEraSubmitRate 750000 800; tx.BaseSubmitRate;
             tx.SubmitPrices 9000 12345;
             tx.SubmitRewardSnapshot submission],
            2%nat, 0%nat, false).
Proof. eexists. vm_compute. reflexivity. Qed.
